(** * AgentRoundtable: the debate tournament of [DebateClass.py]

    A shallow embedding of [DebateAgent] and [DebateTournament]
    (src/DebateClass.py), of [SocietyDebateTournament]
    (src/society_debate_tournament.py, module [Society]) and of the two
    scripts (src/main.py and the main block of the latter).

    Conventions of the embedding:
    - a Python [dict] is an insertion-ordered association list ([dict V]),
      updated in place when the key exists and extended at the end otherwise;
    - a Python [str] is a [string]; one [ascii] is one character;
    - wall-clock readings and durations live in an abstract numeric type
      ([PyNum]); the built-in [sum] is an operation of that type
      ([num_sum]), since its result on floats depends on the interpreter:
      the left-to-right fold of [+] before CPython 3.12, compensated
      summation from 3.12 on;
    - the text-generation backend and the clock are oracles: the k-th
      backend call and the k-th clock reading are functions of k; so is
      the file system where a call on it can fail for an argument (the
      output directory of [DebateTournament_create]);
    - mutable objects are threaded explicitly; Python exceptions are the
      [Raise] results of a state-and-error monad over the [World]. *)

From Stdlib Require Import String Ascii List ZArith Lia Bool Arith PeanoNat.
From Stdlib Require Import Decimal DecimalNat DecimalString QArith.
From Stdlib Require Finite.
From Stdlib Require PrimInt63 PrimFloat.
From Stdlib Require Import Permutation Sorted.
Import ListNotations.
Open Scope string_scope.
Open Scope list_scope.
Open Scope nat_scope.

(** ** Python dictionaries with string keys *)

Definition dict (V : Type) := list (string * V).

Fixpoint dict_get {V} (d : dict V) (k : string) : option V :=
  match d with
  | [] => None
  | (k', v) :: r => if String.eqb k' k then Some v else dict_get r k
  end.

Fixpoint dict_set {V} (d : dict V) (k : string) (v : V) : dict V :=
  match d with
  | [] => [(k, v)]
  | (k', v') :: r =>
      if String.eqb k' k then (k', v) :: r else (k', v') :: dict_set r k v
  end.

Definition keys {V} (d : dict V) : list string := map fst d.
Definition values {V} (d : dict V) : list V := map snd d.

(** [x in l] for a list of strings. *)
Fixpoint str_mem (x : string) (l : list string) : bool :=
  match l with
  | [] => false
  | y :: r => String.eqb y x || str_mem x r
  end.

(** ** Python strings *)

(** [sub in s]: substring test. *)
Fixpoint str_in (sub s : string) : bool :=
  String.prefix sub s ||
  match s with
  | EmptyString => false
  | String _ s' => str_in sub s'
  end.

(** [s[:n]] *)
Definition str_take (n : nat) (s : string) : string := String.substring 0 n s.

(** [str(n)] for a non-negative integer. *)
Definition str_of_nat (n : nat) : string :=
  NilEmpty.string_of_uint (Nat.to_uint n).

(** How an f-string renders an optional text ([None] prints as "None"). *)
Definition fmt_opt (o : option string) : string :=
  match o with Some s => s | None => "None" end.

(** Truthiness of an optional text: [None] and [""] are false. *)
Definition truthy (o : option string) : bool :=
  match o with
  | None => false
  | Some EmptyString => false
  | Some _ => true
  end.

(** An ASCII letter. *)
Definition is_letter (c : ascii) : bool :=
  let n := nat_of_ascii c in
  ((65 <=? n) && (n <=? 90)) || ((97 <=? n) && (n <=? 122)).

(** ** Numbers used for time *)

Class PyNum (T : Type) := {
  num_zero : T;
  num_add : T -> T -> T;
  num_sub : T -> T -> T;
  num_div : T -> T -> T;
  num_of_nat : nat -> T;
  num_ltb : T -> T -> bool;
  (** the built-in [sum] on a list of such numbers *)
  num_sum : list T -> T
}.

(** Exact arithmetic: [sum] adds from left to right. *)
#[export] Instance Q_PyNum : PyNum Q := {
  num_zero := 0%Q;
  num_add := Qplus;
  num_sub := Qminus;
  num_div := Qdiv;
  num_of_nat := fun n => inject_Z (Z.of_nat n);
  num_ltb := fun a b => negb (Qle_bool b a);
  num_sum := fun l => fold_left Qplus l 0%Q
}.

(** ** Exceptions *)

Inductive PyError : Type :=
| KeyError (k : string)
| ValueError (msg : string)
| IndexError
| ZeroDivisionError
| TypeError
| OSError (msg : string).

Inductive Result (A : Type) : Type :=
| Ok (a : A)
| Raise (e : PyError).
Arguments Ok {A} a.
Arguments Raise {A} e.

(** ** Result aggregation (DebateClass.py, lines 355-368;
    society_debate_tournament.py, lines 228-243) *)

(** The inner loop of [calculate_results]:
    [winner_count[winner_id] = winner_count.get(winner_id, 0) + 1]. *)
Definition tally_step (winner_count : dict nat) (wid : string) : dict nat :=
  dict_set winner_count wid
    (match dict_get winner_count wid with Some c => c | None => 0 end + 1).

Definition tally (winner_ids : list string) : dict nat :=
  fold_left tally_step winner_ids [].

(** [max(winner_count, key=winner_count.get)]: the first key whose count is
    not exceeded by a later one; [ValueError] on the empty mapping.  The
    count of a key is the value stored with it. *)
Definition max_step (best kv : string * nat) : string * nat :=
  if snd best <? snd kv then kv else best.

Definition max_by_count (winner_count : dict nat) : Result string :=
  match winner_count with
  | [] => Raise (ValueError "max() arg is an empty sequence")
  | kv :: r => Ok (fst (fold_left max_step r kv))
  end.

(** [win_counts[debate_winner] += 1] *)
Definition credit (win_counts : dict nat) (w : string) : Result (dict nat) :=
  match dict_get win_counts w with
  | None => Raise (KeyError w)
  | Some c => Ok (dict_set win_counts w (c + 1))
  end.

(** The loop over [self.votes.items()]; each entry is given by the list of
    its votes' [winner_id]. *)
Fixpoint count_wins (win_counts : dict nat) (vs : list (list string))
  : Result (dict nat) :=
  match vs with
  | [] => Ok win_counts
  | wids :: r =>
      match max_by_count (tally wids) with
      | Raise e => Raise e
      | Ok debate_winner =>
          match credit win_counts debate_winner with
          | Raise e => Raise e
          | Ok wc => count_wins wc r
          end
      end
  end.

(** [{k: 0 for k in ks}] *)
Definition zero_counts (ks : list string) : dict nat :=
  fold_left (fun d k => dict_set d k 0) ks [].

(** [sorted(items, key=lambda x: x[1], reverse=True)]: stable, descending. *)
Fixpoint insert_desc (x : string * nat) (l : list (string * nat))
  : list (string * nat) :=
  match l with
  | [] => [x]
  | y :: r => if snd y <=? snd x then x :: y :: r else y :: insert_desc x r
  end.

Definition sorted_desc (l : list (string * nat)) : list (string * nat) :=
  fold_right insert_desc [] l.

(** ** Vote extraction and ranking of [SocietyDebateTournament] *)

Record SocietyVote : Type := mkSocietyVote {
  sv_voter_id : string;
  sv_winner_id : string;
  sv_reasoning : string
}.

(** The tail of [vote_on_debate] (lines 152-162), given the backend's text. *)
Definition society_vote (voter_id : string) (ps : string * string)
           (vote_text : string) : SocietyVote :=
  let v := if str_in "A" (str_take 10 vote_text) then "A" else "B" in
  let winner_id := if String.eqb v "A" then fst ps else snd ps in
  mkSocietyVote voter_id winner_id vote_text.

(** [f"bot_{i}"] *)
Definition bot_name (i : nat) : string := ("bot_" ++ str_of_nat i)%string.

(** [calculate_rankings]: the win counts and the rankings it saves. *)
Definition calculate_rankings (num_bots : Z)
           (votes : dict (string * string * list SocietyVote))
  : Result (list (string * nat) * dict nat) :=
  let win_counts := zero_counts (map bot_name (seq 0 (Z.to_nat num_bots))) in
  match count_wins win_counts
          (map (fun kv => map sv_winner_id (snd (snd kv))) votes) with
  | Raise e => Raise e
  | Ok wc => Ok (sorted_desc wc, wc)
  end.

(** ** Reference enumerations used in the statements *)

(** All pairs [[l[i]; l[j]]] with [i < j], in lexicographic order of (i, j). *)
Definition pairs_by_index (l : list string) : list (list string) :=
  flat_map
    (fun i => map (fun j => [nth i l ""; nth j l ""])
                  (seq (S i) (length l - S i)))
    (seq 0 (length l)).

(** Number of occurrences of [x] in [l]. *)
Fixpoint count (x : string) (l : list string) : nat :=
  match l with
  | [] => 0
  | y :: r => (if String.eqb y x then 1 else 0) + count x r
  end.

(** [sum(l)] for a list of integers. *)
Definition sum_nat (l : list nat) : nat := fold_left Nat.add l 0.

Section Model.

Context {T : Type} {NT : PyNum T}.

(** [sum(l)], the built-in. *)
Definition py_sum (l : list T) : T := num_sum l.


(** [min(l)] and [max(l)] of a non-empty list: the first extremal element. *)
Definition py_min (x : T) (l : list T) : T :=
  fold_left (fun best y => if num_ltb y best then y else best) l x.
Definition py_max (x : T) (l : list T) : T :=
  fold_left (fun best y => if num_ltb best y then y else best) l x.

(** ** Data model *)

Record Message : Type := mkMessage { role : string; content : string }.

Record Metrics : Type := mkMetrics {
  total_tokens : Z;
  total_time : T;
  response_times : list T;
  avg_response_time : T
}.

Record DebateAgent : Type := mkAgent {
  agent_id : string;
  model : string;
  conversation_history : list Message;
  initial_position : option string;
  position_label : option string;
  performance_metrics : Metrics
}.

Record AgentMetrics : Type := mkAgentMetrics {
  m_agent_id : string;
  m_model : string;
  m_total_responses : nat;
  m_total_time : T;
  m_avg_response_time : T;
  m_min_response_time : T;
  m_max_response_time : T;
  m_total_tokens : Z;
  m_conversation_length : nat
}.

Record Position : Type := mkPosition {
  pos_agent_id : string;
  pos_position : string;
  pos_model : string;
  pos_generated_at : T
}.

(** A debate's [participants] is always the two-element list
    [[agent_a_id, agent_b_id]]: a pair. *)
Record Debate : Type := mkDebate {
  participants : string * string;
  rounds : list (dict string);
  timing : dict T
}.

Record Vote : Type := mkVote {
  voter_id : string;
  winner_id : string;
  reasoning : string;
  vote : string
}.

Record VoteData : Type := mkVoteData {
  vd_participants : string * string;
  vd_votes : list Vote
}.

Record TournamentMetrics : Type := mkTournamentMetrics {
  start_time : option T;
  end_time : option T;
  total_duration : option T;
  phase_durations : dict T
}.

Record DebateTournament : Type := mkTournament {
  num_agents : Z;
  output_dir : string;
  t_position_label : string;
  topic_question : string;
  agents : dict DebateAgent;
  positions : dict Position;
  debates : list Debate;
  votes : dict VoteData;
  tournament_metrics : TournamentMetrics
}.

Record TournamentInfo : Type := mkTournamentInfo {
  ti_num_agents : Z;
  ti_topic_question : string;
  ti_position_label : string;
  ti_timestamp : T;
  ti_duration : TournamentMetrics
}.

Record Results : Type := mkResults {
  tournament_info : TournamentInfo;
  rankings : list (string * nat);
  win_counts : dict nat;
  agent_performance : dict AgentMetrics
}.

(** What [json.dump] is given, per output file. *)
Inductive Artifact : Type :=
| PositionsJson (topic label : string) (ps : dict Position)
| DebatesJson (ds : list Debate)
| VotesJson (vs : dict VoteData)
| ResultsJson (r : Results).

(** ** The world: clock, backend, files *)

Record World : Type := mkWorld {
  ticks : nat;
  chat_log : list (string * list Message);
  files : dict Artifact
}.

(** The backend: the answer of the k-th call to [ollama.chat(model, messages)]. *)
Variable chat : nat -> string -> list Message -> string.
(** The clock: the k-th reading of [time.time()] / [datetime.now()]. *)
Variable clock : nat -> T.

Definition M (A : Type) : Type := World -> Result (A * World).

Definition ret {A} (a : A) : M A := fun w => Ok (a, w).
Definition raise {A} (e : PyError) : M A := fun _ => Raise e.
Definition bind {A B} (m : M A) (f : A -> M B) : M B :=
  fun w => match m w with
           | Ok (a, w') => f a w'
           | Raise e => Raise e
           end.

Notation "x <- m ;; k" := (bind m (fun x => k))
  (at level 61, m at next level, right associativity).
Notation "' p <- m ;; k" := (bind m (fun x => match x with p => k end))
  (at level 61, p pattern, m at next level, right associativity).

Definition time_time : M T :=
  fun w => Ok (clock (ticks w), mkWorld (S (ticks w)) (chat_log w) (files w)).

Definition ollama_chat (mdl : string) (messages : list Message) : M string :=
  fun w => Ok (chat (length (chat_log w)) mdl messages,
               mkWorld (ticks w) (chat_log w ++ [(mdl, messages)]) (files w)).

Definition json_dump (dir name : string) (a : Artifact) : M unit :=
  fun w => Ok (tt, mkWorld (ticks w) (chat_log w)
                           (dict_set (files w) (dir ++ "/" ++ name)%string a)).

Fixpoint for_each {A S} (l : list A) (body : A -> S -> M S) (s : S) : M S :=
  match l with
  | [] => ret s
  | x :: r => s' <- body x s ;; for_each r body s'
  end.

(** ** DebateAgent (DebateClass.py, lines 15-114) *)

(** [DebateAgent.__init__] *)
Definition DebateAgent_init (aid mdl : string) : DebateAgent :=
  mkAgent aid mdl [] None None (mkMetrics 0%Z num_zero [] num_zero).

(** [_add_to_history]: the agent with one more turn. *)
Definition _add_to_history (a : DebateAgent) (r c : string) : DebateAgent :=
  mkAgent (agent_id a) (model a) (conversation_history a ++ [mkMessage r c])
          (initial_position a) (position_label a) (performance_metrics a).

(** [_get_context]: the stance as a system message when both the position
    and its label are set, then the history, then the new prompt. *)
Definition _get_context (a : DebateAgent) (additional_prompt : string)
  : list Message :=
  (if truthy (initial_position a) && truthy (position_label a)
   then [mkMessage "system"
           ("You are a member of a round table discussing "
              ++ fmt_opt (position_label a) ++ ". Your stance is: "
              ++ fmt_opt (initial_position a) ++ ".")%string]
   else [])
  ++ map (fun entry => mkMessage (role entry) (content entry))
         (conversation_history a)
  ++ [mkMessage "user" additional_prompt].

(** Lines 80-85 of [generate_response]: the latency is appended, added to
    the total with [+=], and the average recomputed from the list with the
    built-in [sum]. *)
Definition track_performance (m : Metrics) (elapsed_time : T) : Metrics :=
  let rts := response_times m ++ [elapsed_time] in
  mkMetrics (total_tokens m)
            (num_add (total_time m) elapsed_time)
            rts
            (num_div (py_sum rts) (num_of_nat (length rts))).

(** [generate_response] (lines 64-93); returns the text and the agent as
    the call leaves it. *)
Definition generate_response (a : DebateAgent) (prompt : string)
           (include_history : bool) : M (string * DebateAgent) :=
  start_time <- time_time ;;
  let messages := if include_history then _get_context a prompt
                  else [mkMessage "user" prompt] in
  response <- ollama_chat (model a) messages ;;
  now_ <- time_time ;;
  let elapsed_time := num_sub now_ start_time in
  let a1 := mkAgent (agent_id a) (model a) (conversation_history a)
                    (initial_position a) (position_label a)
                    (track_performance (performance_metrics a) elapsed_time) in
  let a2 := _add_to_history a1 "user" prompt in
  let a3 := _add_to_history a2 "assistant" response in
  ret (response, a3).

(** [set_initial_position] (lines 95-100) *)
Definition set_initial_position (a : DebateAgent) (question : string)
           (label : string) : M (string * DebateAgent) :=
  '(response, a1) <- generate_response a question false ;;
  ret (response,
       mkAgent (agent_id a1) (model a1) (conversation_history a1)
               (Some response) (Some label) (performance_metrics a1)).

(** [get_metrics] (lines 102-114) *)
Definition get_metrics (a : DebateAgent) : AgentMetrics :=
  let pm := performance_metrics a in
  mkAgentMetrics
    (agent_id a) (model a)
    (length (response_times pm))
    (total_time pm)
    (avg_response_time pm)
    (match response_times pm with [] => num_zero | x :: r => py_min x r end)
    (match response_times pm with [] => num_zero | x :: r => py_max x r end)
    (total_tokens pm)
    (length (conversation_history a)).

(** ** DebateTournament (DebateClass.py, lines 141-424)

    Progress bars and printed lines are not modelled, except that the last
    line of [calculate_results] cannot format a missing total duration. *)

(** Assignments to the attributes of [self]. *)
Definition set_agents (t : DebateTournament) (x : dict DebateAgent) :=
  mkTournament (num_agents t) (output_dir t) (t_position_label t)
    (topic_question t) x (positions t) (debates t) (votes t)
    (tournament_metrics t).
Definition set_positions (t : DebateTournament) (x : dict Position) :=
  mkTournament (num_agents t) (output_dir t) (t_position_label t)
    (topic_question t) (agents t) x (debates t) (votes t)
    (tournament_metrics t).
Definition set_debates (t : DebateTournament) (x : list Debate) :=
  mkTournament (num_agents t) (output_dir t) (t_position_label t)
    (topic_question t) (agents t) (positions t) x (votes t)
    (tournament_metrics t).
Definition set_votes (t : DebateTournament) (x : dict VoteData) :=
  mkTournament (num_agents t) (output_dir t) (t_position_label t)
    (topic_question t) (agents t) (positions t) (debates t) x
    (tournament_metrics t).
Definition set_metrics (t : DebateTournament) (x : TournamentMetrics) :=
  mkTournament (num_agents t) (output_dir t) (t_position_label t)
    (topic_question t) (agents t) (positions t) (debates t) (votes t) x.

(** [self.tournament_metrics["phase_durations"][k] = d] *)
Definition set_phase_duration (t : DebateTournament) (k : string) (d : T) :=
  let tm := tournament_metrics t in
  set_metrics t (mkTournamentMetrics (start_time tm) (end_time tm)
                   (total_duration tm) (dict_set (phase_durations tm) k d)).

(** [models * k] *)
Definition list_times {A} (l : list A) (k : nat) : list A := concat (repeat l k).

(** [f"agent_{i}"] *)
Definition agent_name (i : nat) : string := ("agent_" ++ str_of_nat i)%string.

(** The dict comprehension of [__init__] over [range(num_agents)]. *)
Fixpoint build_agents (ids : list nat) (models : list string)
         (acc : dict DebateAgent) : Result (dict DebateAgent) :=
  match ids with
  | [] => Ok acc
  | i :: r =>
      match nth_error models i with
      | None => Raise IndexError
      | Some m =>
          build_agents r models
            (dict_set acc (agent_name i) (DebateAgent_init (agent_name i) m))
      end
  end.

(** [DebateTournament.__init__] from line 154 on, that is once the output
    directory of lines 152-153 exists: the model list is defaulted or cycled
    up to the agent count, the agents are registered as agent_0, agent_1,
    ...  The whole constructor, directory included, is
    [DebateTournament_create] below. *)
Definition DebateTournament_init (n : Z) (models : option (list string))
           (topic : option string) (label : string) (out : string)
  : Result DebateTournament :=
  let topic_question :=
    if truthy topic then fmt_opt topic
    else "Describe your ideal society in 200 words." in
  match
    match models with
    | None => Ok (repeat "llama3.2" (Z.to_nat n))
    | Some ms =>
        if (Z.of_nat (length ms) <? n)%Z then
          if Nat.eqb (length ms) 0 then Raise ZeroDivisionError
          else Ok (firstn (Z.to_nat n)
                     (list_times ms
                        (Z.to_nat (n / Z.of_nat (length ms) + 1))))
        else Ok ms
    end
  with
  | Raise e => Raise e
  | Ok ms =>
      match build_agents (seq 0 (Z.to_nat n)) ms [] with
      | Raise e => Raise e
      | Ok ags =>
          Ok (mkTournament n out label topic_question ags [] [] []
                (mkTournamentMetrics None None None []))
      end
  end.

(** [DebateTournament.__init__] (lines 144-179) with the file system as an
    oracle.  The constructor first creates the output directory
    ([self.output_dir.mkdir(exist_ok=True)], line 153), which raises for
    some paths (a missing parent, a file of that name, an embedded NUL);
    [mkdir out] is the outcome of that call.  Nothing before it can fail,
    and the rest is [DebateTournament_init]. *)
Definition DebateTournament_create (mkdir : string -> Result unit)
           (n : Z) (models : option (list string)) (topic : option string)
           (label : string) (out : string) : Result DebateTournament :=
  match mkdir out with
  | Raise e => Raise e
  | Ok _ => DebateTournament_init n models topic label out
  end.

(** A call of a method of the agent object stored under [aid]: the
    object is looked up, the method runs, the object in the registry is the
    one the method left. *)
Definition with_agent {A} (t : DebateTournament) (aid : string)
           (f : DebateAgent -> M (A * DebateAgent)) : M (A * DebateTournament) :=
  match dict_get (agents t) aid with
  | None => raise (KeyError aid)
  | Some a =>
      '(r, a') <- f a ;;
      ret (r, set_agents t (dict_set (agents t) aid a'))
  end.

(** [d[k]] *)
Definition lookup {V} (d : dict V) (k : string) : M V :=
  match dict_get d k with
  | None => raise (KeyError k)
  | Some v => ret v
  end.

(** [l[i]] *)
Definition index {A} (l : list A) (i : nat) : M A :=
  match nth_error l i with
  | None => raise IndexError
  | Some v => ret v
  end.

(** [run_phase_1_positions] (lines 181-203) *)
Definition run_phase_1_positions (t : DebateTournament) : M DebateTournament :=
  phase_start <- time_time ;;
  t1 <- for_each (keys (agents t))
          (fun aid t =>
             '(position, t1) <-
                with_agent t aid
                  (fun a => set_initial_position a (topic_question t)
                                                 (t_position_label t)) ;;
             a <- lookup (agents t1) aid ;;
             generated_at <- time_time ;;
             ret (set_positions t1
                    (dict_set (positions t1) aid
                       (mkPosition aid position (model a) generated_at))))
          t ;;
  now_ <- time_time ;;
  let t2 := set_phase_duration t1 "positions" (num_sub now_ phase_start) in
  _ <- json_dump (output_dir t2) "positions.json"
         (PositionsJson (topic_question t2) (t_position_label t2)
                        (positions t2)) ;;
  ret t2.

(** The prompts of [run_debate] (lines 219-229 and 241-251). *)
Definition rebuttal_prompt (label : string) (opp : option string) : string :=
  ("Your opponent's " ++ label ++ " is:
" ++ fmt_opt opp ++ "

Point out specific weaknesses, contradictions, or problems with their " ++ label ++ ".
Be analytical and precise. Keep response under 150 words.")%string.

Definition counter_prompt (label : string) (rebuttal : string) : string :=
  ("Your opponent criticized your " ++ label ++ " by saying:
" ++ rebuttal ++ "

Address their criticisms directly and explain why your " ++ label ++ " still holds.
Keep response under 150 words.")%string.

(** The dict display [{"type": ty, a: ra, b: rb}]. *)
Definition round_dict (ty a ra b rb : string) : dict string :=
  dict_set (dict_set (dict_set [] "type" ty) a ra) b rb.

(** [run_debate] (lines 205-264) *)
Definition run_debate (t : DebateTournament) (agent_a_id agent_b_id : string)
  : M (Debate * DebateTournament) :=
  agent_a <- lookup (agents t) agent_a_id ;;
  agent_b <- lookup (agents t) agent_b_id ;;
  round_start <- time_time ;;
  let rebuttal_prompt_a :=
    rebuttal_prompt (t_position_label t) (initial_position agent_b) in
  let rebuttal_prompt_b :=
    rebuttal_prompt (t_position_label t) (initial_position agent_a) in
  '(rebuttal_a, t1) <-
     with_agent t agent_a_id
       (fun a => generate_response a rebuttal_prompt_a true) ;;
  '(rebuttal_b, t2) <-
     with_agent t1 agent_b_id
       (fun a => generate_response a rebuttal_prompt_b true) ;;
  let rounds1 :=
    [round_dict "first_rebuttal" agent_a_id rebuttal_a agent_b_id rebuttal_b] in
  let counter_prompt_a := counter_prompt (t_position_label t) rebuttal_b in
  let counter_prompt_b := counter_prompt (t_position_label t) rebuttal_a in
  '(counter_a, t3) <-
     with_agent t2 agent_a_id
       (fun a => generate_response a counter_prompt_a true) ;;
  '(counter_b, t4) <-
     with_agent t3 agent_b_id
       (fun a => generate_response a counter_prompt_b true) ;;
  let rounds2 :=
    rounds1 ++
    [round_dict "counter_rebuttal" agent_a_id counter_a agent_b_id counter_b] in
  now_ <- time_time ;;
  ret (mkDebate (agent_a_id, agent_b_id) rounds2
         (dict_set [] "duration" (num_sub now_ round_start)),
       t4).

(** [itertools.combinations(l, r)]: the r-element sub-sequences of [l],
    in lexicographic order of their positions. *)
Fixpoint combinations {A} (l : list A) (r : nat) : list (list A) :=
  match r with
  | 0 => [[]]
  | S r' =>
      match l with
      | [] => []
      | x :: tl => map (cons x) (combinations tl r') ++ combinations tl r
      end
  end.

(** [run_phase_2_debates] (lines 266-281) *)
Definition run_phase_2_debates (t : DebateTournament) : M DebateTournament :=
  phase_start <- time_time ;;
  let debate_pairs := combinations (keys (agents t)) 2 in
  t1 <- for_each debate_pairs
          (fun pair t =>
             match pair with
             | [agent_a_id; agent_b_id] =>
                 '(debate, t1) <- run_debate t agent_a_id agent_b_id ;;
                 ret (set_debates t1 (debates t1 ++ [debate]))
             | _ => raise (ValueError "not enough values to unpack")
             end)
          t ;;
  now_ <- time_time ;;
  let t2 := set_phase_duration t1 "debates" (num_sub now_ phase_start) in
  _ <- json_dump (output_dir t2) "debates.json" (DebatesJson (debates t2)) ;;
  ret t2.

(** [_format_debate_for_voting] (lines 325-348) *)
Definition _format_debate_for_voting (t : DebateTournament) (debate : Debate)
           (debate_index : nat) : M string :=
  let p := participants debate in
  let r := rounds debate in
  pa <- lookup (positions t) (fst p) ;;
  let pos_a := pos_position pa in
  pb <- lookup (positions t) (snd p) ;;
  let pos_b := pos_position pb in
  r0 <- index r 0 ;;
  r0a <- lookup r0 (fst p) ;;
  r0' <- index r 0 ;;
  r0b <- lookup r0' (snd p) ;;
  r1 <- index r 1 ;;
  r1a <- lookup r1 (fst p) ;;
  r1' <- index r 1 ;;
  r1b <- lookup r1' (snd p) ;;
  ret ("Judge this debate about " ++ t_position_label t ++ "s.

=== Initial Positions ===
Position A (" ++ fst p ++ "): " ++ pos_a ++ "

Position B (" ++ snd p ++ "): " ++ pos_b ++ "

=== Debate ===
A's criticism of B: " ++ r0a ++ "

B's criticism of A: " ++ r0b ++ "

A's defense: " ++ r1a ++ "

B's defense: " ++ r1b)%string.

(** The vote prompt (lines 296-299). *)
Definition vote_prompt_of (label debate_summary : string) : string :=
  (debate_summary ++ "

Based on the strength of arguments and rebuttals, which " ++ label ++ " is more convincing?
Reply with only 'A' or 'B' and one sentence explaining why.")%string.

(** ["A" if "A" in vote_response[:10] else "B"] *)
Definition parse_vote (vote_response : string) : string :=
  if str_in "A" (str_take 10 vote_response) then "A" else "B".

(** [participants[0] if vote == "A" else participants[1]] *)
Definition winner_of (ps : string * string) (v : string) : string :=
  if String.eqb v "A" then fst ps else snd ps.

(** The vote record appended for one voter (lines 303-312). *)
Definition record_vote (agent_id : string) (ps : string * string)
           (vote_response : string) : Vote :=
  let v := parse_vote vote_response in
  let winner_id := winner_of ps v in
  mkVote agent_id winner_id vote_response v.

(** [agent_id not in participants] *)
Definition not_in_participants (aid : string) (ps : string * string) : bool :=
  negb (str_mem aid [fst ps; snd ps]).

(** [enumerate(l)] *)
Definition enumerate {A} (l : list A) : list (nat * A) :=
  combine (seq 0 (length l)) l.

(** [f"debate_{i}"] *)
Definition debate_key (i : nat) : string := ("debate_" ++ str_of_nat i)%string.

(** The loop over [self.agents.items()] in [run_phase_3_voting]
    (lines 289-312): the votes of one debate. *)
Definition collect_votes (debate : Debate) (i : nat) (t : DebateTournament)
  : M (list Vote * DebateTournament) :=
  for_each (keys (agents t))
    (fun aid (st : list Vote * DebateTournament) =>
       let '(debate_votes, t) := st in
       if not_in_participants aid (participants debate) then
         debate_summary <- _format_debate_for_voting t debate i ;;
         let vote_prompt := vote_prompt_of (t_position_label t) debate_summary in
         '(vote_response, t1) <-
            with_agent t aid
              (fun a => generate_response a vote_prompt true) ;;
         ret (debate_votes ++ [record_vote aid (participants debate) vote_response],
              t1)
       else ret (debate_votes, t))
    ([], t).

(** [run_phase_3_voting] (lines 283-323) *)
Definition run_phase_3_voting (t : DebateTournament) : M DebateTournament :=
  phase_start <- time_time ;;
  t1 <- for_each (enumerate (debates t))
          (fun (ix : nat * Debate) t =>
             let '(i, debate) := ix in
             '(debate_votes, t1) <- collect_votes debate i t ;;
             ret (set_votes t1
                    (dict_set (votes t1) (debate_key i)
                       (mkVoteData (participants debate) debate_votes))))
          t ;;
  now_ <- time_time ;;
  let t2 := set_phase_duration t1 "voting" (num_sub now_ phase_start) in
  _ <- json_dump (output_dir t2) "votes.json" (VotesJson (votes t2)) ;;
  ret t2.

(** A computation that touches neither clock, backend nor files. *)
Definition lift {A} (r : Result A) : M A :=
  fun w => match r with Ok a => Ok (a, w) | Raise e => Raise e end.

(** [calculate_results] (lines 350-400) *)
Definition calculate_results (t : DebateTournament) : M unit :=
  wc <- lift (count_wins (zero_counts (keys (agents t)))
                (map (fun kv => map winner_id (vd_votes (snd kv))) (votes t))) ;;
  let rankings := sorted_desc wc in
  let agent_metrics :=
    fold_left (fun d (kv : string * DebateAgent) =>
                 dict_set d (fst kv) (get_metrics (snd kv)))
              (agents t) [] in
  timestamp <- time_time ;;
  let results :=
    mkResults
      (mkTournamentInfo (num_agents t) (topic_question t) (t_position_label t)
                        timestamp (tournament_metrics t))
      rankings wc agent_metrics in
  _ <- json_dump (output_dir t) "tournament_results.json" (ResultsJson results) ;;
  (* the summary formats total_duration with [:.2f] *)
  match total_duration (tournament_metrics t) with
  | None => raise TypeError
  | Some _ => ret tt
  end.

(** [run_tournament] (lines 402-424); returns the tournament object as the
    run leaves it. *)
Definition run_tournament (t : DebateTournament) : M DebateTournament :=
  start <- time_time ;;
  let tm := tournament_metrics t in
  let t0 := set_metrics t (mkTournamentMetrics (Some start) (end_time tm)
                             (total_duration tm) (phase_durations tm)) in
  t1 <- run_phase_1_positions t0 ;;
  t2 <- run_phase_2_debates t1 ;;
  t3 <- run_phase_3_voting t2 ;;
  end_ <- time_time ;;
  let tm3 := tournament_metrics t3 in
  let t4 := set_metrics t3 (mkTournamentMetrics (start_time tm3) (Some end_)
                              (total_duration tm3) (phase_durations tm3)) in
  let tm4 := tournament_metrics t4 in
  dur <- match end_time tm4, start_time tm4 with
         | Some e, Some s => ret (num_sub e s)
         | _, _ => raise TypeError
         end ;;
  let t5 := set_metrics t4 (mkTournamentMetrics (start_time tm4) (end_time tm4)
                              (Some dur) (phase_durations tm4)) in
  _ <- calculate_results t5 ;;
  ret t5.

(** The results written by [calculate_results], read back from the world. *)
Definition tournament_results (t : DebateTournament) (w : World)
  : option Results :=
  match dict_get (files w) (output_dir t ++ "/" ++ "tournament_results.json")%string with
  | Some (ResultsJson r) => Some r
  | _ => None
  end.

Definition world0 : World := mkWorld 0 [] [].

(** ** Sequences of agent calls *)

Inductive AgentOp : Type :=
| OpGenerate (prompt : string) (include_history : bool)
| OpSetInitial (question label : string).

Definition run_op (op : AgentOp) (a : DebateAgent) : M DebateAgent :=
  match op with
  | OpGenerate prompt h =>
      '(_, a') <- generate_response a prompt h ;; ret a'
  | OpSetInitial q l =>
      '(_, a') <- set_initial_position a q l ;; ret a'
  end.

Definition run_ops (ops : list AgentOp) (a : DebateAgent) : M DebateAgent :=
  for_each ops run_op a.




(** ** Well-formedness used in the statements *)

(** What no method call on an agent changes in the tournament object. *)
Definition same_shape (t t' : DebateTournament) : Prop :=
  keys (agents t') = keys (agents t) /\
  positions t' = positions t /\
  debates t' = debates t /\
  votes t' = votes t /\
  t_position_label t' = t_position_label t /\
  topic_question t' = topic_question t /\
  num_agents t' = num_agents t /\
  output_dir t' = output_dir t /\
  tournament_metrics t' = tournament_metrics t.

(** A debate record that [_format_debate_for_voting] can render: both
    participants have an entry in each of the two rounds, and a stored
    position. *)
Definition rounds_ready (d : Debate) : Prop :=
  exists r0 r1 rest,
    rounds d = r0 :: r1 :: rest /\
    In (fst (participants d)) (keys r0) /\ In (snd (participants d)) (keys r0) /\
    In (fst (participants d)) (keys r1) /\ In (snd (participants d)) (keys r1).

Definition debate_ready (ps : dict Position) (d : Debate) : Prop :=
  In (fst (participants d)) (keys ps) /\
  In (snd (participants d)) (keys ps) /\
  rounds_ready d.

(** [list(p)] for a pair of participants. *)
Definition pair_list (p : string * string) : list string := [fst p; snd p].

(** The voters of a debate: the registered agents other than its
    participants, in registration order. *)
Definition voters_of (t : DebateTournament) (d : Debate) : list string :=
  filter (fun aid => not_in_participants aid (participants d))
         (keys (agents t)).

(** A backend request that asks for a vote: its last message is the vote
    prompt of [run_phase_3_voting]. *)
Definition vote_request (label : string) (msgs : list Message) : Prop :=
  exists pre summary,
    msgs = pre ++ [mkMessage "user" (vote_prompt_of label summary)].

(** The entry of [self.votes] that belongs to the debate of index [i]. *)
Definition votes_entry_ok (t : DebateTournament) (ix : nat * Debate)
           (kv : string * VoteData) : Prop :=
  fst kv = debate_key (fst ix) /\
  vd_participants (snd kv) = participants (snd ix) /\
  map voter_id (vd_votes (snd kv)) = voters_of t (snd ix) /\
  Forall (fun v => exists k mdl msgs,
                     vote_request (t_position_label t) msgs /\
                     v = record_vote (voter_id v) (participants (snd ix))
                                     (chat k mdl msgs))
         (vd_votes (snd kv)).

(** The three generation phases, in the order [run_tournament] runs them. *)
Definition run_phases (t : DebateTournament) : M DebateTournament :=
  t1 <- run_phase_1_positions t ;;
  t2 <- run_phase_2_debates t1 ;;
  run_phase_3_voting t2.

(** The winner ids of each entry of [self.votes], in iteration order. *)
Definition winner_lists (t : DebateTournament) : list (list string) :=
  map (fun kv => map winner_id (vd_votes (snd kv))) (votes t).

(** The dict that [calculate_results] dumps, given the win counts and the
    timestamp. *)
Definition results_of (t : DebateTournament) (wc : dict nat) (timestamp : T)
  : Results :=
  mkResults
    (mkTournamentInfo (num_agents t) (topic_question t) (t_position_label t)
                      timestamp (tournament_metrics t))
    (sorted_desc wc) wc
    (fold_left (fun d (kv : string * DebateAgent) =>
                  dict_set d (fst kv) (get_metrics (snd kv)))
               (agents t) []).

(** What [_get_context] puts before the new prompt: the stance, when set,
    and the history. *)
Definition context_prefix (a : DebateAgent) : list Message :=
  (if truthy (initial_position a) && truthy (position_label a)
   then [mkMessage "system"
           ("You are a member of a round table discussing "
              ++ fmt_opt (position_label a) ++ ". Your stance is: "
              ++ fmt_opt (initial_position a) ++ ".")%string]
   else [])
  ++ conversation_history a.


(** ** The script (main.py, lines 6-15) *)

Definition main : M DebateTournament :=
  tournament1 <-
    lift (DebateTournament_init 5 None
            (Some "Describe your ideal society in 200 words.")
            "ideal society" "debate_results") ;;
  run_tournament tournament1.

End Model.

(** ** Forgetting time

    The image of every structure in the model whose numbers are all [tt]:
    what is left of a run once every clock reading, duration and latency is
    erased. *)

#[export] Instance unit_PyNum : PyNum unit := {
  num_zero := tt;
  num_add := fun _ _ => tt;
  num_sub := fun _ _ => tt;
  num_div := fun _ _ => tt;
  num_of_nat := fun _ => tt;
  num_ltb := fun _ _ => false;
  num_sum := fun _ => tt
}.

Definition dmap {A B} (f : A -> B) (d : dict A) : dict B :=
  map (fun kv => (fst kv, f (snd kv))) d.

Definition untime {T} (_ : T) : unit := tt.

Section Forget.

Context {T : Type}.

Definition forget_metrics (m : Metrics (T:=T)) : Metrics (T:=unit) :=
  mkMetrics (total_tokens m) tt (map untime (response_times m)) tt.

Definition forget_agent (a : DebateAgent (T:=T)) : DebateAgent (T:=unit) :=
  mkAgent (agent_id a) (model a) (conversation_history a)
          (initial_position a) (position_label a)
          (forget_metrics (performance_metrics a)).

Definition forget_agent_metrics (m : AgentMetrics (T:=T))
  : AgentMetrics (T:=unit) :=
  mkAgentMetrics (m_agent_id m) (m_model m) (m_total_responses m) tt tt tt tt
                 (m_total_tokens m) (m_conversation_length m).

Definition forget_position (p : Position (T:=T)) : Position (T:=unit) :=
  mkPosition (pos_agent_id p) (pos_position p) (pos_model p) tt.

Definition forget_debate (d : Debate (T:=T)) : Debate (T:=unit) :=
  mkDebate (participants d) (rounds d) (dmap untime (timing d)).

Definition forget_tournament_metrics (tm : TournamentMetrics (T:=T))
  : TournamentMetrics (T:=unit) :=
  mkTournamentMetrics (option_map untime (start_time tm))
                      (option_map untime (end_time tm))
                      (option_map untime (total_duration tm))
                      (dmap untime (phase_durations tm)).

Definition forget_tournament (t : DebateTournament (T:=T))
  : DebateTournament (T:=unit) :=
  mkTournament (num_agents t) (output_dir t) (t_position_label t)
               (topic_question t)
               (dmap forget_agent (agents t))
               (dmap forget_position (positions t))
               (map forget_debate (debates t))
               (votes t)
               (forget_tournament_metrics (tournament_metrics t)).

Definition forget_results (r : Results (T:=T)) : Results (T:=unit) :=
  mkResults
    (mkTournamentInfo (ti_num_agents (tournament_info r))
                      (ti_topic_question (tournament_info r))
                      (ti_position_label (tournament_info r))
                      tt
                      (forget_tournament_metrics
                         (ti_duration (tournament_info r))))
    (rankings r) (win_counts r)
    (dmap forget_agent_metrics (agent_performance r)).

Definition forget_artifact (a : Artifact (T:=T)) : Artifact (T:=unit) :=
  match a with
  | PositionsJson topic label ps =>
      PositionsJson topic label (dmap forget_position ps)
  | DebatesJson ds => DebatesJson (map forget_debate ds)
  | VotesJson vs => VotesJson vs
  | ResultsJson r => ResultsJson (forget_results r)
  end.

Definition forget_world (w : World (T:=T)) : World (T:=unit) :=
  mkWorld (ticks w) (chat_log w) (dmap forget_artifact (files w)).

Definition forget_result {A B} (f : A -> B) (r : Result (A * World (T:=T)))
  : Result (B * World (T:=unit)) :=
  match r with
  | Ok (a, w) => Ok (f a, forget_world w)
  | Raise e => Raise e
  end.

(** The results with the [timestamp] and [duration] fields of
    [tournament_info] blanked, and nothing else. *)
Definition blank_timestamp_duration (zero : T) (r : Results (T:=T))
  : Results (T:=T) :=
  mkResults
    (mkTournamentInfo (ti_num_agents (tournament_info r))
                      (ti_topic_question (tournament_info r))
                      (ti_position_label (tournament_info r))
                      zero
                      (mkTournamentMetrics None None None []))
    (rankings r) (win_counts r) (agent_performance r).

End Forget.

(** The clock of the time-forgetting run. *)
Definition no_clock : nat -> unit := fun _ => tt.

(** A computation and its time-forgetting counterpart agree. *)
Definition commutes {T A B} (f : A -> B) (m : M (T:=T) A) (mu : M (T:=unit) B)
  : Prop :=
  forall w, forget_result f (m w) = mu (forget_world w).

Definition pair_map {A B C D} (f : A -> C) (g : B -> D) (p : A * B) : C * D :=
  (f (fst p), g (snd p)).

(** The fields of an agent's metrics snapshot that are not measured times. *)
Definition untimed_metrics {T} (m : AgentMetrics (T:=T))
  : string * string * nat * Z * nat :=
  (m_agent_id m, m_model m, m_total_responses m, m_total_tokens m,
   m_conversation_length m).

(** ** Concrete runs used as examples *)

Definition example_chat : nat -> string -> list Message -> string :=
  fun _ _ _ => "A is more convincing.".

Definition clock_seconds : nat -> Q := fun k => inject_Z (Z.of_nat k).
Definition clock_slow : nat -> Q := fun k => inject_Z (2 * Z.of_nat k).

Definition example_tournament (n : Z) : Result (DebateTournament (T:=Q)) :=
  DebateTournament_init n None None "position" "debate_results".

(** The state and world in which [run_tournament] leaves three agents. *)
Definition example_final : DebateTournament (T:=Q) * World (T:=Q) :=
  Eval vm_compute in
    match example_tournament 3 with
    | Ok t =>
        match run_tournament example_chat clock_seconds t world0 with
        | Ok p => p
        | Raise _ => (t, world0)
        end
    | Raise _ =>
        (mkTournament 0 "" "" "" [] [] [] []
           (mkTournamentMetrics None None None []), world0)
    end.

(** The world after calling [calculate_results] once more in that state. *)
Definition example_final_again : World (T:=Q) :=
  Eval vm_compute in
    match calculate_results clock_seconds (fst example_final)
                            (snd example_final) with
    | Ok (_, w) => w
    | Raise _ => world0
    end.

(** ** Reference functions used in further statements *)

(** The model the constructor gives agent [i]: the default without a model
    list, the list cycled when it is shorter than the agent count, the list
    itself otherwise. *)
Definition model_of_agent (models : option (list string)) (n : Z) (i : nat)
  : string :=
  match models with
  | None => "llama3.2"
  | Some ms =>
      if (Z.of_nat (length ms) <? n)%Z then nth (i mod length ms) ms ""
      else nth i ms ""
  end.

(** The tournament of three agents as the constructor leaves it. *)
Definition example_start : DebateTournament (T:=Q) :=
  Eval vm_compute in
    match example_tournament 3 with
    | Ok t => t
    | Raise _ => fst example_final
    end.

(** * SocietyDebateTournament (society_debate_tournament.py) *)

Module Society.

(** ** Data model *)

Record SocietyEntry : Type := mkSociety {
  bot_id : string;
  description : string;
  generated_at : string
}.

(** A debate's [participants] is always the two-element list
    [[bot_a_id, bot_b_id]]: a pair. *)
Record Debate : Type := mkDebate {
  participants : string * string;
  rounds : list (dict string)
}.

(** An entry of [self.votes]: [{"participants": ..., "votes": ...}]. *)
Definition VoteData : Type := (string * string * list SocietyVote)%type.

Record Summary : Type := mkSummary {
  rankings : list (string * nat);
  win_counts : dict nat;
  total_debates : nat;
  timestamp : string
}.

Inductive Artifact : Type :=
| SocietiesJson (s : dict SocietyEntry)
| DebatesJson (ds : list Debate)
| VotesJson (vs : dict VoteData)
| SummaryJson (s : Summary).

Record SocietyDebateTournament : Type := mkTournament {
  model : string;
  num_bots : Z;
  results_dir : string;
  societies : dict SocietyEntry;
  debates : list Debate;
  votes : dict VoteData
}.

(** [__init__] (lines 18-27); the results directory has the fixed name
    [debate_results] and is taken to exist or to be creatable. *)
Definition SocietyDebateTournament_init (model : string) (num_bots : Z)
  : SocietyDebateTournament :=
  mkTournament model num_bots "debate_results" [] [] [].

Definition set_societies (t : SocietyDebateTournament)
           (x : dict SocietyEntry) :=
  mkTournament (model t) (num_bots t) (results_dir t) x (debates t) (votes t).

Definition set_debates (t : SocietyDebateTournament) (x : list Debate) :=
  mkTournament (model t) (num_bots t) (results_dir t) (societies t) x (votes t).

Definition set_votes (t : SocietyDebateTournament) (x : dict VoteData) :=
  mkTournament (model t) (num_bots t) (results_dir t) (societies t)
               (debates t) x.

(** ** The world: clock, backend, files *)

Record World : Type := mkWorld {
  ticks : nat;
  chat_log : list (string * list Message);
  files : dict Artifact
}.

Definition M (A : Type) : Type := World -> Result (A * World).

Definition ret {A} (a : A) : M A := fun w => Ok (a, w).
Definition raise {A} (e : PyError) : M A := fun _ => Raise e.
Definition bind {A B} (m : M A) (f : A -> M B) : M B :=
  fun w => match m w with
           | Ok (a, w') => f a w'
           | Raise e => Raise e
           end.

#[local] Notation "x <- m ;; k" := (bind m (fun x => k))
  (at level 61, m at next level, right associativity).
#[local] Notation "' p <- m ;; k" :=
  (bind m (fun x => match x with p => k end))
  (at level 61, p pattern, m at next level, right associativity).

Fixpoint for_each {A S} (l : list A) (body : A -> S -> M S) (s : S) : M S :=
  match l with
  | [] => ret s
  | x :: r => s' <- body x s ;; for_each r body s'
  end.

(** [d[k]] *)
Definition lookup {V} (d : dict V) (k : string) : M V :=
  match dict_get d k with
  | None => raise (KeyError k)
  | Some v => ret v
  end.

(** [l[i]] *)
Definition index {A} (l : list A) (i : nat) : M A :=
  match nth_error l i with
  | None => raise IndexError
  | Some v => ret v
  end.

Definition json_dump (dir name : string) (a : Artifact) : M unit :=
  fun w => Ok (tt, mkWorld (ticks w) (chat_log w)
                           (dict_set (files w) (dir ++ "/" ++ name)%string a)).

(** ** Prompts *)

(** The prompt of [generate_ideal_society] (lines 31-36). *)
Definition society_prompt : string :=
  "Describe your ideal society in 200 words. Include:
- Governance structure
- Economic system  
- Core values
- How conflicts are resolved
Be specific and consistent.".

(** [rebuttal_prompt_a] and [rebuttal_prompt_b] (lines 70-80), given the
    opponent's society. *)
Definition rebuttal_prompt (society : string) : string :=
  ("Your opponent proposes this society:
" ++ society ++ "

Point out potential flaws or problems with their society. Be specific.
Keep response under 150 words.")%string.

(** [closing_prompt_a] and [closing_prompt_b] (lines 99-107), given the
    bot's own society and the opponent's rebuttal. *)
Definition closing_prompt (society rebuttal : string) : string :=
  ("Defend why your society is better.
Your society: " ++ society ++ "
Their criticism: " ++ rebuttal ++ "
Keep response under 100 words.")%string.

(** [debate_text] of [vote_on_debate] (lines 131-145), given the six texts
    it reads from the rounds. *)
Definition debate_text (a0 b0 a1 b1 a2 b2 : string) : string :=
  ("Judge this debate between two ideal societies.

Society A: " ++ a0 ++ "

Society B: " ++ b0 ++ "

A's criticism of B: " ++ a1 ++ "

B's criticism of A: " ++ b1 ++ "

A's defense: " ++ a2 ++ "

B's defense: " ++ b2 ++ "

Which society would you rather live in? Reply with only 'A' or 'B' and one sentence explaining why.")%string.

Section Run.

(** The backend: the answer of the k-th call to [ollama.chat(model, messages)]. *)
Variable chat : nat -> string -> list Message -> string.
(** The clock: the k-th value of [datetime.now().isoformat()]. *)
Variable now : nat -> string.

Definition ollama_chat (mdl : string) (messages : list Message) : M string :=
  fun w => Ok (chat (length (chat_log w)) mdl messages,
               mkWorld (ticks w) (chat_log w ++ [(mdl, messages)]) (files w)).

Definition datetime_now : M string :=
  fun w => Ok (now (ticks w), mkWorld (S (ticks w)) (chat_log w) (files w)).

(** [generate_ideal_society] (lines 29-50) *)
Definition generate_ideal_society (t : SocietyDebateTournament)
           (bot_id : string) : M (SocietyEntry * SocietyDebateTournament) :=
  response <- ollama_chat (model t) [mkMessage "user" society_prompt] ;;
  generated <- datetime_now ;;
  let society := mkSociety bot_id response generated in
  ret (society, set_societies t (dict_set (societies t) bot_id society)).

(** [run_debate] (lines 52-126) *)
Definition run_debate (t : SocietyDebateTournament) (bot_a_id bot_b_id : string)
  : M (Debate * SocietyDebateTournament) :=
  sa <- lookup (societies t) bot_a_id ;;
  let society_a := description sa in
  sb <- lookup (societies t) bot_b_id ;;
  let society_b := description sb in
  let opening := round_dict "opening" bot_a_id society_a bot_b_id society_b in
  rebuttal_a <-
    ollama_chat (model t) [mkMessage "user" (rebuttal_prompt society_b)] ;;
  rebuttal_b <-
    ollama_chat (model t) [mkMessage "user" (rebuttal_prompt society_a)] ;;
  let rebuttal := round_dict "rebuttal" bot_a_id rebuttal_a bot_b_id rebuttal_b in
  closing_a <-
    ollama_chat (model t)
      [mkMessage "user" (closing_prompt society_a rebuttal_b)] ;;
  closing_b <-
    ollama_chat (model t)
      [mkMessage "user" (closing_prompt society_b rebuttal_a)] ;;
  let closing := round_dict "closing" bot_a_id closing_a bot_b_id closing_b in
  let debate := mkDebate (bot_a_id, bot_b_id) [opening; rebuttal; closing] in
  ret (debate, set_debates t (debates t ++ [debate])).

(** [vote_on_debate] (lines 128-162); the six texts are read in the order
    the f-string evaluates them. *)
Definition vote_on_debate (t : SocietyDebateTournament) (debate : Debate)
           (voter_id : string) : M SocietyVote :=
  let ps := participants debate in
  r0 <- index (rounds debate) 0 ;;
  a0 <- lookup r0 (fst ps) ;;
  b0 <- lookup r0 (snd ps) ;;
  r1 <- index (rounds debate) 1 ;;
  a1 <- lookup r1 (fst ps) ;;
  b1 <- lookup r1 (snd ps) ;;
  r2 <- index (rounds debate) 2 ;;
  a2 <- lookup r2 (fst ps) ;;
  b2 <- lookup r2 (snd ps) ;;
  vote_text <-
    ollama_chat (model t)
      [mkMessage "user" (debate_text a0 b0 a1 b1 a2 b2)] ;;
  ret (society_vote voter_id ps vote_text).

(** [range(self.num_bots)] *)
Definition bot_range (t : SocietyDebateTournament) : list nat :=
  seq 0 (Z.to_nat (num_bots t)).

(** Phase 1 of [run_tournament] (lines 168-177). *)
Definition generate_societies (t : SocietyDebateTournament)
  : M SocietyDebateTournament :=
  t1 <- for_each (bot_range t)
          (fun i t =>
             '(_, t1) <- generate_ideal_society t (bot_name i) ;;
             ret t1)
          t ;;
  _ <- json_dump (results_dir t1) "societies.json"
         (SocietiesJson (societies t1)) ;;
  ret t1.

(** Phase 2 of [run_tournament] (lines 179-191). *)
Definition run_debates (t : SocietyDebateTournament)
  : M SocietyDebateTournament :=
  let debate_pairs := combinations (bot_range t) 2 in
  t1 <- for_each debate_pairs
          (fun pair t =>
             match pair with
             | [a; b] =>
                 '(_, t1) <- run_debate t (bot_name a) (bot_name b) ;;
                 ret t1
             | _ => raise (ValueError "not enough values to unpack")
             end)
          t ;;
  _ <- json_dump (results_dir t1) "debates.json" (DebatesJson (debates t1)) ;;
  ret t1.

(** The votes of one debate (lines 196-204). *)
Definition collect_votes (t : SocietyDebateTournament) (debate : Debate)
  : M (list SocietyVote) :=
  for_each (bot_range t)
    (fun j debate_votes =>
       let voter_id := bot_name j in
       if not_in_participants voter_id (participants debate) then
         vote <- vote_on_debate t debate voter_id ;;
         ret (debate_votes ++ [vote])
       else ret debate_votes)
    [].

(** Phase 3 of [run_tournament] (lines 193-221); the quick tally it prints
    for each debate has no other effect. *)
Definition run_voting (t : SocietyDebateTournament)
  : M SocietyDebateTournament :=
  t1 <- for_each (enumerate (debates t))
          (fun (ix : nat * Debate) t =>
             let '(i, debate) := ix in
             debate_votes <- collect_votes t debate ;;
             ret (set_votes t
                    (dict_set (votes t) (debate_key i)
                       (participants debate, debate_votes))))
          t ;;
  _ <- json_dump (results_dir t1) "votes.json" (VotesJson (votes t1)) ;;
  ret t1.

(** [calculate_rankings] (lines 226-258): the win counts and the ranking,
    as computed by the pure [calculate_rankings] defined with the result
    aggregation, saved with the number of debates and the time. *)
Definition calculate_rankings (t : SocietyDebateTournament) : M unit :=
  match calculate_rankings (num_bots t) (votes t) with
  | Raise e => raise e
  | Ok (rankings, win_counts) =>
      timestamp <- datetime_now ;;
      json_dump (results_dir t) "tournament_summary.json"
        (SummaryJson
           (mkSummary rankings win_counts (length (debates t)) timestamp))
  end.

(** [run_tournament] (lines 164-224) *)
Definition run_tournament (t : SocietyDebateTournament)
  : M SocietyDebateTournament :=
  t1 <- generate_societies t ;;
  t2 <- run_debates t1 ;;
  t3 <- run_voting t2 ;;
  _ <- calculate_rankings t3 ;;
  ret t3.

(** The three phases that precede [calculate_rankings]. *)
Definition run_phases (t : SocietyDebateTournament)
  : M SocietyDebateTournament :=
  t1 <- generate_societies t ;;
  t2 <- run_debates t1 ;;
  run_voting t2.

(** The script (lines 261-265). *)
Definition main : M SocietyDebateTournament :=
  run_tournament (SocietyDebateTournament_init "llama3.2" 10).

(** The summary written by [calculate_rankings], read back from the world. *)
Definition tournament_summary (t : SocietyDebateTournament) (w : World)
  : option Summary :=
  match dict_get (files w)
          (results_dir t ++ "/" ++ "tournament_summary.json")%string with
  | Some (SummaryJson s) => Some s
  | _ => None
  end.

End Run.

Definition world0 : World := mkWorld 0 [] [].

(** ** Predicates used in the statements *)

(** A request made of one user message, sent to model [mdl]. *)
Definition stateless (mdl : string) (e : string * list Message) : Prop :=
  fst e = mdl /\ exists p, snd e = [mkMessage "user" p].

(** World [w'] is [w] after [k] more requests, all of them stateless. *)
Definition calls (mdl : string) (w w' : World) (k : nat) : Prop :=
  exists new,
    chat_log w' = chat_log w ++ new /\ length new = k /\
    Forall (stateless mdl) new.

(** A round holds a text for both participants. *)
Definition round_ready (ps : string * string) (r : dict string) : Prop :=
  In (fst ps) (keys r) /\ In (snd ps) (keys r).

(** A debate that [vote_on_debate] can read: three rounds, ready. *)
Definition debate_ready (d : Debate) : Prop :=
  exists r0 r1 r2 rest,
    rounds d = r0 :: r1 :: r2 :: rest /\
    round_ready (participants d) r0 /\
    round_ready (participants d) r1 /\
    round_ready (participants d) r2.

(** The bots that vote on a debate, in voting order. *)
Definition voters_of (names : list string) (d : Debate) : list string :=
  filter (fun x => not_in_participants x (participants d)) names.

(** The settings of a tournament, which no method changes. *)
Definition same_setup (t t' : SocietyDebateTournament) : Prop :=
  model t' = model t /\ num_bots t' = num_bots t /\
  results_dir t' = results_dir t.

(** The names [bot_0], [bot_1], ... of a tournament's bots. *)
Definition bot_names (t : SocietyDebateTournament) : list string :=
  map bot_name (seq 0 (Z.to_nat (num_bots t))).

(** The entry of [self.votes] for the i-th debate: stored under
    [debate_i], with the debate's participants and one vote of each other
    bot, each for one of the two participants. *)
Definition votes_entry_ok (names : list string) (ix : nat * Debate)
           (kv : string * VoteData) : Prop :=
  fst kv = debate_key (fst ix) /\
  fst (snd kv) = participants (snd ix) /\
  map sv_voter_id (snd (snd kv)) = voters_of names (snd ix) /\
  Forall (fun v => sv_winner_id v = fst (participants (snd ix)) \/
                   sv_winner_id v = snd (participants (snd ix)))
         (snd (snd kv)).

End Society.

(** The clock of the examples: the reading number as text. *)
Definition example_now : nat -> string := str_of_nat.

(** Three bots with their societies, as phase 1 of the first script
    leaves them. *)
Definition example_societies : Society.SocietyDebateTournament :=
  Eval vm_compute in
    match Society.generate_societies example_chat example_now
            (Society.SocietyDebateTournament_init "llama3.2" 3)
            Society.world0 with
    | Ok (t, _) => t
    | Raise _ => Society.SocietyDebateTournament_init "llama3.2" 3
    end.

(** ** Binary64 times under CPython 3.12 and later *)

Module Binary64.

Import PrimInt63.
Import PrimFloat.

(** One step of the float loop of the built-in [sum] (CPython 3.12,
    Python/bltinmodule.c): Neumaier's compensated summation.  The state is
    the running sum [f_result] and the compensation [c]. *)
Definition neumaier_step (st : float * float) (x : float) : float * float :=
  let '(f_result, c) := st in
  let t := (f_result + x)%float in
  (t,
   if (abs x <=? abs f_result)%float
   then (c + ((f_result - t) + x))%float
   else (c + ((x - t) + f_result))%float).

(** [sum(l)] for a list of floats: the first item is added to the integer
    start value 0, the others are summed with compensation, and the
    compensation is added at the end when it is finite and not zero. *)
Definition float_sum (l : list float) : float :=
  match l with
  | [] => 0%float
  | x :: r =>
      let '(f_result, c) := fold_left neumaier_step r ((0 + x)%float, 0%float) in
      if ((c =? 0)%float || is_nan c || is_infinity c)%bool then f_result
      else (f_result + c)%float
  end.

(** [float(n)] for a list length (below 2^63). *)
Definition float_of_nat (n : nat) : float :=
  of_uint63 (Nat.iter n (PrimInt63.add 1%uint63) 0%uint63).

(** Python floats with the [sum] of CPython 3.12 and later. *)
Definition float_PyNum : PyNum float := {|
  num_zero := 0%float;
  num_add := add;
  num_sub := sub;
  num_div := div;
  num_of_nat := float_of_nat;
  num_ltb := ltb;
  num_sum := float_sum
|}.



End Binary64.

(** * Properties *)

(** ** Dictionaries *)

Lemma dict_get_set_same {V} (d : dict V) k v :
  dict_get (dict_set d k v) k = Some v.
Proof.
  induction d as [|[k' v'] r IH]; simpl.
  - now rewrite String.eqb_refl.
  - destruct (String.eqb k' k) eqn:E; simpl; rewrite E; auto.
Qed.

Lemma dict_get_set_other {V} (d : dict V) k k' v :
  k <> k' -> dict_get (dict_set d k v) k' = dict_get d k'.
Proof.
  intros Hne. induction d as [|[k0 v0] r IH]; simpl.
  - destruct (String.eqb_spec k k'); congruence.
  - destruct (String.eqb_spec k0 k); simpl.
    + subst. destruct (String.eqb_spec k k'); congruence.
    + destruct (String.eqb_spec k0 k'); auto.
Qed.

Lemma dict_get_none {V} (d : dict V) k :
  dict_get d k = None <-> ~ In k (keys d).
Proof.
  induction d as [|[k0 v0] r IH]; simpl.
  - tauto.
  - destruct (String.eqb_spec k0 k).
    + split; [discriminate | intros H; exfalso; apply H; auto].
    + rewrite IH. tauto.
Qed.

Lemma dict_get_in {V} (d : dict V) k :
  In k (keys d) -> exists v, dict_get d k = Some v.
Proof.
  intros H. destruct (dict_get d k) eqn:E; eauto.
  apply dict_get_none in E. contradiction.
Qed.

Lemma dict_get_some_in {V} (d : dict V) k v :
  dict_get d k = Some v -> In k (keys d).
Proof.
  intros H. destruct (in_dec string_dec k (keys d)) as [|n]; auto.
  apply dict_get_none in n. congruence.
Qed.

Lemma keys_set_present {V} (d : dict V) k v :
  In k (keys d) -> keys (dict_set d k v) = keys d.
Proof.
  induction d as [|[k0 v0] r IH]; simpl; intros H.
  - contradiction.
  - destruct (String.eqb_spec k0 k); simpl; auto.
    f_equal. apply IH. destruct H; congruence.
Qed.

Lemma dict_set_absent {V} (d : dict V) k v :
  ~ In k (keys d) -> dict_set d k v = d ++ [(k, v)].
Proof.
  induction d as [|[k0 v0] r IH]; simpl; intros H; auto.
  destruct (String.eqb_spec k0 k).
  - exfalso; apply H; auto.
  - f_equal. apply IH. tauto.
Qed.

Lemma str_mem_In x l : str_mem x l = true <-> In x l.
Proof.
  induction l as [|y r IH]; simpl.
  - split; [discriminate | tauto].
  - rewrite orb_true_iff, IH. destruct (String.eqb_spec y x); intuition congruence.
Qed.

(** ** Vote extraction *)

Lemma str_in_A_get s :
  str_in "A" s = true <-> exists i, String.get i s = Some "A"%char.
Proof.
  induction s as [|c s IH].
  - simpl. split; [discriminate | intros [i H]; destruct i; discriminate].
  - cbn [str_in String.prefix]. rewrite orb_true_iff, IH.
    split.
    + intros [H | [i H]].
      * exists 0. simpl. destruct (ascii_dec "A" c); [subst; auto | discriminate].
      * exists (S i). exact H.
    + intros [[|i] H].
      * left. simpl in H. injection H as ->.
        destruct (ascii_dec "A" "A"); [now destruct s | congruence].
      * right. exists i. exact H.
Qed.

Lemma get_str_take n s i :
  String.get i (str_take n s) = if i <? n then String.get i s else None.
Proof.
  unfold str_take. revert s i.
  induction n as [|n IH]; intros s i.
  - destruct s; simpl; destruct i; reflexivity.
  - destruct s as [|c s]; simpl.
    + destruct i; destruct (_ <? _); reflexivity.
    + destruct i as [|i]; [reflexivity|]. simpl String.get. rewrite IH.
      reflexivity.
Qed.

Lemma parse_vote_A s :
  parse_vote s = "A" <-> exists i, i < 10 /\ String.get i s = Some "A"%char.
Proof.
  unfold parse_vote.
  destruct (str_in "A" (str_take 10 s)) eqn:E.
  - split; auto. intros _. apply str_in_A_get in E as [i H].
    rewrite get_str_take in H. exists i.
    destruct (Nat.ltb_spec i 10); [auto | discriminate].
  - split; [discriminate|]. intros [i [Hi H]].
    assert (str_in "A" (str_take 10 s) = true); [|congruence].
    apply str_in_A_get. exists i. rewrite get_str_take.
    apply Nat.ltb_lt in Hi. now rewrite Hi.
Qed.

Lemma parse_vote_cases s : parse_vote s = "A" \/ parse_vote s = "B".
Proof. unfold parse_vote. destruct (str_in _ _); auto. Qed.

(** C2: the recorded choice is A exactly when the character 'A' occurs among
    the first 10 characters of the response and B otherwise; the recorded
    winner is the first participant for A and the second for B, in
    [run_phase_3_voting] and in [vote_on_debate] alike; the four documented
    responses give A, B, B and (for any text without a letter) B. *)
Theorem C2_vote_extraction :
  forall (voter : string) (ps : string * string) (s : string),
    let v := record_vote voter ps s in
    let has_A := exists i, i < 10 /\ String.get i s = Some "A"%char in
    (vote v = "A" <-> has_A) /\
    (vote v = "B" <-> ~ has_A) /\
    (has_A -> winner_id v = fst ps) /\
    (~ has_A -> winner_id v = snd ps) /\
    voter_id v = voter /\ reasoning v = s /\
    sv_winner_id (society_vote voter ps s) = winner_id v /\
    parse_vote "A, because it's fairer" = "A" /\
    parse_vote "I pick B" = "B" /\
    parse_vote "Neither are convincing but I suppose B" = "B" /\
    ((forall i c, String.get i s = Some c -> is_letter c = false) ->
     vote v = "B").
Proof.
  intros voter ps s v has_A.
  assert (HA : vote v = "A" <-> has_A) by apply parse_vote_A.
  assert (HB : vote v = "B" <-> ~ has_A).
  { rewrite <- HA. subst v. simpl.
    destruct (parse_vote_cases s) as [E|E]; rewrite E;
      split; intros; try congruence; try discriminate. }
  repeat split; try reflexivity; try tauto.
  - intros H. apply HA in H. subst v. simpl in *. unfold winner_of.
    now rewrite H.
  - intros H. apply HB in H. subst v. simpl in *. unfold winner_of.
    now rewrite H.
  - intros H. apply HB. intros [i [_ Hi]]. apply H in Hi. discriminate.
Qed.

(** ** The agent *)

Section AgentProperties.

Context {T : Type} {NT : PyNum T}.
Variable chat : nat -> string -> list Message -> string.
Variable clock : nat -> T.

Lemma generate_response_eq (a : DebateAgent) prompt h (w : World) :
  generate_response chat clock a prompt h w =
  let messages := if h then _get_context a prompt
                  else [mkMessage "user" prompt] in
  let response := chat (length (chat_log w)) (model a) messages in
  let elapsed := num_sub (clock (S (ticks w))) (clock (ticks w)) in
  Ok (response,
      mkAgent (agent_id a) (model a)
        (conversation_history a ++
           [mkMessage "user" prompt; mkMessage "assistant" response])
        (initial_position a) (position_label a)
        (track_performance (performance_metrics a) elapsed),
      mkWorld (S (S (ticks w))) (chat_log w ++ [(model a, messages)])
              (files w)).
Proof.
  unfold generate_response, bind, time_time, ollama_chat, ret, _add_to_history.
  simpl. rewrite <- app_assoc. reflexivity.
Qed.

Lemma set_initial_position_eq (a : DebateAgent) q l (w : World) :
  set_initial_position chat clock a q l w =
  let messages := [mkMessage "user" q] in
  let response := chat (length (chat_log w)) (model a) messages in
  let elapsed := num_sub (clock (S (ticks w))) (clock (ticks w)) in
  Ok (response,
      mkAgent (agent_id a) (model a)
        (conversation_history a ++
           [mkMessage "user" q; mkMessage "assistant" response])
        (Some response) (Some l)
        (track_performance (performance_metrics a) elapsed),
      mkWorld (S (S (ticks w))) (chat_log w ++ [(model a, messages)])
              (files w)).
Proof.
  unfold set_initial_position, bind. rewrite generate_response_eq. reflexivity.
Qed.






(** C1 (amended): [set_initial_position] always returns; it makes exactly
    one backend call, whose only message is the question as a user turn
    (no system framing, no history); it stores the returned text and the
    label; and it appends two turns, the question and the answer, to
    [conversation_history]. *)
Theorem C1_set_initial_position :
  forall (a : DebateAgent) (question label : string) (w : World),
  exists response a' w',
    set_initial_position chat clock a question label w = Ok (response, a', w') /\
    chat_log w' = chat_log w ++ [(model a, [mkMessage "user" question])] /\
    response = chat (length (chat_log w)) (model a) [mkMessage "user" question] /\
    initial_position a' = Some response /\
    position_label a' = Some label /\
    conversation_history a' =
      conversation_history a ++
        [mkMessage "user" question; mkMessage "assistant" response].
Proof.
  intros a q l w. rewrite set_initial_position_eq. cbv zeta.
  eexists _, _, _. split; [reflexivity|]. repeat split.
Qed.

End AgentProperties.

(** C1 as stated fails: the call leaves two new entries in the history. *)
Lemma C1_history_is_appended :
  exists a' w',
    set_initial_position (T:=Q) (fun _ _ _ => "Fair society") (fun _ => 0%Q)
      (DebateAgent_init "agent_0" "llama3.2")
      "Describe your ideal society in 200 words." "position" world0
    = Ok ("Fair society", a', w') /\
    conversation_history (DebateAgent_init (T:=Q) "agent_0" "llama3.2") = [] /\
    conversation_history a' =
      [mkMessage "user" "Describe your ideal society in 200 words.";
       mkMessage "assistant" "Fair society"] /\
    conversation_history a' <>
      conversation_history (DebateAgent_init (T:=Q) "agent_0" "llama3.2").
Proof.
  eexists _, _. split; [reflexivity|]. simpl. repeat split. discriminate.
Qed.

(** ** Pairing *)

Lemma str_of_nat_inj i j : str_of_nat i = str_of_nat j -> i = j.
Proof.
  unfold str_of_nat. intros H.
  apply DecimalNat.Unsigned.to_uint_inj.
  assert (E : Some (Nat.to_uint i) = Some (Nat.to_uint j)).
  { rewrite <- !NilEmpty.usu. now rewrite H. }
  now injection E.
Qed.

Lemma agent_name_inj i j : agent_name i = agent_name j -> i = j.
Proof.
  unfold agent_name. simpl. intros H. injection H as H.
  now apply str_of_nat_inj.
Qed.

Lemma debate_key_inj i j : debate_key i = debate_key j -> i = j.
Proof.
  unfold debate_key. simpl. intros H. injection H as H.
  now apply str_of_nat_inj.
Qed.

Lemma combinations_1 {A} (l : list A) :
  combinations l 1 = map (fun y => [y]) l.
Proof.
  induction l as [|x tl IH]; [reflexivity|].
  cbn [combinations] in *. rewrite IH.
  destruct tl; reflexivity.
Qed.

Lemma combinations_2_cons {A} (x : A) tl :
  combinations (x :: tl) 2 = map (fun y => [x; y]) tl ++ combinations tl 2.
Proof.
  change (combinations (x :: tl) 2)
    with (map (cons x) (combinations tl 1) ++ combinations tl 2).
  now rewrite combinations_1, map_map.
Qed.

Lemma combinations_2_double_length {A} (l : list A) :
  2 * length (combinations l 2) = length l * (length l - 1).
Proof.
  induction l as [|x tl IH]; [reflexivity|].
  rewrite combinations_2_cons, length_app, length_map.
  cbn [length]. rewrite Nat.sub_succ, Nat.sub_0_r.
  destruct tl; simpl length in *; nia.
Qed.

Lemma combinations_2_length {A} (l : list A) :
  length (combinations l 2) = length l * (length l - 1) / 2.
Proof.
  rewrite <- combinations_2_double_length, Nat.mul_comm.
  now rewrite Nat.div_mul.
Qed.

Lemma map_nth_seq_id (l : list string) :
  map (fun j => nth j l "") (seq 0 (length l)) = l.
Proof.
  induction l as [|x tl IH]; [reflexivity|].
  cbn [length seq map nth]. rewrite <- seq_shift, map_map. cbn [nth].
  now rewrite IH.
Qed.

Lemma flat_map_map_in {A B C} (f : B -> list C) (g : A -> B) l :
  flat_map f (map g l) = flat_map (fun x => f (g x)) l.
Proof. induction l; simpl; congruence. Qed.

Lemma combinations_2_by_index (l : list string) :
  combinations l 2 = pairs_by_index l.
Proof.
  unfold pairs_by_index. induction l as [|x tl IH]; [reflexivity|].
  rewrite combinations_2_cons. cbn [length seq flat_map].
  rewrite Nat.sub_succ, Nat.sub_0_r. f_equal.
  - rewrite <- seq_shift, map_map. cbn [nth].
    rewrite <- (map_nth_seq_id tl) at 1. now rewrite map_map.
  - rewrite IH, <- seq_shift, flat_map_map_in.
    apply flat_map_ext. intros i.
    rewrite Nat.sub_succ, <- (seq_shift _ (S i)), map_map. reflexivity.
Qed.

Lemma in_combinations_2_cons {A} (x : A) tl c :
  In c (combinations (x :: tl) 2) <->
  (exists b, c = [x; b] /\ In b tl) \/ In c (combinations tl 2).
Proof.
  rewrite combinations_2_cons, in_app_iff, in_map_iff.
  split; (intros [[b [H1 H2]] | H]; [left; exists b; auto | right; auto]).
Qed.

Lemma in_combinations_2 {A} (l : list A) c :
  In c (combinations l 2) ->
  exists a b, c = [a; b] /\ In a l /\ In b l.
Proof.
  induction l as [|x tl IH]; [intros []|].
  rewrite in_combinations_2_cons. intros [[b [-> Hb]] | H].
  - exists x, b. simpl; auto.
  - destruct (IH H) as (a & b & -> & Ha & Hb). exists a, b. simpl; auto.
Qed.

Lemma in_combinations_2_order {A} (l : list A) a b :
  In [a; b] (combinations l 2) <->
  exists l1 l2 l3, l = l1 ++ a :: l2 ++ b :: l3.
Proof.
  induction l as [|x tl IH].
  - split; [intros [] | intros (l1 & l2 & l3 & H); now destruct l1].
  - rewrite in_combinations_2_cons, IH. split.
    + intros [[b' [E Hb]] | (l1 & l2 & l3 & ->)].
      * injection E as -> ->. apply in_split in Hb as (l2 & l3 & ->).
        now exists [], l2, l3.
      * now exists (x :: l1), l2, l3.
    + intros (l1 & l2 & l3 & H). destruct l1 as [|y l1]; simpl in H.
      * injection H as -> ->. left. exists b. split; auto.
        apply in_or_app. right. now left.
      * injection H as -> ->. right. now exists l1, l2, l3.
Qed.

Lemma combinations_2_distinct (l : list string) :
  NoDup l ->
  (forall a b, In [a; b] (combinations l 2) -> a <> b) /\
  NoDup (combinations l 2) /\
  (forall a b, In [a; b] (combinations l 2) -> ~ In [b; a] (combinations l 2)) /\
  (forall a b, In a l -> In b l -> a <> b ->
               In [a; b] (combinations l 2) \/ In [b; a] (combinations l 2)).
Proof.
  induction 1 as [|x tl Hx Hnd (IH1 & IH2 & IH3 & IH4)].
  - repeat split; simpl; try tauto. constructor.
  - repeat split.
    + intros a b. rewrite in_combinations_2_cons.
      intros [[b' [E Hb]] | H]; [|now apply IH1].
      injection E as -> ->. intros ->. contradiction.
    + rewrite combinations_2_cons. apply NoDup_app.
      * apply Finite.Injective_map_NoDup; auto.
        intros u v E. now injection E.
      * exact IH2.
      * intros c Hc Hc'. apply in_map_iff in Hc as (b & <- & Hb).
        apply in_combinations_2 in Hc' as (a' & b' & E & Ha' & _).
        injection E as -> ->. contradiction.
    + intros a b. rewrite !in_combinations_2_cons.
      intros [[b' [E Hb]] | H] [[a' [E' Ha]] | H'].
      * injection E as Ea Eb. injection E' as Ea' Eb'. subst. tauto.
      * injection E as Ea Eb. subst.
        apply in_combinations_2 in H' as (u & v & E & _ & Hv).
        injection E as Eu Ev. subst. tauto.
      * injection E' as Ea' Eb'. subst.
        apply in_combinations_2 in H as (u & v & E & _ & Hv).
        injection E as Eu Ev. subst. tauto.
      * now apply (IH3 a b).
    + intros a b Ha Hb Hab. rewrite !in_combinations_2_cons.
      destruct Ha as [<- | Ha], Hb as [<- | Hb].
      * congruence.
      * left. left. eauto.
      * right. left. eauto.
      * destruct (IH4 a b Ha Hb Hab); [left | right]; right; auto.
Qed.

(** ** Tallies and the debate winner *)

Lemma count_app x l1 l2 : count x (l1 ++ l2) = count x l1 + count x l2.
Proof. induction l1 as [|y r IH]; simpl; [reflexivity | rewrite IH; lia]. Qed.

Lemma count_pos_in x l : 0 < count x l <-> In x l.
Proof.
  induction l as [|y r IH]; simpl; [split; [lia | tauto]|].
  destruct (String.eqb_spec y x); [split; auto; lia|].
  rewrite <- IH. split; [intros; lia | intros [|]; [congruence | lia]].
Qed.

Lemma tally_snoc l y : tally (l ++ [y]) = tally_step (tally l) y.
Proof. unfold tally. now rewrite fold_left_app. Qed.

Lemma tally_get l x :
  dict_get (tally l) x = if count x l =? 0 then None else Some (count x l).
Proof.
  induction l as [|y l IH] using rev_ind; [reflexivity|].
  rewrite tally_snoc, count_app. unfold tally_step. simpl count.
  destruct (String.eqb_spec y x) as [->|Hne].
  - rewrite dict_get_set_same, IH.
    destruct (Nat.eqb_spec (count x l) 0) as [E|E];
      destruct (Nat.eqb_spec (count x l + (1 + 0)) 0); try lia;
      f_equal; lia.
  - rewrite dict_get_set_other, IH by assumption.
    now rewrite !Nat.add_0_r.
Qed.

Lemma keys_dict_set {V} (d : dict V) k v :
  keys (dict_set d k v) = if str_mem k (keys d) then keys d else keys d ++ [k].
Proof.
  destruct (str_mem k (keys d)) eqn:E.
  - apply keys_set_present. now apply str_mem_In.
  - rewrite dict_set_absent.
    + unfold keys. now rewrite map_app.
    + intros H. apply str_mem_In in H. congruence.
Qed.

Lemma tally_keys_NoDup l : NoDup (keys (tally l)).
Proof.
  induction l as [|y l IH] using rev_ind; [constructor|].
  rewrite tally_snoc. unfold tally_step. rewrite keys_dict_set.
  destruct (str_mem y (keys (tally l))) eqn:E; auto.
  apply NoDup_app; auto.
  - repeat constructor. simpl. tauto.
  - intros x Hx [<- | []]. apply str_mem_In in Hx. congruence.
Qed.

Lemma tally_hd l : hd_error (keys (tally l)) = hd_error l.
Proof.
  induction l as [|y l IH] using rev_ind; [reflexivity|].
  rewrite tally_snoc. unfold tally_step. rewrite keys_dict_set.
  destruct l as [|z l].
  - reflexivity.
  - simpl hd_error in *. destruct (keys (tally (z :: l))) as [|k ks];
      [discriminate|].
    destruct (str_mem y (k :: ks)); exact IH.
Qed.

Lemma NoDup_keys_in_get {V} (d : dict V) k v :
  NoDup (keys d) -> In (k, v) d -> dict_get d k = Some v.
Proof.
  induction d as [|[k0 v0] r IH]; simpl; intros Hnd Hin; [tauto|].
  inversion Hnd as [|? ? Hk Hr]; subst.
  destruct Hin as [E | Hin].
  - injection E as -> ->. now rewrite String.eqb_refl.
  - destruct (String.eqb_spec k0 k) as [->|]; auto.
    exfalso. apply Hk. apply in_map_iff. exists (k, v). auto.
Qed.

Lemma tally_entry l k v : In (k, v) (tally l) -> v = count k l /\ In k l.
Proof.
  intros H. apply NoDup_keys_in_get in H; [|apply tally_keys_NoDup].
  rewrite tally_get in H. destruct (Nat.eqb_spec (count k l) 0); [discriminate|].
  injection H as <-. split; auto. apply count_pos_in. lia.
Qed.

Lemma fold_max_spec (r : dict nat) :
  forall best,
    exists pre post,
      best :: r = pre ++ fold_left max_step r best :: post /\
      (forall x, In x pre -> snd x < snd (fold_left max_step r best)) /\
      (forall x, In x post -> snd x <= snd (fold_left max_step r best)).
Proof.
  induction r as [|y r IH]; intros best.
  - exists [], []. simpl. repeat split; tauto.
  - simpl fold_left. unfold max_step at 2 4 6.
    destruct (Nat.ltb_spec (snd best) (snd y)) as [Hlt|Hge].
    + destruct (IH y) as (pre & post & E & Hpre & Hpost).
      set (e := fold_left max_step r y) in *.
      exists (best :: pre), post. rewrite E. repeat split; auto.
      intros x [<- | Hx]; auto.
      assert (Hy : In y (pre ++ e :: post)) by (rewrite <- E; now left).
      apply in_app_or in Hy as [Hy | [Hy | Hy]].
      * apply Hpre in Hy. lia.
      * rewrite Hy. exact Hlt.
      * apply Hpost in Hy. lia.
    + destruct (IH best) as (pre & post & E & Hpre & Hpost).
      set (e := fold_left max_step r best) in *.
      destruct pre as [|p pre]; simpl in E.
      * injection E as E1 E2. exists [], (y :: post).
        simpl. rewrite <- E1, <- E2. repeat split; [tauto|].
        intros x [<- | Hx]; [lia | rewrite E1; apply Hpost; now rewrite <- E2].
      * injection E as E1 E2. subst p.
        exists (best :: y :: pre), post. rewrite E2. repeat split; auto.
        assert (Hb : snd best < snd e) by (apply Hpre; now left).
        intros x [<- | [<- | Hx]]; [auto | lia | apply Hpre; now right].
Qed.

Lemma dict_get_In {V} (d : dict V) k v : dict_get d k = Some v -> In (k, v) d.
Proof.
  induction d as [|[k0 v0] r IH]; simpl; [discriminate|].
  destruct (String.eqb_spec k0 k) as [->|]; auto.
  intros E. injection E as ->. now left.
Qed.

Lemma tally_has l x : In x l -> In (x, count x l) (tally l).
Proof.
  intros H. apply dict_get_In. rewrite tally_get.
  apply count_pos_in in H. destruct (Nat.eqb_spec (count x l) 0); [lia | auto].
Qed.

(** The winner of a non-empty list of votes: the first key of the tally
    whose count no other key exceeds. *)
Lemma max_by_count_tally (wids : list string) :
  wids <> [] ->
  exists w pre post,
    max_by_count (tally wids) = Ok w /\
    tally wids = pre ++ (w, count w wids) :: post /\
    In w wids /\
    (forall x, In x pre -> snd x < count w wids) /\
    (forall x, count x wids <= count w wids).
Proof.
  intros Hne.
  destruct (tally wids) as [|kv r] eqn:Et.
  - pose proof (tally_hd wids) as H. rewrite Et in H. simpl in H.
    destruct wids; [congruence | discriminate].
  - destruct (fold_max_spec r kv) as (pre & post & E & Hpre & Hpost).
    unfold max_by_count.
    remember (fold_left max_step r kv) as e eqn:Ee.
    assert (He : In e (tally wids)).
    { rewrite Et, E. apply in_or_app. right. now left. }
    destruct e as [w c]. apply tally_entry in He as [-> Hw].
    exists w, pre, post. simpl in *.
    split; [reflexivity|]. split; [now rewrite E|].
    split; [assumption|]. split; [assumption|].
    intros x. destruct (in_dec string_dec x wids) as [Hx | Hx].
    + apply tally_has in Hx. rewrite Et, E in Hx.
      apply in_app_or in Hx as [Hx | [Hx | Hx]].
      * apply Hpre in Hx. simpl in Hx. lia.
      * injection Hx as -> _. lia.
      * apply Hpost in Hx. simpl in Hx. lia.
    + assert (count x wids = 0); [|lia].
      destruct (count x wids) eqn:Ec; auto.
      exfalso. apply Hx. apply count_pos_in. lia.
Qed.

Lemma credit_ok (wc : dict nat) w c :
  dict_get wc w = Some c ->
  exists wc',
    credit wc w = Ok wc' /\
    dict_get wc' w = Some (c + 1) /\
    (forall x, x <> w -> dict_get wc' x = dict_get wc x) /\
    keys wc' = keys wc.
Proof.
  intros H. unfold credit. rewrite H. eexists. split; [reflexivity|].
  repeat split.
  - apply dict_get_set_same.
  - intros x Hx. apply dict_get_set_other. congruence.
  - apply keys_set_present. eapply dict_get_some_in; eauto.
Qed.

(** C5: for a debate with at least one vote whose winner ids are among the
    two participants a and b, the credited winner is the participant with
    the strictly larger tally; on a tie it is the first key of the tally
    mapping, which is the winner id of the earliest vote.  The loop of
    [calculate_results] (and of [calculate_rankings]) credits that
    participant with exactly one win, changes no other count, and goes on
    with the remaining debates. *)
Theorem C5_debate_winner :
  forall (a b : string) (wids : list string),
    wids <> [] ->
    (forall x, In x wids -> x = a \/ x = b) ->
    exists w,
      max_by_count (tally wids) = Ok w /\
      In w wids /\
      (forall x, count x wids <= count w wids) /\
      (count b wids < count a wids -> w = a) /\
      (count a wids < count b wids -> w = b) /\
      (count a wids = count b wids ->
       hd_error (keys (tally wids)) = Some w /\ hd_error wids = Some w) /\
      (forall wc c, dict_get wc w = Some c ->
         exists wc', credit wc w = Ok wc' /\
                     dict_get wc' w = Some (c + 1) /\
                     (forall x, x <> w -> dict_get wc' x = dict_get wc x) /\
                     forall rest,
                       count_wins wc (wids :: rest) = count_wins wc' rest).
Proof.
  intros a b wids Hne Hab.
  destruct (max_by_count_tally wids Hne) as (w & pre & post & E & Ed & Hw & Hpre & Hmax).
  assert (Hfirst : count a wids = count b wids ->
                   hd_error (keys (tally wids)) = Some w).
  { intros Htie.
    destruct pre as [|[h ch] pre]; [now rewrite Ed|].
    exfalso. assert (Hin : In (h, ch) (tally wids)).
    { rewrite Ed. now left. }
    apply tally_entry in Hin as [-> Hin].
    specialize (Hpre (h, count h wids) (or_introl eq_refl)). simpl in Hpre.
    destruct (Hab h Hin) as [-> | ->], (Hab w Hw) as [-> | ->]; lia. }
  exists w.
  split; [exact E|]. split; [exact Hw|]. split; [exact Hmax|].
  split; [|split; [|split]].
  - intros Hlt. destruct (Hab w Hw) as [-> | ->]; auto.
    specialize (Hmax a). lia.
  - intros Hlt. destruct (Hab w Hw) as [-> | ->]; auto.
    specialize (Hmax b). lia.
  - intros Htie. split; [auto|]. rewrite <- tally_hd. auto.
  - intros wc c Hc. destruct (credit_ok wc w c Hc) as (wc' & Hw' & ? & ? & _).
    exists wc'. repeat split; auto.
    intros rest. simpl. now rewrite E, Hw'.
Qed.

Lemma C5_debate_winner_witness :
  exists w,
    max_by_count (tally ["agent_1"; "agent_0"; "agent_0"; "agent_1"]) = Ok w /\
    w = "agent_1".
Proof.
  destruct (C5_debate_winner "agent_0" "agent_1"
              ["agent_1"; "agent_0"; "agent_0"; "agent_1"])
    as (w & E & _ & _ & _ & _ & Htie & _).
  - discriminate.
  - simpl. intuition auto.
  - exists w. split; [exact E|].
    destruct (Htie eq_refl) as [_ H]. simpl in H. now injection H.
Defined.

(** ** Win counts *)

Lemma sum_nat_cons x l : sum_nat (x :: l) = x + sum_nat l.
Proof.
  unfold sum_nat. simpl.
  assert (G : forall l a, fold_left Nat.add l a = a + fold_left Nat.add l 0).
  { clear. induction l as [|y l IH]; intros a; simpl; [lia|].
    rewrite (IH (a + y)), (IH y). lia. }
  apply G.
Qed.

Lemma sum_dict_set (d : dict nat) k c v :
  dict_get d k = Some c ->
  sum_nat (values (dict_set d k v)) + c = sum_nat (values d) + v.
Proof.
  unfold values.
  induction d as [|[k0 v0] r IH]; simpl; [discriminate|].
  destruct (String.eqb_spec k0 k) as [->|Hne]; intros H.
  - injection H as ->. simpl. rewrite !sum_nat_cons. lia.
  - simpl. rewrite !sum_nat_cons. specialize (IH H). lia.
Qed.

Lemma zero_counts_spec (ks : list string) :
  NoDup ks -> zero_counts ks = map (fun k => (k, 0)) ks.
Proof.
  unfold zero_counts.
  assert (G : forall ks acc,
             NoDup (keys acc ++ ks) ->
             fold_left (fun d k => dict_set d k 0) ks acc =
             acc ++ map (fun k => (k, 0)) ks).
  { clear. induction ks as [|k ks IH]; intros acc Hnd; simpl.
    - now rewrite app_nil_r.
    - rewrite IH.
      + rewrite dict_set_absent, <- app_assoc; [reflexivity|].
        apply NoDup_remove_2 in Hnd. intros H. apply Hnd.
        apply in_or_app. now left.
      + rewrite dict_set_absent.
        * unfold keys. rewrite map_app. simpl. rewrite <- app_assoc. exact Hnd.
        * apply NoDup_remove_2 in Hnd. intros H. apply Hnd.
          apply in_or_app. now left. }
  intros H. now rewrite G.
Qed.

Lemma zero_counts_values_zero (ks : list string) :
  Forall (fun v => v = 0) (values (zero_counts ks)).
Proof.
  unfold zero_counts.
  assert (G : forall ks acc,
             Forall (fun v => v = 0) (values acc) ->
             Forall (fun v => v = 0)
               (values (fold_left (fun d k => dict_set d k 0) ks acc))).
  { clear. induction ks as [|k ks IH]; intros acc H; simpl; auto.
    apply IH. clear IH. induction acc as [|[k0 v0] r IHr]; simpl.
    - repeat constructor.
    - inversion H; subst. destruct (String.eqb k0 k); simpl; constructor; auto. }
  apply G. constructor.
Qed.

Lemma zero_counts_keys (ks : list string) x :
  In x (keys (zero_counts ks)) <-> In x ks.
Proof.
  unfold zero_counts.
  assert (G : forall ks acc,
             In x (keys (fold_left (fun d k => dict_set d k 0) ks acc)) <->
             In x (keys acc) \/ In x ks).
  { clear. induction ks as [|k ks IH]; intros acc; simpl; [tauto|].
    rewrite IH, keys_dict_set.
    destruct (str_mem k (keys acc)) eqn:E.
    - apply str_mem_In in E. intuition (subst; auto).
    - rewrite in_app_iff. simpl. tauto. }
  rewrite G. simpl. tauto.
Qed.

Lemma sum_zero (l : list nat) : Forall (fun v => v = 0) l -> sum_nat l = 0.
Proof.
  induction 1 as [|x l Hx _ IH]; [reflexivity|].
  rewrite sum_nat_cons, Hx, IH. reflexivity.
Qed.

Lemma count_wins_sum (vs : list (list string)) :
  forall wc wc',
    count_wins wc vs = Ok wc' ->
    sum_nat (values wc') = sum_nat (values wc) + length vs /\
    keys wc' = keys wc.
Proof.
  induction vs as [|wids vs IH]; intros wc wc'; simpl.
  - intros E. injection E as ->. split; [lia | reflexivity].
  - destruct (max_by_count (tally wids)) as [w|]; [|discriminate].
    unfold credit. destruct (dict_get wc w) as [c|] eqn:Ec; [|discriminate].
    intros E. apply IH in E as [E K]. rewrite E, K.
    pose proof (sum_dict_set wc w c (c + 1) Ec).
    split; [lia|]. apply keys_set_present. eapply dict_get_some_in; eauto.
Qed.

(** [calculate_rankings] of the first script credits one bot per entry of
    [votes] as well. *)
Lemma calculate_rankings_sum num_bots votes rk wc :
  calculate_rankings num_bots votes = Ok (rk, wc) ->
  sum_nat (values wc) = length votes /\ rk = sorted_desc wc.
Proof.
  unfold calculate_rankings.
  destruct (count_wins _ _) as [wc'|] eqn:E; [|discriminate].
  intros H. injection H as <- <-.
  apply count_wins_sum in E as [E _].
  rewrite (sum_zero (values (zero_counts _))) in E
    by apply zero_counts_values_zero.
  rewrite length_map in E. split; [exact E | reflexivity].
Qed.

(** Aggregation returns when every debate has a vote and every winner is
    a registered agent. *)
Lemma count_wins_total (vs : list (list string)) :
  forall wc,
    Forall (fun wids => wids <> [] /\ forall x, In x wids -> In x (keys wc)) vs ->
    exists wc', count_wins wc vs = Ok wc'.
Proof.
  induction vs as [|wids vs IH]; intros wc H; simpl; [eauto|].
  inversion H as [|? ? [Hne Hin] Hr]; subst.
  destruct (max_by_count_tally wids Hne) as (w & _ & _ & E & _ & Hw & _).
  rewrite E. destruct (dict_get_in wc w (Hin w Hw)) as [c Hc].
  destruct (credit_ok wc w c Hc) as (wc1 & E1 & _ & _ & K). rewrite E1.
  apply IH. eapply Forall_impl; [|exact Hr]. simpl.
  intros l [? Hl]. split; auto. now rewrite K.
Qed.

Lemma count_wins_empty_vote (pre post : list (list string)) :
  forall wc,
    Forall (fun wids => wids <> [] /\ forall x, In x wids -> In x (keys wc)) pre ->
    count_wins wc (pre ++ [] :: post) =
      Raise (ValueError "max() arg is an empty sequence").
Proof.
  induction pre as [|wids pre IH]; intros wc H; simpl; [reflexivity|].
  inversion H as [|? ? [Hne Hin] Hr]; subst.
  destruct (max_by_count_tally wids Hne) as (w & _ & _ & E & _ & Hw & _).
  rewrite E. destruct (dict_get_in wc w (Hin w Hw)) as [c Hc].
  destruct (credit_ok wc w c Hc) as (wc1 & E1 & _ & _ & K). rewrite E1.
  apply IH. eapply Forall_impl; [|exact Hr]. simpl.
  intros l [? Hl]. split; auto. now rewrite K.
Qed.

(** ** The tournament *)

Section TournamentProperties.

Context {T : Type} {NT : PyNum T}.
Variable chat : nat -> string -> list Message -> string.
Variable clock : nat -> T.

Lemma bind_ok {A B} (m : M (T:=T) A) (f : A -> M B) w a w' :
  m w = Ok (a, w') -> bind m f w = f a w'.
Proof. unfold bind. now intros ->. Qed.

Lemma same_shape_refl (t : DebateTournament (T:=T)) : same_shape t t.
Proof. repeat split. Qed.

Lemma same_shape_trans (t1 t2 t3 : DebateTournament (T:=T)) :
  same_shape t1 t2 -> same_shape t2 t3 -> same_shape t1 t3.
Proof.
  unfold same_shape. intros H1 H2.
  decompose [and] H1. decompose [and] H2. repeat split; congruence.
Qed.

(** Iteration with an invariant indexed by the items already processed. *)
Lemma for_each_inv {A S} (I : list A -> S -> World (T:=T) -> Prop)
      (body : A -> S -> M S) (l : list A) :
  (forall pre x post s w,
      l = pre ++ x :: post -> I pre s w ->
      exists s' w', body x s w = Ok (s', w') /\ I (pre ++ [x]) s' w') ->
  forall s w, I [] s w ->
  exists s' w', for_each l body s w = Ok (s', w') /\ I l s' w'.
Proof.
  intros Hbody.
  assert (G : forall rest done s w,
             l = done ++ rest -> I done s w ->
             exists s' w', for_each rest body s w = Ok (s', w') /\ I l s' w').
  { induction rest as [|x rest IH]; intros done s w El Hi.
    - rewrite app_nil_r in El. subst. exists s, w. split; auto.
    - destruct (Hbody done x rest s w El Hi) as (s1 & w1 & E1 & I1).
      destruct (IH (done ++ [x]) s1 w1) as (s2 & w2 & E2 & I2); auto.
      { now rewrite <- app_assoc. }
      exists s2, w2. split; auto. simpl. now rewrite (bind_ok _ _ _ _ _ E1). }
  intros s w Hi. now apply (G l [] s w).
Qed.

Lemma with_agent_generate (t : DebateTournament) aid prompt h w :
  In aid (keys (agents t)) ->
  exists r t' w',
    with_agent t aid (fun a => generate_response chat clock a prompt h) w
      = Ok ((r, t'), w') /\
    same_shape t t' /\
    (exists k mdl pre, r = chat k mdl (pre ++ [mkMessage "user" prompt])).
Proof.
  intros Hin. destruct (dict_get_in _ _ Hin) as [a Ha].
  unfold with_agent. rewrite Ha. unfold bind.
  rewrite generate_response_eq. cbv zeta. unfold ret.
  eexists _, _, _. split; [reflexivity|]. split.
  - repeat split. simpl. now apply keys_set_present.
  - destruct h.
    + unfold _get_context. rewrite app_assoc. eauto.
    + exists (length (chat_log w)), (model a), []. reflexivity.
Qed.

Lemma with_agent_set_initial (t : DebateTournament) aid q l w :
  In aid (keys (agents t)) ->
  exists r t' w',
    with_agent t aid (fun a => set_initial_position chat clock a q l) w
      = Ok ((r, t'), w') /\
    same_shape t t'.
Proof.
  intros Hin. destruct (dict_get_in _ _ Hin) as [a Ha].
  unfold with_agent. rewrite Ha. unfold bind.
  rewrite set_initial_position_eq. cbv zeta. unfold ret.
  eexists _, _, _. split; [reflexivity|].
  repeat split. simpl. now apply keys_set_present.
Qed.

Lemma run_phase_1_positions_ok (t : DebateTournament) w :
  exists t' w',
    run_phase_1_positions chat clock t w = Ok (t', w') /\
    keys (agents t') = keys (agents t) /\
    debates t' = debates t /\
    votes t' = votes t /\
    t_position_label t' = t_position_label t /\
    topic_question t' = topic_question t /\
    num_agents t' = num_agents t /\
    output_dir t' = output_dir t /\
    start_time (tournament_metrics t') = start_time (tournament_metrics t) /\
    (forall k, In k (keys (agents t)) -> In k (keys (positions t'))).
Proof.
  unfold run_phase_1_positions. unfold bind at 1. unfold time_time at 1.
  set (w0 := mkWorld (S (ticks w)) (chat_log w) (files w)).
  set (body := fun (aid : string) (t0 : DebateTournament) => _).
  assert (Hloop : exists t1 w1,
             for_each (keys (agents t)) body t w0 = Ok (t1, w1) /\
             (keys (agents t1) = keys (agents t) /\
              debates t1 = debates t /\ votes t1 = votes t /\
              t_position_label t1 = t_position_label t /\
              topic_question t1 = topic_question t /\
              num_agents t1 = num_agents t /\
              output_dir t1 = output_dir t /\
              tournament_metrics t1 = tournament_metrics t /\
              (forall k, In k (keys (agents t)) -> In k (keys (positions t1))))).
  { apply (for_each_inv
             (fun pre (s : DebateTournament) (_ : World) =>
                keys (agents s) = keys (agents t) /\
                debates s = debates t /\ votes s = votes t /\
                t_position_label s = t_position_label t /\
                topic_question s = topic_question t /\
                num_agents s = num_agents t /\
                output_dir s = output_dir t /\
                tournament_metrics s = tournament_metrics t /\
                (forall k, In k pre -> In k (keys (positions s))))).
    - intros pre x post s ws El (Hk & Hd & Hv & Hl & Hq & Hn & Ho & Hm & Hp).
      assert (Hx : In x (keys (agents s))).
      { rewrite Hk, El. apply in_or_app. right. now left. }
      destruct (with_agent_set_initial s x (topic_question s)
                  (t_position_label s) ws Hx) as (r & s1 & w1 & E & Hs).
      unfold body. rewrite (bind_ok _ _ _ _ _ E).
      destruct Hs as (Sk & Sp & Sd & Sv & Sl & Sq & Sn & So & Sm).
      assert (Hx1 : In x (keys (agents s1))) by now rewrite Sk.
      destruct (dict_get_in _ _ Hx1) as [a Ha].
      unfold lookup. rewrite Ha. unfold bind, ret, time_time.
      eexists _, _. split; [reflexivity|]. simpl.
      repeat split; try congruence.
      intros k Hkin. rewrite keys_dict_set.
      destruct (str_mem x (keys (positions s1))) eqn:Emem.
      + apply in_app_or in Hkin as [Hkin | [<- | []]].
        * rewrite Sp. auto.
        * now apply str_mem_In.
      + apply in_app_or in Hkin as [Hkin | [<- | []]].
        * apply in_or_app. left. rewrite Sp. auto.
        * apply in_or_app. right. now left.
    - repeat split. intros k []. }
  destruct Hloop as (t1 & w1 & E1 & Hk & Hd & Hv & Hl & Hq & Hn & Ho & Hm & Hp).
  rewrite (bind_ok _ _ _ _ _ E1). unfold bind, time_time, json_dump, ret.
  eexists _, _. split; [reflexivity|]. simpl.
  repeat split; try congruence; auto.
Qed.

Lemma bind_lookup {V B} (d : dict V) k v (f : V -> M (T:=T) B) w :
  dict_get d k = Some v -> bind (lookup d k) f w = f v w.
Proof. unfold bind, lookup. now intros ->. Qed.

Lemma bind_time {B} (f : T -> M B) w :
  bind (time_time clock) f w =
  f (clock (ticks w)) (mkWorld (S (ticks w)) (chat_log w) (files w)).
Proof. reflexivity. Qed.

Lemma in_keys_dict_set {V} (d : dict V) k v x :
  In x (keys (dict_set d k v)) <-> x = k \/ In x (keys d).
Proof.
  rewrite keys_dict_set. destruct (str_mem k (keys d)) eqn:E.
  - apply str_mem_In in E. split; [auto | intros [-> | H]; auto].
  - rewrite in_app_iff. simpl. intuition congruence.
Qed.

Lemma round_dict_keys ty a ra b rb :
  In a (keys (round_dict ty a ra b rb)) /\ In b (keys (round_dict ty a ra b rb)).
Proof.
  unfold round_dict. rewrite !in_keys_dict_set. auto.
Qed.

Lemma run_debate_ok (t : DebateTournament) a b w :
  In a (keys (agents t)) -> In b (keys (agents t)) ->
  exists d t' w',
    run_debate chat clock t a b w = Ok ((d, t'), w') /\
    same_shape t t' /\
    participants d = (a, b) /\
    exists r0 r1,
      rounds d = [r0; r1] /\
      In a (keys r0) /\ In b (keys r0) /\ In a (keys r1) /\ In b (keys r1).
Proof.
  intros Ha Hb.
  destruct (dict_get_in _ _ Ha) as [aa Haa].
  destruct (dict_get_in _ _ Hb) as [ab Hab].
  unfold run_debate.
  rewrite (bind_lookup _ _ _ _ _ Haa), (bind_lookup _ _ _ _ _ Hab), bind_time.
  edestruct (with_agent_generate t a) as (r1 & t1 & w1 & E1 & S1 & _);
    [exact Ha|].
  rewrite (bind_ok _ _ _ _ _ E1).
  assert (Hb1 : In b (keys (agents t1))) by (destruct S1 as [-> _]; auto).
  edestruct (with_agent_generate t1 b) as (r2 & t2 & w2 & E2 & S2 & _);
    [exact Hb1|].
  rewrite (bind_ok _ _ _ _ _ E2).
  pose proof (same_shape_trans _ _ _ S1 S2) as S12.
  assert (Ha2 : In a (keys (agents t2))) by (destruct S12 as [-> _]; auto).
  edestruct (with_agent_generate t2 a) as (r3 & t3 & w3 & E3 & S3 & _);
    [exact Ha2|].
  rewrite (bind_ok _ _ _ _ _ E3).
  pose proof (same_shape_trans _ _ _ S12 S3) as S13.
  assert (Hb3 : In b (keys (agents t3))) by (destruct S13 as [-> _]; auto).
  edestruct (with_agent_generate t3 b) as (r4 & t4 & w4 & E4 & S4 & _);
    [exact Hb3|].
  rewrite (bind_ok _ _ _ _ _ E4).
  pose proof (same_shape_trans _ _ _ S13 S4) as S14.
  rewrite bind_time. unfold ret.
  eexists _, _, _. split; [reflexivity|]. split; [exact S14|].
  split; [reflexivity|]. simpl.
  eexists _, _. split; [reflexivity|].
  destruct (round_dict_keys "first_rebuttal" a r1 b r2).
  destruct (round_dict_keys "counter_rebuttal" a r3 b r4).
  auto.
Qed.

Lemma run_phase_2_debates_ok (t : DebateTournament) w :
  exists t' w',
    run_phase_2_debates chat clock t w = Ok (t', w') /\
    keys (agents t') = keys (agents t) /\
    positions t' = positions t /\
    votes t' = votes t /\
    t_position_label t' = t_position_label t /\
    topic_question t' = topic_question t /\
    num_agents t' = num_agents t /\
    output_dir t' = output_dir t /\
    start_time (tournament_metrics t') = start_time (tournament_metrics t) /\
    exists ds,
      debates t' = debates t ++ ds /\
      map (fun d => pair_list (participants d)) ds =
        combinations (keys (agents t)) 2 /\
      Forall rounds_ready ds.
Proof.
  unfold run_phase_2_debates. rewrite bind_time.
  set (w0 := mkWorld (S (ticks w)) (chat_log w) (files w)).
  set (body := fun (pair : list string) (t0 : DebateTournament) => _).
  assert (Hloop : exists t1 w1,
             for_each (combinations (keys (agents t)) 2) body t w0 = Ok (t1, w1) /\
             (same_shape t (set_debates t1 (debates t)) /\
              exists ds,
                debates t1 = debates t ++ ds /\
                map (fun d => pair_list (participants d)) ds =
                  combinations (keys (agents t)) 2 /\
                Forall rounds_ready ds)).
  { apply (for_each_inv
             (fun pre (s : DebateTournament) (_ : World) =>
                same_shape t (set_debates s (debates t)) /\
                exists ds,
                  debates s = debates t ++ ds /\
                  map (fun d => pair_list (participants d)) ds = pre /\
                  Forall rounds_ready ds)).
    - intros pre x post s ws El (Hs & ds & Hd & Hm & Hr).
      assert (Hx : In x (combinations (keys (agents t)) 2)).
      { rewrite El. apply in_or_app. right. now left. }
      apply in_combinations_2 in Hx as (a & b & -> & Ha & Hb).
      assert (Hk : keys (agents s) = keys (agents t)) by apply Hs.
      rewrite <- Hk in Ha, Hb.
      destruct (run_debate_ok s a b ws Ha Hb)
        as (d & s1 & w1 & E & S1 & Hp & r0 & r1 & Hrd & K).
      unfold body. rewrite (bind_ok _ _ _ _ _ E). unfold ret.
      eexists _, _. split; [reflexivity|]. split.
      + unfold same_shape in *. simpl in *.
        decompose [and] Hs. decompose [and] S1. repeat split; congruence.
      + exists (ds ++ [d]). simpl. destruct S1 as (_ & _ & -> & _).
        rewrite Hd, <- app_assoc. split; [reflexivity|]. split.
        * rewrite map_app, Hm. simpl. now rewrite Hp.
        * apply Forall_app. split; auto. constructor; [|constructor].
          exists r0, r1, []. rewrite Hp. simpl. tauto.
    - split.
      + repeat split.
      + exists []. now rewrite app_nil_r. }
  destruct Hloop as (t1 & w1 & E1 & Hs & ds & Hd & Hm & Hr).
  rewrite (bind_ok _ _ _ _ _ E1), bind_time. unfold bind, json_dump, ret.
  eexists _, _. split; [reflexivity|]. simpl.
  unfold same_shape in Hs. simpl in Hs. decompose [and] Hs.
  repeat split; try congruence.
  exists ds. auto.
Qed.

Lemma format_debate_for_voting_ok (t : DebateTournament (T:=T)) d i
      (w : World) :
  debate_ready (positions t) d ->
  exists s, _format_debate_for_voting t d i w = Ok (s, w).
Proof.
  intros (Ha & Hb & r0 & r1 & rest & Hr & A0 & B0 & A1 & B1).
  destruct (dict_get_in _ _ Ha) as [pa Hpa].
  destruct (dict_get_in _ _ Hb) as [pb Hpb].
  destruct (dict_get_in _ _ A0) as [xa0 Ea0].
  destruct (dict_get_in _ _ B0) as [xb0 Eb0].
  destruct (dict_get_in _ _ A1) as [xa1 Ea1].
  destruct (dict_get_in _ _ B1) as [xb1 Eb1].
  cbv beta delta [_format_debate_for_voting]. cbv zeta.
  rewrite (bind_lookup _ _ _ _ _ Hpa), (bind_lookup _ _ _ _ _ Hpb).
  rewrite Hr. unfold index. simpl nth_error. unfold bind at 1. unfold ret at 1.
  rewrite (bind_lookup _ _ _ _ _ Ea0). unfold bind at 1. unfold ret at 1.
  rewrite (bind_lookup _ _ _ _ _ Eb0). unfold bind at 1. unfold ret at 1.
  rewrite (bind_lookup _ _ _ _ _ Ea1). unfold bind at 1. unfold ret at 1.
  rewrite (bind_lookup _ _ _ _ _ Eb1). unfold ret. eauto.
Qed.

Lemma collect_votes_ok (t : DebateTournament) d i w :
  debate_ready (positions t) d ->
  exists dv t' w',
    collect_votes chat clock d i t w = Ok ((dv, t'), w') /\
    same_shape t t' /\
    map voter_id dv = voters_of t d /\
    Forall (fun v => exists k mdl msgs,
                       vote_request (t_position_label t) msgs /\
                       v = record_vote (voter_id v) (participants d)
                                       (chat k mdl msgs)) dv.
Proof.
  intros Hd. unfold collect_votes, voters_of.
  set (body := fun (aid : string) (st : list Vote * DebateTournament) => _).
  set (P := fun v : Vote => _).
  assert (Hloop : exists st w1,
             for_each (keys (agents t)) body ([], t) w = Ok (st, w1) /\
             (same_shape t (snd st) /\
              map voter_id (fst st) =
                filter (fun aid => not_in_participants aid (participants d))
                       (keys (agents t)) /\
              Forall P (fst st))).
  { apply (for_each_inv
             (fun pre (st : list Vote * DebateTournament) (_ : World) =>
                same_shape t (snd st) /\
                map voter_id (fst st) =
                  filter (fun aid => not_in_participants aid (participants d))
                         pre /\
                Forall P (fst st))).
    - intros pre x post [dv s] ws El (Hs & Hm & Hf). simpl in *.
      unfold body. rewrite filter_app. simpl filter.
      destruct (not_in_participants x (participants d)) eqn:Ex.
      + assert (Hrs : debate_ready (positions s) d).
        { destruct Hs as (_ & -> & _). exact Hd. }
        destruct (format_debate_for_voting_ok s d i ws Hrs) as [summary Es].
        rewrite (bind_ok _ _ _ _ _ Es).
        assert (Hx : In x (keys (agents s))).
        { destruct Hs as (-> & _). rewrite El. apply in_or_app. right. now left. }
        edestruct (with_agent_generate s x) as (r & s1 & w1 & E & S1 & Hr);
          [exact Hx|].
        rewrite (bind_ok _ _ _ _ _ E). unfold ret.
        eexists _, _. split; [reflexivity|]. simpl.
        split; [eapply same_shape_trans; eauto|]. split.
        * rewrite map_app, Hm. reflexivity.
        * apply Forall_app. split; auto. constructor; [|constructor].
          destruct Hr as (k & mdl & pre' & ->).
          exists k, mdl, (pre' ++
            [mkMessage "user" (vote_prompt_of (t_position_label s) summary)]).
          split; [|reflexivity].
          destruct Hs as (_ & _ & _ & _ & <- & _). now exists pre', summary.
      + unfold ret. eexists _, _. split; [reflexivity|]. simpl.
        rewrite app_nil_r. auto.
    - simpl. split; [apply same_shape_refl|]. split; [reflexivity | constructor]. }
  destruct Hloop as ([dv t1] & w1 & E & Hs & Hm & Hf). simpl in *.
  exists dv, t1, w1. auto.
Qed.

Lemma enumerate_fst {A} (l : list A) : map fst (enumerate l) = seq 0 (length l).
Proof.
  unfold enumerate. generalize 0.
  induction l as [|x l IH]; intros n; simpl; [reflexivity|]. now rewrite IH.
Qed.

Lemma enumerate_snd {A} (l : list A) : map snd (enumerate l) = l.
Proof.
  unfold enumerate. generalize 0.
  induction l as [|x l IH]; intros n; simpl; [reflexivity|]. now rewrite IH.
Qed.

Lemma Forall2_keys (t : DebateTournament (T:=T)) pre vs :
  Forall2 (votes_entry_ok chat t) pre vs ->
  keys vs = map debate_key (map fst pre).
Proof.
  induction 1 as [|x y l l' Hxy _ IH]; [reflexivity|].
  simpl. destruct Hxy as (-> & _). now rewrite IH.
Qed.

Lemma run_phase_3_voting_ok (t : DebateTournament) w :
  Forall (debate_ready (positions t)) (debates t) ->
  votes t = [] ->
  exists t' w',
    run_phase_3_voting chat clock t w = Ok (t', w') /\
    keys (agents t') = keys (agents t) /\
    positions t' = positions t /\
    debates t' = debates t /\
    t_position_label t' = t_position_label t /\
    topic_question t' = topic_question t /\
    num_agents t' = num_agents t /\
    output_dir t' = output_dir t /\
    start_time (tournament_metrics t') = start_time (tournament_metrics t) /\
    Forall2 (votes_entry_ok chat t) (enumerate (debates t)) (votes t').
Proof.
  intros Hready Hv0.
  unfold run_phase_3_voting. rewrite bind_time.
  set (w0 := mkWorld (S (ticks w)) (chat_log w) (files w)).
  set (body := fun (ix : nat * Debate) (t0 : DebateTournament) => _).
  assert (Hloop : exists t1 w1,
             for_each (enumerate (debates t)) body t w0 = Ok (t1, w1) /\
             (same_shape t (set_votes t1 (votes t)) /\
              Forall2 (votes_entry_ok chat t) (enumerate (debates t)) (votes t1))).
  { apply (for_each_inv
             (fun pre (s : DebateTournament) (_ : World) =>
                same_shape t (set_votes s (votes t)) /\
                Forall2 (votes_entry_ok chat t) pre (votes s))).
    - intros pre [i d] post s ws El (Hs & Hf).
      assert (Hin : In d (debates t)).
      { rewrite <- (enumerate_snd (debates t)), El, map_app.
        apply in_or_app. right. now left. }
      assert (Hrs : debate_ready (positions s) d).
      { destruct Hs as (_ & Hp & _). simpl in Hp. rewrite Hp.
        eapply Forall_forall; eauto. }
      destruct (collect_votes_ok s d i ws Hrs)
        as (dv & s1 & w1 & E & S1 & Hm & Hp).
      unfold body. rewrite (bind_ok _ _ _ _ _ E). unfold ret.
      eexists _, _. split; [reflexivity|]. split.
      + unfold same_shape in *. simpl in *.
        decompose [and] Hs. decompose [and] S1. repeat split; congruence.
      + simpl. destruct S1 as (Sk & _ & _ & -> & _).
        rewrite dict_set_absent.
        * apply Forall2_app; auto. constructor; [|constructor].
          destruct Hs as (Hk & _ & _ & _ & Hl & _). simpl in Hk, Hl.
          split; [reflexivity|]. split; [reflexivity|]. split; simpl.
          -- rewrite Hm. unfold voters_of. now rewrite Hk.
          -- rewrite <- Hl. exact Hp.
        * rewrite (Forall2_keys _ _ _ Hf). intros Hk.
          apply in_map_iff in Hk as (j & Hj & Hjin).
          apply debate_key_inj in Hj. subst j.
          pose proof (seq_NoDup (length (debates t)) 0) as Hnd.
          rewrite <- enumerate_fst, El, map_app in Hnd. simpl in Hnd.
          apply NoDup_remove_2 in Hnd. apply Hnd.
          apply in_or_app. now left.
    - split; [repeat split | rewrite Hv0; constructor]. }
  destruct Hloop as (t1 & w1 & E1 & Hs & Hf).
  rewrite (bind_ok _ _ _ _ _ E1), bind_time. unfold bind, json_dump, ret.
  eexists _, _. split; [reflexivity|]. simpl.
  unfold same_shape in Hs. simpl in Hs. decompose [and] Hs.
  repeat split; try congruence; auto.
Qed.

Lemma votes_entry_ok_keys (t t' : DebateTournament (T:=T)) ix kv :
  keys (agents t') = keys (agents t) ->
  t_position_label t' = t_position_label t ->
  votes_entry_ok chat t ix kv -> votes_entry_ok chat t' ix kv.
Proof.
  intros Hk Hl (H1 & H2 & H3 & H4). repeat split; auto.
  - rewrite H3. unfold voters_of. now rewrite Hk.
  - now rewrite Hl.
Qed.

Lemma run_phases_ok (t : DebateTournament) w :
  debates t = [] -> votes t = [] ->
  exists t' w',
    run_phases chat clock t w = Ok (t', w') /\
    keys (agents t') = keys (agents t) /\
    t_position_label t' = t_position_label t /\
    topic_question t' = topic_question t /\
    num_agents t' = num_agents t /\
    output_dir t' = output_dir t /\
    start_time (tournament_metrics t') = start_time (tournament_metrics t) /\
    map (fun d => pair_list (participants d)) (debates t') =
      combinations (keys (agents t)) 2 /\
    Forall2 (votes_entry_ok chat t') (enumerate (debates t')) (votes t').
Proof.
  intros Hd0 Hv0. unfold run_phases.
  destruct (run_phase_1_positions_ok t w)
    as (t1 & w1 & E1 & K1 & D1 & V1 & L1 & Q1 & N1 & O1 & S1 & P1).
  rewrite (bind_ok _ _ _ _ _ E1).
  destruct (run_phase_2_debates_ok t1 w1)
    as (t2 & w2 & E2 & K2 & P2 & V2 & L2 & Q2 & N2 & O2 & S2 & ds & D2 & M2 & R2).
  rewrite (bind_ok _ _ _ _ _ E2).
  rewrite D1, Hd0 in D2. simpl in D2.
  destruct (run_phase_3_voting_ok t2 w2)
    as (t3 & w3 & E3 & K3 & P3 & D3 & L3 & Q3 & N3 & O3 & S3 & F3).
  - rewrite D2. apply Forall_forall. intros d Hd.
    assert (Hp : In (pair_list (participants d))
                    (combinations (keys (agents t1)) 2)).
    { rewrite <- M2. apply in_map_iff. eauto. }
    apply in_combinations_2 in Hp as (a & b & E & Ha & Hb).
    unfold pair_list in E. injection E as Ea Eb.
    split; [|split].
    + rewrite P2, Ea. apply P1. now rewrite <- K1.
    + rewrite P2, Eb. apply P1. now rewrite <- K1.
    + eapply Forall_forall in R2; eauto.
  - congruence.
  - exists t3, w3. split; [exact E3|].
    repeat split; try congruence.
    rewrite D3. eapply Forall2_impl; [|exact F3].
    intros ix kv. now apply votes_entry_ok_keys.
Qed.

(** *** The constructor *)

Lemma build_agents_keys ids models :
  forall (acc d : dict (DebateAgent (T:=T))),
    build_agents ids models acc = Ok d ->
    NoDup ids ->
    (forall i, In i ids -> ~ In (agent_name i) (keys acc)) ->
    keys d = keys acc ++ map agent_name ids.
Proof.
  induction ids as [|i ids IH]; intros acc d E Hnd Hfresh; simpl in *.
  - injection E as <-. now rewrite app_nil_r.
  - destruct (nth_error models i) as [m|]; [|discriminate].
    inversion Hnd as [|? ? Hi Hnd']; subst.
    apply IH in E; auto.
    + rewrite E, dict_set_absent by (apply Hfresh; now left).
      unfold keys. rewrite map_app, <- app_assoc. reflexivity.
    + intros j Hj. rewrite in_keys_dict_set. intros [Hn | Hin].
      * apply agent_name_inj in Hn. subst. contradiction.
      * apply (Hfresh j); auto.
Qed.

Lemma DebateTournament_init_ok n models topic label out
      (t : DebateTournament (T:=T)) :
  DebateTournament_init n models topic label out = Ok t ->
  keys (agents t) = map agent_name (seq 0 (Z.to_nat n)) /\
  NoDup (keys (agents t)) /\
  length (keys (agents t)) = Z.to_nat n /\
  positions t = [] /\ debates t = [] /\ votes t = [] /\
  num_agents t = n /\ t_position_label t = label /\ output_dir t = out /\
  tournament_metrics t = mkTournamentMetrics None None None [].
Proof.
  unfold DebateTournament_init.
  destruct (match models with None => _ | Some ms => _ end) as [ms|];
    [|discriminate].
  destruct (build_agents _ ms []) as [ags|] eqn:Eb; [|discriminate].
  intros E. injection E as <-. simpl.
  apply build_agents_keys in Eb; [|apply seq_NoDup | simpl; tauto].
  simpl in Eb. rewrite Eb. repeat split.
  - apply Finite.Injective_map_NoDup; [|apply seq_NoDup].
    intros i j. apply agent_name_inj.
  - now rewrite length_map, length_seq.
Qed.

Lemma build_agents_default ids (n : nat) :
  forall acc : dict (DebateAgent (T:=T)),
    (forall i, In i ids -> i < n) ->
    exists d, build_agents ids (repeat "llama3.2" n) acc = Ok d.
Proof.
  induction ids as [|i ids IH]; intros acc H; simpl; [eauto|].
  destruct (nth_error (repeat "llama3.2" n) i) eqn:E.
  - apply IH. intros j Hj. apply H. now right.
  - apply nth_error_None in E. rewrite repeat_length in E.
    specialize (H i (or_introl eq_refl)). lia.
Qed.

(** Without a model list the constructor always returns. *)
Lemma DebateTournament_init_default n topic label out :
  exists t : DebateTournament (T:=T),
    DebateTournament_init n None topic label out = Ok t.
Proof.
  unfold DebateTournament_init.
  destruct (build_agents_default (seq 0 (Z.to_nat n)) (Z.to_nat n) [])
    as [d ->]; [|eauto].
  intros i Hi. apply in_seq in Hi. lia.
Qed.

(** *** Voters *)

Lemma str_mem_false x l : ~ In x l -> str_mem x l = false.
Proof.
  intros H. destruct (str_mem x l) eqn:E; auto.
  apply str_mem_In in E. contradiction.
Qed.

Lemma voters_length (l : list string) a b :
  NoDup l -> a <> b ->
  length (filter (fun x => not_in_participants x (a, b)) l)
  + (if str_mem a l then 1 else 0) + (if str_mem b l then 1 else 0)
  = length l.
Proof.
  intros Hnd Hab. induction Hnd as [|x l Hx Hnd IH]; [reflexivity|].
  unfold not_in_participants in *. simpl in *.
  destruct (String.eqb_spec a x) as [->|Hax].
  - destruct (String.eqb_spec x x); [|congruence].
    destruct (String.eqb_spec x b); [congruence|]. simpl.
    rewrite (str_mem_false _ _ Hx) in IH. lia.
  - destruct (String.eqb_spec x a); [congruence|].
    destruct (String.eqb_spec b x) as [->|Hbx].
    + destruct (String.eqb_spec x x); [|congruence]. simpl.
      rewrite (str_mem_false _ _ Hx) in IH. lia.
    + destruct (String.eqb_spec x b); [congruence|]. simpl. lia.
Qed.

Lemma voters_of_spec (t : DebateTournament (T:=T)) d :
  NoDup (keys (agents t)) ->
  In (pair_list (participants d)) (combinations (keys (agents t)) 2) ->
  length (voters_of t d) = length (keys (agents t)) - 2 /\
  NoDup (voters_of t d) /\
  (forall x, In x (voters_of t d) <->
             In x (keys (agents t)) /\
             x <> fst (participants d) /\ x <> snd (participants d)).
Proof.
  intros Hnd Hin. unfold voters_of.
  destruct (participants d) as [a b] eqn:Ep. unfold pair_list in Hin.
  simpl in Hin.
  destruct (combinations_2_distinct _ Hnd) as (Hne & _).
  pose proof (Hne a b Hin) as Hab.
  apply in_combinations_2 in Hin as (a' & b' & E & Ha & Hb).
  injection E as <- <-.
  split; [|split].
  - pose proof (voters_length _ a b Hnd Hab) as H.
    apply str_mem_In in Ha, Hb. rewrite Ha, Hb in H. lia.
  - now apply NoDup_filter.
  - intros x. rewrite filter_In. unfold not_in_participants. simpl.
    rewrite negb_true_iff, !orb_false_iff.
    destruct (String.eqb_spec a x), (String.eqb_spec b x);
      intuition congruence.
Qed.

Lemma in_enumerate {A} (l : list A) i d :
  nth_error l i = Some d -> In (i, d) (enumerate l).
Proof.
  unfold enumerate.
  assert (G : forall (l : list A) s i,
             nth_error l i = Some d -> In (s + i, d) (combine (seq s (length l)) l)).
  { clear. induction l as [|x l IH]; intros s [|i] H; simpl in *;
      try discriminate.
    - injection H as ->. left. f_equal. lia.
    - right. replace (s + S i) with (S s + i) by lia. now apply IH. }
  intros H. apply (G l 0 i H).
Qed.

Lemma Forall2_in_l {A B} (P : A -> B -> Prop) l l' x :
  Forall2 P l l' -> In x l -> exists y, In y l' /\ P x y.
Proof.
  induction 1 as [|a b l l' Hab _ IH]; intros Hin; [contradiction|].
  destruct Hin as [<- | Hin].
  - exists b. split; [now left | auto].
  - destruct (IH Hin) as (y & Hy & Hp). exists y. split; [now right | auto].
Qed.

Lemma Forall2_in_r {A B} (P : A -> B -> Prop) l l' y :
  Forall2 P l l' -> In y l' -> exists x, In x l /\ P x y.
Proof.
  induction 1 as [|a b l l' Hab _ IH]; intros Hin; [contradiction|].
  destruct Hin as [<- | Hin].
  - exists a. split; [now left | auto].
  - destruct (IH Hin) as (x & Hx & Hp). exists x. split; [now right | auto].
Qed.

Lemma votes_lookup (t : DebateTournament (T:=T)) ds vs i d :
  Forall2 (votes_entry_ok chat t) (enumerate ds) vs ->
  nth_error ds i = Some d ->
  exists vd,
    dict_get vs (debate_key i) = Some vd /\
    votes_entry_ok chat t (i, d) (debate_key i, vd).
Proof.
  intros Hf Hn. apply in_enumerate in Hn.
  destruct (Forall2_in_l _ _ _ _ Hf Hn) as ([k vd] & Hin & Hp).
  assert (k = debate_key i) by apply Hp. subst k.
  exists vd. split; auto.
  apply NoDup_keys_in_get; auto.
  rewrite (Forall2_keys _ _ _ Hf), enumerate_fst.
  apply Finite.Injective_map_NoDup; [|apply seq_NoDup].
  intros a b. apply debate_key_inj.
Qed.

Lemma enumerate_length {A} (l : list A) : length (enumerate l) = length l.
Proof. rewrite <- (length_map fst), enumerate_fst. apply length_seq. Qed.

(** C6: in a tournament of n registered agents the three phases return,
    and for every debate the voters recorded under its key are exactly the
    registered agents other than its two participants, in registration
    order, one vote each: n - 2 votes. *)
Theorem C6_voters_of_each_debate :
  forall (n : nat) models topic label out (t : DebateTournament (T:=T)) w,
    DebateTournament_init (Z.of_nat n) models topic label out = Ok t ->
    exists t' w',
      run_phases chat clock t w = Ok (t', w') /\
      keys (agents t') = keys (agents t) /\
      length (keys (agents t')) = n /\
      length (votes t') = length (debates t') /\
      forall i d,
        nth_error (debates t') i = Some d ->
        exists vd,
          dict_get (votes t') (debate_key i) = Some vd /\
          vd_participants vd = participants d /\
          map voter_id (vd_votes vd) =
            filter (fun aid => not_in_participants aid (participants d))
                   (keys (agents t')) /\
          length (vd_votes vd) = n - 2 /\
          NoDup (map voter_id (vd_votes vd)) /\
          (forall x, In x (map voter_id (vd_votes vd)) <->
                     In x (keys (agents t')) /\
                     x <> fst (participants d) /\ x <> snd (participants d)).
Proof.
  intros n models topic label out t w Hinit.
  apply DebateTournament_init_ok in Hinit
    as (Hk & Hnd & Hlen & _ & Hd0 & Hv0 & _).
  rewrite Nat2Z.id in Hlen.
  destruct (run_phases_ok t w Hd0 Hv0)
    as (t' & w' & E & K & _ & _ & _ & _ & _ & Hm & Hf).
  exists t', w'. split; [exact E|]. split; [exact K|].
  split; [now rewrite K|]. split.
  - apply Forall2_length in Hf. now rewrite enumerate_length in Hf.
  - intros i d Hn.
    destruct (votes_lookup _ _ _ _ _ Hf Hn) as (vd & Hg & _ & Hp & Hv & _).
    simpl in Hp, Hv.
    assert (Hin : In (pair_list (participants d))
                     (combinations (keys (agents t')) 2)).
    { rewrite K, <- Hm. apply in_map_iff. exists d. split; auto.
      eapply nth_error_In; eauto. }
    rewrite <- K in Hnd.
    destruct (voters_of_spec t' d Hnd Hin) as (Hl & Hnd' & Hiff).
    exists vd. split; [exact Hg|]. split; [exact Hp|].
    split; [exact Hv|]. rewrite Hv. split; [|split; auto].
    rewrite <- (length_map voter_id), Hv, Hl, K. lia.
Qed.

(** *** Aggregation *)

Lemma calculate_results_raise (t : DebateTournament) w e :
  count_wins (zero_counts (keys (agents t))) (winner_lists t) = Raise e ->
  calculate_results clock t w = Raise e.
Proof.
  unfold winner_lists, calculate_results, bind, lift. now intros ->.
Qed.

Lemma calculate_results_ok (t : DebateTournament) w wc d :
  count_wins (zero_counts (keys (agents t))) (winner_lists t) = Ok wc ->
  total_duration (tournament_metrics t) = Some d ->
  exists w',
    calculate_results clock t w = Ok (tt, w') /\
    tournament_results t w' = Some (results_of t wc (clock (ticks w))).
Proof.
  unfold winner_lists, calculate_results, bind, lift. intros -> ->.
  unfold time_time, json_dump, ret. eexists. split; [reflexivity|].
  unfold tournament_results. simpl. now rewrite dict_get_set_same.
Qed.

Lemma calculate_results_inv (t : DebateTournament) w w' :
  calculate_results clock t w = Ok (tt, w') ->
  exists wc,
    count_wins (zero_counts (keys (agents t))) (winner_lists t) = Ok wc /\
    tournament_results t w' = Some (results_of t wc (clock (ticks w))).
Proof.
  unfold winner_lists, calculate_results, bind at 1, lift.
  destruct (count_wins _ _) as [wc|]; [|discriminate].
  unfold bind, time_time, json_dump, ret.
  destruct (total_duration (tournament_metrics t)); [|discriminate].
  intros E. injection E as <-. exists wc. split; [reflexivity|].
  unfold tournament_results. simpl. now rewrite dict_get_set_same.
Qed.

Lemma run_phases_bind {B} (t : DebateTournament) (K : DebateTournament -> M B) w :
  bind (run_phase_1_positions chat clock t)
    (fun t1 => bind (run_phase_2_debates chat clock t1)
       (fun t2 => bind (run_phase_3_voting chat clock t2) K)) w =
  bind (run_phases chat clock t) K w.
Proof.
  unfold run_phases, bind.
  destruct (run_phase_1_positions chat clock t w) as [[t1 w1]|]; auto.
  destruct (run_phase_2_debates chat clock t1 w1) as [[t2 w2]|]; auto.
Qed.

(** [run_tournament] is the three phases on the tournament stamped with
    its start time, followed by [calculate_results] on the tournament
    stamped with its end time and total duration. *)
Lemma run_tournament_eq (t : DebateTournament) w :
  debates t = [] -> votes t = [] ->
  exists t0 t3 w3 t5,
    keys (agents t0) = keys (agents t) /\
    run_phases chat clock t0
      (mkWorld (S (ticks w)) (chat_log w) (files w)) = Ok (t3, w3) /\
    keys (agents t3) = keys (agents t) /\
    t_position_label t3 = t_position_label t /\
    map (fun d => pair_list (participants d)) (debates t3) =
      combinations (keys (agents t)) 2 /\
    Forall2 (votes_entry_ok chat t3) (enumerate (debates t3)) (votes t3) /\
    agents t5 = agents t3 /\ votes t5 = votes t3 /\ debates t5 = debates t3 /\
    num_agents t5 = num_agents t /\
    (exists d, total_duration (tournament_metrics t5) = Some d) /\
    run_tournament chat clock t w =
      bind (calculate_results clock t5) (fun _ => ret t5)
           (mkWorld (S (ticks w3)) (chat_log w3) (files w3)).
Proof.
  intros Hd0 Hv0. unfold run_tournament. rewrite bind_time. cbv zeta.
  set (t0 := set_metrics t _).
  set (w0 := mkWorld (S (ticks w)) (chat_log w) (files w)).
  destruct (run_phases_ok t0 w0 Hd0 Hv0)
    as (t3 & w3 & E & K & L & Q & N & O & S3 & Hm & Hf).
  rewrite run_phases_bind, (bind_ok _ _ _ _ _ E), bind_time.
  simpl in S3. simpl end_time. simpl start_time. rewrite S3.
  unfold bind at 1. unfold ret at 1.
  eexists t0, t3, w3, _.
  split; [reflexivity|]. split; [exact E|]. split; [exact K|].
  split; [exact L|]. split; [exact Hm|]. split; [exact Hf|].
  split; [|split; [|split; [|split; [|split; [|reflexivity]]]]];
    simpl; eauto.
Qed.

Lemma winner_lists_spec (t : DebateTournament (T:=T)) :
  NoDup (keys (agents t)) ->
  map (fun d => pair_list (participants d)) (debates t) =
    combinations (keys (agents t)) 2 ->
  Forall2 (votes_entry_ok chat t) (enumerate (debates t)) (votes t) ->
  length (winner_lists t) = length (debates t) /\
  length (debates t) =
    length (keys (agents t)) * (length (keys (agents t)) - 1) / 2 /\
  Forall (fun wids => length wids = length (keys (agents t)) - 2 /\
                      forall x, In x wids -> In x (keys (agents t)))
         (winner_lists t).
Proof.
  intros Hnd Hm Hf. unfold winner_lists. split; [|split].
  - rewrite length_map. apply Forall2_length in Hf.
    now rewrite enumerate_length in Hf.
  - rewrite <- combinations_2_length, <- Hm. now rewrite length_map.
  - apply Forall_forall. intros wids Hw.
    apply in_map_iff in Hw as (kv & <- & Hkv).
    destruct (Forall2_in_r _ _ _ _ Hf Hkv) as ([i d] & Hid & _ & _ & Hv & Hr).
    simpl in Hv, Hr.
    assert (Hd : In d (debates t)).
    { rewrite <- (enumerate_snd (debates t)). apply in_map_iff.
      exists (i, d). auto. }
    assert (Hin : In (pair_list (participants d))
                     (combinations (keys (agents t)) 2)).
    { rewrite <- Hm. apply in_map_iff. eauto. }
    destruct (voters_of_spec t d Hnd Hin) as (Hl & _).
    split.
    + rewrite length_map, <- (length_map voter_id), Hv. exact Hl.
    + intros x Hx. apply in_map_iff in Hx as (v & <- & Hvin).
      eapply Forall_forall in Hr; eauto.
      destruct Hr as (k & mdl & msgs & _ & ->).
      apply in_combinations_2 in Hin as (a & b & E & Ha & Hb).
      unfold pair_list in E. injection E as Ea Eb.
      simpl. unfold winner_of. destruct (String.eqb _ "A"); congruence.
Qed.

Lemma aggregation_by_size (t : DebateTournament (T:=T)) (n : nat) :
  NoDup (keys (agents t)) ->
  length (keys (agents t)) = n ->
  map (fun d => pair_list (participants d)) (debates t) =
    combinations (keys (agents t)) 2 ->
  Forall2 (votes_entry_ok chat t) (enumerate (debates t)) (votes t) ->
  (n <> 2 ->
   exists wc, count_wins (zero_counts (keys (agents t))) (winner_lists t)
              = Ok wc) /\
  (n = 2 -> winner_lists t = [[]]).
Proof.
  intros Hnd Hn Hm Hf.
  destruct (winner_lists_spec t Hnd Hm Hf) as (Hl & Hd & Hall).
  rewrite Hn in *. split.
  - intros Hne. destruct (le_lt_dec 3 n) as [Hge | Hlt].
    + apply count_wins_total.
      eapply Forall_impl; [|exact Hall]. simpl. intros wids [Hlen Hin].
      split; [destruct wids; simpl in *; [lia | discriminate]|].
      intros x Hx. apply zero_counts_keys. auto.
    + assert (Hz : length (winner_lists t) = 0).
      { rewrite Hl, Hd. destruct n as [|[|[|n]]]; try reflexivity; lia. }
      destruct (winner_lists t); [|discriminate].
      simpl. eauto.
  - intros ->. simpl in Hd. rewrite Hd in Hl.
    destruct (winner_lists t) as [|wids [|? ?]]; try discriminate.
    inversion Hall as [|? ? [Hw _] _]; subst.
    destruct wids; [reflexivity | discriminate].
Qed.

Lemma count_wins_ok_nonempty (vs : list (list string)) :
  forall wc wc',
    count_wins wc vs = Ok wc' -> Forall (fun wids => wids <> []) vs.
Proof.
  induction vs as [|wids vs IH]; intros wc wc' E; [constructor|].
  simpl in E. destruct wids as [|x wids]; [discriminate|].
  destruct (max_by_count _); [|discriminate].
  destruct (credit wc a) as [wc1|]; [|discriminate].
  constructor; [discriminate | eauto].
Qed.

Lemma tally_nonempty (l : list string) : tally l <> [] <-> l <> [].
Proof.
  pose proof (tally_hd l) as H.
  destruct l, (tally _) eqn:E; simpl in H; try discriminate;
    split; congruence.
Qed.

Lemma winner_lists_same (t t' : DebateTournament (T:=T)) :
  votes t' = votes t -> winner_lists t' = winner_lists t.
Proof. unfold winner_lists. now intros ->. Qed.

(** C9: in a tournament of n agents the three phases return; the tally of
    each of its debates is non-empty exactly when n >= 3;
    [calculate_results], on any tournament state, returns only if every
    entry of [votes] has a vote; with n = 2 the single debate has no voter,
    its tally is empty, the maximum raises [ValueError] and neither
    [calculate_results] nor [run_tournament] produces a result; with any
    other n the tournament returns (with n <= 1 there is no debate). *)
Theorem C9_aggregation_needs_votes :
  forall (n : nat) models topic label out (t : DebateTournament (T:=T)) w,
    DebateTournament_init (Z.of_nat n) models topic label out = Ok t ->
    exists t' w',
      run_phases chat clock t w = Ok (t', w') /\
      (forall i d,
          nth_error (debates t') i = Some d ->
          exists vd,
            dict_get (votes t') (debate_key i) = Some vd /\
            (tally (map winner_id (vd_votes vd)) <> [] <-> 3 <= n)) /\
      (forall (s : DebateTournament (T:=T)) wa wb,
          calculate_results clock s wa = Ok (tt, wb) ->
          Forall (fun kv => vd_votes (snd kv) <> []) (votes s)) /\
      (n = 2 ->
       exists vd,
         votes t' = [(debate_key 0, vd)] /\ vd_votes vd = [] /\
         max_by_count (tally (map winner_id (vd_votes vd))) =
           Raise (ValueError "max() arg is an empty sequence") /\
         (forall wa, calculate_results clock t' wa =
                     Raise (ValueError "max() arg is an empty sequence")) /\
         run_tournament chat clock t w =
           Raise (ValueError "max() arg is an empty sequence")) /\
      (n <> 2 -> exists t'' w'', run_tournament chat clock t w = Ok (t'', w'')).
Proof.
  intros n models topic label out t w Hinit.
  apply DebateTournament_init_ok in Hinit
    as (Hk & Hnd & Hlen & _ & Hd0 & Hv0 & _).
  rewrite Nat2Z.id in Hlen.
  destruct (run_phases_ok t w Hd0 Hv0)
    as (t' & w' & E & K & _ & _ & _ & _ & _ & Hm & Hf).
  assert (Hnd' : NoDup (keys (agents t'))) by now rewrite K.
  assert (Hlen' : length (keys (agents t')) = n) by now rewrite K.
  rewrite <- K in Hm.
  destruct (run_tournament_eq t w Hd0 Hv0)
    as (t0 & t3 & w3 & t5 & K0 & E3 & K3 & _ & Hm3 & Hf3 & A5 & V5 & D5 & _
        & [dur Hdur] & Erun).
  assert (Hnd3 : NoDup (keys (agents t3))) by now rewrite K3.
  assert (Hlen3 : length (keys (agents t3)) = n) by now rewrite K3.
  rewrite <- K3 in Hm3.
  destruct (aggregation_by_size t3 n Hnd3 Hlen3 Hm3 Hf3) as [Hok3 Hbad3].
  exists t', w'. split; [exact E|]. split; [|split; [|split]].
  - intros i d Hn.
    destruct (votes_lookup _ _ _ _ _ Hf Hn) as (vd & Hg & _ & _ & Hv & _).
    simpl in Hv. exists vd. split; [exact Hg|].
    assert (Hin : In (pair_list (participants d))
                     (combinations (keys (agents t')) 2)).
    { rewrite <- Hm. apply in_map_iff. exists d. split; auto.
      eapply nth_error_In; eauto. }
    destruct (voters_of_spec t' d Hnd' Hin) as (Hl & _).
    rewrite tally_nonempty.
    assert (Hlv : length (map winner_id (vd_votes vd)) = n - 2).
    { rewrite length_map, <- (length_map voter_id), Hv, Hl. lia. }
    destruct (map winner_id (vd_votes vd)); simpl in Hlv;
      split; intros; try congruence; try lia.
  - intros s wa wb Ec. apply calculate_results_inv in Ec as (wc & Ec & _).
    apply count_wins_ok_nonempty in Ec. unfold winner_lists in Ec.
    rewrite Forall_map in Ec. eapply Forall_impl; [|exact Ec].
    simpl. intros kv H Hnil. apply H. now rewrite Hnil.
  - intros ->.
    destruct (aggregation_by_size t' 2 Hnd' Hlen' Hm Hf) as [_ Hbad].
    specialize (Hbad eq_refl).
    assert (Hvs : exists vd, votes t' = [(debate_key 0, vd)] /\ vd_votes vd = []).
    { unfold winner_lists in Hbad.
      destruct (votes t') as [|[k vd] [|? ?]] eqn:Ev; try discriminate.
      simpl in Hbad. injection Hbad as Hbad.
      apply map_eq_nil in Hbad.
      destruct (debates t') as [|d0 ds]; inversion Hf as [|? ? ? ? H0 _]; subst.
      destruct H0 as (Hkey & _). simpl in Hkey. subst k. eauto. }
    destruct Hvs as (vd & Ev & Evd). exists vd.
    split; [exact Ev|]. split; [exact Evd|]. split; [now rewrite Evd|].
    split.
    + intros wa. apply calculate_results_raise.
      unfold winner_lists. rewrite Ev. simpl. now rewrite Evd.
    + rewrite Erun. unfold bind.
      rewrite (calculate_results_raise t5 _
                 (ValueError "max() arg is an empty sequence")); auto.
      rewrite (winner_lists_same t3 t5 V5), (Hbad3 eq_refl). reflexivity.
  - intros Hne. destruct (Hok3 Hne) as [wc Hwc].
    rewrite Erun. unfold bind.
    destruct (calculate_results_ok t5
                (mkWorld (S (ticks w3)) (chat_log w3) (files w3)) wc dur)
      as (w5 & -> & _); auto.
    + now rewrite (winner_lists_same t3 t5 V5), A5.
    + unfold ret. eauto.
Qed.

Lemma sum_insert_desc x l :
  sum_nat (map snd (insert_desc x l)) = snd x + sum_nat (map snd l).
Proof.
  induction l as [|y l IH]; cbn [insert_desc map].
  - now rewrite !sum_nat_cons.
  - destruct (snd y <=? snd x); cbn [map]; rewrite !sum_nat_cons.
    + reflexivity.
    + rewrite IH. lia.
Qed.

Lemma sum_sorted_desc l : sum_nat (map snd (sorted_desc l)) = sum_nat (map snd l).
Proof.
  induction l as [|x l IH]; [reflexivity|].
  cbn [sorted_desc fold_right map].
  change (fold_right insert_desc [] l) with (sorted_desc l).
  now rewrite sum_insert_desc, sum_nat_cons, IH.
Qed.

Lemma results_of_sum (t : DebateTournament (T:=T)) wc ts :
  count_wins (zero_counts (keys (agents t))) (winner_lists t) = Ok wc ->
  sum_nat (values (win_counts (results_of t wc ts))) = length (votes t) /\
  sum_nat (map snd (rankings (results_of t wc ts))) = length (votes t) /\
  (forall x, In x (keys (win_counts (results_of t wc ts))) <->
             In x (keys (agents t))).
Proof.
  intros Ec. simpl.
  apply count_wins_sum in Ec as [Hs Hk].
  rewrite (sum_zero (values (zero_counts _))) in Hs
    by apply zero_counts_values_zero.
  unfold winner_lists in Hs. rewrite length_map in Hs. simpl in Hs.
  split; [exact Hs|]. split.
  - rewrite sum_sorted_desc. exact Hs.
  - intros x. rewrite Hk. apply zero_counts_keys.
Qed.

(** C3: when [calculate_results] returns on a tournament whose [votes] has
    one entry per collected debate, whatever the votes are, the win counts
    it writes have one key per registered agent and sum to the number of
    debates, and so do the counts listed in the rankings. *)
Theorem C3_win_counts_sum :
  forall (t : DebateTournament (T:=T)) (w w' : World),
    calculate_results clock t w = Ok (tt, w') ->
    length (votes t) = length (debates t) ->
    exists r,
      tournament_results t w' = Some r /\
      sum_nat (values (win_counts r)) = length (debates t) /\
      sum_nat (map snd (rankings r)) = length (debates t) /\
      (forall x, In x (keys (win_counts r)) <-> In x (keys (agents t))).
Proof.
  intros t w w' E Hlen.
  apply calculate_results_inv in E as (wc & Ec & Er).
  eexists. split; [exact Er|]. rewrite <- Hlen.
  now apply results_of_sum.
Qed.

(** The same for a whole run: a tournament of n agents that returns has
    credited exactly one winner for each of its n(n-1)/2 debates. *)
Lemma run_tournament_win_counts_sum :
  forall (n : nat) models topic label out (t : DebateTournament (T:=T)) w t' w',
    DebateTournament_init (Z.of_nat n) models topic label out = Ok t ->
    run_tournament chat clock t w = Ok (t', w') ->
    exists r,
      tournament_results t' w' = Some r /\
      length (debates t') = n * (n - 1) / 2 /\
      sum_nat (values (win_counts r)) = length (debates t').
Proof.
  intros n models topic label out t w t' w' Hinit Hrun.
  apply DebateTournament_init_ok in Hinit
    as (Hk & Hnd & Hlen & _ & Hd0 & Hv0 & _).
  rewrite Nat2Z.id in Hlen.
  destruct (run_tournament_eq t w Hd0 Hv0)
    as (t0 & t3 & w3 & t5 & K0 & E3 & K3 & _ & Hm3 & Hf3 & A5 & V5 & D5 & _
        & _ & Erun).
  rewrite Erun in Hrun. unfold bind in Hrun.
  destruct (calculate_results clock t5 _) as [[[] w5]|] eqn:Ec; [|discriminate].
  unfold ret in Hrun. injection Hrun as <- <-.
  assert (Hl : length (votes t5) = length (debates t5)).
  { rewrite V5, D5. apply Forall2_length in Hf3.
    now rewrite enumerate_length in Hf3. }
  apply calculate_results_inv in Ec as (wc & Ec & Er).
  eexists. split; [exact Er|].
  destruct (results_of_sum t5 wc
              (clock (ticks (mkWorld (S (ticks w3)) (chat_log w3) (files w3))))
              Ec) as (Hs & _).
  split; [|now rewrite Hs].
  rewrite D5, <- (length_map (fun d => pair_list (participants d))), Hm3.
  now rewrite combinations_2_length, Hlen.
Qed.

(** C4: the pairing of a tournament of n agents is the list of the
    n(n-1)/2 pairs of registered ids [ids[i], ids[j]] with i < j, in
    lexicographic order of (i, j): two distinct registered ids each, no pair
    twice, no pair in both orders, every unordered pair present; phase 2
    runs one debate per pair in that order. *)
Theorem C4_pairing :
  forall (n : nat) models topic label out (t : DebateTournament (T:=T)),
    DebateTournament_init (Z.of_nat n) models topic label out = Ok t ->
    let ids := keys (agents t) in
    let pairs := combinations ids 2 in
    ids = map agent_name (seq 0 n) /\
    length pairs = n * (n - 1) / 2 /\
    pairs = pairs_by_index ids /\
    (forall c, In c pairs ->
               exists a b, c = [a; b] /\ In a ids /\ In b ids /\ a <> b) /\
    NoDup pairs /\
    (forall a b, In [a; b] pairs -> ~ In [b; a] pairs) /\
    (forall a b, In a ids -> In b ids -> a <> b ->
                 In [a; b] pairs \/ In [b; a] pairs) /\
    (forall w, exists t' w',
        run_phase_2_debates chat clock t w = Ok (t', w') /\
        map (fun d => pair_list (participants d)) (debates t') = pairs).
Proof.
  intros n models topic label out t Hinit ids pairs.
  apply DebateTournament_init_ok in Hinit
    as (Hk & Hnd & Hlen & _ & Hd0 & _).
  rewrite Nat2Z.id in Hk, Hlen.
  destruct (combinations_2_distinct ids Hnd) as (H1 & H2 & H3 & H4).
  split; [exact Hk|]. split.
  { unfold pairs. rewrite combinations_2_length. unfold ids. now rewrite Hlen. }
  split; [apply combinations_2_by_index|]. split.
  { intros c Hc. destruct (in_combinations_2 _ _ Hc) as (a & b & -> & Ha & Hb).
    exists a, b. repeat split; auto. }
  split; [exact H2|]. split; [exact H3|]. split; [exact H4|].
  intros w.
  destruct (run_phase_2_debates_ok t w)
    as (t' & w' & E & _ & _ & _ & _ & _ & _ & _ & _ & ds & Hd & Hm & _).
  exists t', w'. split; [exact E|]. rewrite Hd, Hd0. exact Hm.
Qed.

(** C7: three agents and a backend whose answer to every vote request
    carries an 'A' among its first 10 characters.  The tournament returns;
    its debates are (agent_0, agent_1), (agent_0, agent_2),
    (agent_1, agent_2) in that order; the win counts are
    agent_0: 2, agent_1: 1, agent_2: 0 and the rankings list them in that
    order. *)
Theorem C7_three_agents :
  forall models topic label out (t : DebateTournament (T:=T)) w,
    DebateTournament_init 3 models topic label out = Ok t ->
    (forall k mdl msgs,
        vote_request label msgs -> parse_vote (chat k mdl msgs) = "A") ->
    exists t' w' r,
      run_tournament chat clock t w = Ok (t', w') /\
      map participants (debates t') =
        [("agent_0", "agent_1"); ("agent_0", "agent_2");
         ("agent_1", "agent_2")] /\
      tournament_results t' w' = Some r /\
      win_counts r = [("agent_0", 2); ("agent_1", 1); ("agent_2", 0)] /\
      rankings r = [("agent_0", 2); ("agent_1", 1); ("agent_2", 0)].
Proof.
  intros models topic label out t w Hinit Hvote.
  apply DebateTournament_init_ok in Hinit
    as (Hk & _ & _ & _ & Hd0 & Hv0 & _ & Hlab & _).
  change (map agent_name (seq 0 (Z.to_nat 3)))
    with ["agent_0"; "agent_1"; "agent_2"] in Hk.
  destruct (run_tournament_eq t w Hd0 Hv0)
    as (t0 & t3 & w3 & t5 & K0 & E3 & K3 & L3 & Hm3 & Hf3 & A5 & V5 & D5 & _
        & [dur Hdur] & Erun).
  rewrite Hk in K3, Hm3. rewrite Hlab in L3.
  assert (Hps : map participants (debates t3) =
                [("agent_0", "agent_1"); ("agent_0", "agent_2");
                 ("agent_1", "agent_2")]).
  { clear - Hm3. cbn in Hm3.
    destruct (debates t3) as [|d0 [|d1 [|d2 [|? ?]]]]; try discriminate.
    cbn in *. unfold pair_list in Hm3.
    destruct (participants d0), (participants d1), (participants d2).
    cbn in Hm3. congruence. }
  assert (Hwl : winner_lists t3 = [["agent_0"]; ["agent_0"]; ["agent_1"]]).
  { unfold winner_lists.
    assert (Hone : forall ix kv,
               votes_entry_ok chat t3 ix kv ->
               length (voters_of t3 (snd ix)) = 1 ->
               map winner_id (vd_votes (snd kv)) = [fst (participants (snd ix))]).
    { intros ix kv (_ & _ & Hv & Hr) Hl1. rewrite <- Hv, length_map in Hl1.
      destruct (vd_votes (snd kv)) as [|v [|? ?]]; try discriminate.
      inversion Hr as [|? ? (k & mdl & msgs & Hq & Ev) _]; subst.
      rewrite L3 in Hq. rewrite Ev. cbn. unfold winner_of.
      now rewrite (Hvote _ _ _ Hq). }
    destruct (debates t3) as [|d0 [|d1 [|d2 [|? ?]]]]; try discriminate.
    cbn in Hps. injection Hps as P0 P1 P2.
    cbn in Hf3.
    inversion Hf3 as [|? kv0 ? ? F0 Hf3a]; subst.
    inversion Hf3a as [|? kv1 ? ? F1 Hf3b]; subst.
    inversion Hf3b as [|? kv2 ? ? F2 Hf3c]; subst.
    inversion Hf3c; subst. cbn [map].
    rewrite (Hone _ _ F0), (Hone _ _ F1), (Hone _ _ F2);
      cbn [snd fst]; unfold voters_of;
      rewrite ?K3, ?P0, ?P1, ?P2; reflexivity. }
  assert (Hwc : count_wins (zero_counts (keys (agents t5))) (winner_lists t5) =
                Ok [("agent_0", 2); ("agent_1", 1); ("agent_2", 0)]).
  { rewrite (winner_lists_same t3 t5 V5), A5, K3, Hwl. reflexivity. }
  destruct (calculate_results_ok t5
              (mkWorld (S (ticks w3)) (chat_log w3) (files w3)) _ dur Hwc Hdur)
    as (w5 & Ec & Er).
  exists t5, w5. eexists. split.
  - rewrite Erun. unfold bind. now rewrite Ec.
  - split; [now rewrite D5|]. split; [exact Er|]. split; reflexivity.
Qed.

End TournamentProperties.

(** ** Independence of the clock *)

Section Determinism.

Context {T : Type} {NT : PyNum T}.
Variable chat : nat -> string -> list Message -> string.
Variable clock : nat -> T.

Lemma dict_get_dmap {A B} (f : A -> B) d k :
  dict_get (dmap f d) k = option_map f (dict_get d k).
Proof.
  induction d as [|[k0 v0] r IH]; simpl; [reflexivity|].
  destruct (String.eqb k0 k); auto.
Qed.

Lemma dict_set_dmap {A B} (f : A -> B) d k v :
  dict_set (dmap f d) k (f v) = dmap f (dict_set d k v).
Proof.
  induction d as [|[k0 v0] r IH]; simpl; [reflexivity|].
  destruct (String.eqb k0 k); simpl; [reflexivity|]. now rewrite IH.
Qed.

Lemma keys_dmap {A B} (f : A -> B) d : keys (dmap f d) = keys d.
Proof. unfold keys, dmap. rewrite map_map. reflexivity. Qed.

Lemma commutes_ret {A B} (f : A -> B) a b :
  f a = b -> commutes (T:=T) f (ret a) (ret b).
Proof. intros <- w. reflexivity. Qed.

Lemma commutes_raise {A B} (f : A -> B) e :
  commutes (T:=T) f (raise e) (raise e).
Proof. intros w. reflexivity. Qed.

Lemma commutes_bind {A A' B B'} (fa : A -> A') (fb : B -> B')
      (m : M (T:=T) A) mu (k : A -> M B) ku :
  commutes fa m mu ->
  (forall a, commutes fb (k a) (ku (fa a))) ->
  commutes fb (bind m k) (bind mu ku).
Proof.
  intros Hm Hk w. unfold bind. rewrite <- Hm.
  destruct (m w) as [[a w']|e]; simpl; [apply Hk | reflexivity].
Qed.

Lemma commutes_time : commutes untime (time_time clock) (time_time no_clock).
Proof. intros w. reflexivity. Qed.

Lemma commutes_chat mdl msgs :
  commutes (T:=T) (fun s : string => s)
           (ollama_chat chat mdl msgs) (ollama_chat chat mdl msgs).
Proof. intros w. reflexivity. Qed.

Lemma commutes_json_dump dir name (a : Artifact (T:=T)) :
  commutes (fun u : unit => u) (json_dump dir name a)
           (json_dump dir name (forget_artifact a)).
Proof.
  intros w. unfold json_dump, forget_result, forget_world. simpl.
  now rewrite dict_set_dmap.
Qed.

Lemma commutes_lookup {V V'} (f : V -> V') d k :
  commutes (T:=T) f (lookup d k) (lookup (dmap f d) k).
Proof.
  intros w. unfold lookup. rewrite dict_get_dmap.
  destruct (dict_get d k); reflexivity.
Qed.

Lemma commutes_lookup_same {V} (d : dict V) k :
  commutes (T:=T) (fun v : V => v) (lookup d k) (lookup d k).
Proof. intros w. unfold lookup. destruct (dict_get d k); reflexivity. Qed.

Lemma commutes_index {V} (l : list V) i :
  commutes (T:=T) (fun v : V => v) (index l i) (index l i).
Proof. intros w. unfold index. destruct (nth_error l i); reflexivity. Qed.

Lemma commutes_lift {A} (r : Result A) :
  commutes (T:=T) (fun a : A => a) (lift r) (lift r).
Proof. intros w. destruct r; reflexivity. Qed.

Lemma commutes_for_each {A S S'} (fs : S -> S') (l : list A)
      (body : A -> S -> M (T:=T) S) bodyu :
  (forall x s, commutes fs (body x s) (bodyu x (fs s))) ->
  forall s, commutes fs (for_each l body s) (for_each l bodyu (fs s)).
Proof.
  intros Hb. induction l as [|x l IH]; intros s; simpl.
  - now apply commutes_ret.
  - eapply commutes_bind; [apply Hb | apply IH].
Qed.

Lemma forget_track_performance (m : Metrics (T:=T)) e :
  forget_metrics (track_performance m e) =
  track_performance (forget_metrics m) tt.
Proof.
  unfold forget_metrics, track_performance. simpl.
  now rewrite map_app.
Qed.

Lemma commutes_generate_response (a : DebateAgent (T:=T)) prompt h :
  commutes (pair_map (fun s : string => s) forget_agent)
           (generate_response chat clock a prompt h)
           (generate_response chat no_clock (forget_agent a) prompt h).
Proof.
  intros w. rewrite !generate_response_eq. cbv zeta. simpl.
  unfold pair_map, forget_agent at 1. simpl.
  rewrite forget_track_performance. reflexivity.
Qed.

Lemma commutes_set_initial_position (a : DebateAgent (T:=T)) q l :
  commutes (pair_map (fun s : string => s) forget_agent)
           (set_initial_position chat clock a q l)
           (set_initial_position chat no_clock (forget_agent a) q l).
Proof.
  intros w. rewrite !set_initial_position_eq. cbv zeta. simpl.
  unfold pair_map, forget_agent at 1. simpl.
  rewrite forget_track_performance. reflexivity.
Qed.

Lemma commutes_with_agent {A} (t : DebateTournament (T:=T)) aid
      (f : DebateAgent -> M (A * DebateAgent)) fu :
  (forall a, commutes (pair_map (fun x : A => x) forget_agent)
                      (f a) (fu (forget_agent a))) ->
  commutes (pair_map (fun x : A => x) forget_tournament)
           (with_agent t aid f)
           (with_agent (forget_tournament t) aid fu).
Proof.
  intros Hf w. unfold with_agent. simpl. rewrite dict_get_dmap.
  destruct (dict_get (agents t) aid) as [a|]; simpl; [|reflexivity].
  unfold bind. rewrite <- Hf.
  destruct (f a w) as [[[r a'] w']|e]; simpl; [|reflexivity].
  unfold pair_map, forget_tournament. simpl. now rewrite dict_set_dmap.
Qed.

Lemma forget_set_phase_duration (t : DebateTournament (T:=T)) k v u :
  forget_tournament (set_phase_duration t k v) =
  set_phase_duration (forget_tournament t) k u.
Proof.
  destruct u. unfold forget_tournament, set_phase_duration. simpl.
  unfold forget_tournament_metrics. simpl.
  now rewrite <- (dict_set_dmap untime).
Qed.

Lemma commutes_phase_1 (t : DebateTournament (T:=T)) :
  commutes forget_tournament
           (run_phase_1_positions chat clock t)
           (run_phase_1_positions chat no_clock (forget_tournament t)).
Proof.
  unfold run_phase_1_positions.
  eapply commutes_bind; [apply commutes_time|]. intros phase_start.
  eapply commutes_bind.
  - simpl agents. rewrite keys_dmap.
    apply (commutes_for_each forget_tournament). intros aid s.
    eapply commutes_bind.
    + apply commutes_with_agent. intros a.
      apply commutes_set_initial_position.
    + intros [position t1]. unfold pair_map. cbn [fst snd].
      eapply commutes_bind; [apply (commutes_lookup forget_agent)|].
      intros a. eapply commutes_bind; [apply commutes_time|].
      intros generated_at. apply commutes_ret.
      unfold forget_tournament. simpl.
      now rewrite <- (dict_set_dmap forget_position).
  - intros t1. eapply commutes_bind; [apply commutes_time|]. intros now_.
    rewrite <- (forget_set_phase_duration t1 "positions"
                  (num_sub now_ phase_start)).
    eapply commutes_bind.
    + apply (commutes_json_dump _ _ (PositionsJson _ _ _)).
    + intros _. now apply commutes_ret.
Qed.

Lemma commutes_for_each_map {A A' S S'} (fs : S -> S') (g : A -> A')
      (l : list A) (body : A -> S -> M (T:=T) S) bodyu :
  (forall x s, commutes fs (body x s) (bodyu (g x) (fs s))) ->
  forall s, commutes fs (for_each l body s) (for_each (map g l) bodyu (fs s)).
Proof.
  intros Hb. induction l as [|x l IH]; intros s; simpl.
  - now apply commutes_ret.
  - eapply commutes_bind; [apply Hb | apply IH].
Qed.

Lemma commutes_run_debate (t : DebateTournament (T:=T)) a b :
  commutes (pair_map forget_debate forget_tournament)
           (run_debate chat clock t a b)
           (run_debate chat no_clock (forget_tournament t) a b).
Proof.
  unfold run_debate.
  eapply commutes_bind; [apply (commutes_lookup forget_agent)|]. intros agent_a.
  eapply commutes_bind; [apply (commutes_lookup forget_agent)|]. intros agent_b.
  eapply commutes_bind; [apply commutes_time|]. intros round_start.
  eapply commutes_bind.
  { apply commutes_with_agent. intros x. apply commutes_generate_response. }
  intros [rebuttal_a t1]. unfold pair_map at 1. cbn [fst snd].
  eapply commutes_bind.
  { apply commutes_with_agent. intros x. apply commutes_generate_response. }
  intros [rebuttal_b t2]. unfold pair_map at 1. cbn [fst snd].
  eapply commutes_bind.
  { apply commutes_with_agent. intros x. apply commutes_generate_response. }
  intros [counter_a t3]. unfold pair_map at 1. cbn [fst snd].
  eapply commutes_bind.
  { apply commutes_with_agent. intros x. apply commutes_generate_response. }
  intros [counter_b t4]. unfold pair_map at 1. cbn [fst snd].
  eapply commutes_bind; [apply commutes_time|]. intros now_.
  now apply commutes_ret.
Qed.

Lemma commutes_phase_2 (t : DebateTournament (T:=T)) :
  commutes forget_tournament
           (run_phase_2_debates chat clock t)
           (run_phase_2_debates chat no_clock (forget_tournament t)).
Proof.
  unfold run_phase_2_debates.
  eapply commutes_bind; [apply commutes_time|]. intros phase_start.
  eapply commutes_bind.
  - simpl agents. rewrite keys_dmap.
    apply (commutes_for_each forget_tournament). intros pair s.
    destruct pair as [|x [|y [|? ?]]]; try apply commutes_raise.
    eapply commutes_bind; [apply commutes_run_debate|].
    intros [debate t1]. unfold pair_map. cbn [fst snd].
    apply commutes_ret. unfold forget_tournament. simpl.
    now rewrite map_app.
  - intros t1. eapply commutes_bind; [apply commutes_time|]. intros now_.
    rewrite <- (forget_set_phase_duration t1 "debates"
                  (num_sub now_ phase_start)).
    eapply commutes_bind.
    + apply (commutes_json_dump _ _ (DebatesJson _)).
    + intros _. now apply commutes_ret.
Qed.

Lemma commutes_format (t : DebateTournament (T:=T)) d i :
  commutes (fun s : string => s)
           (_format_debate_for_voting t d i)
           (_format_debate_for_voting (forget_tournament t) (forget_debate d) i).
Proof.
  cbv beta delta [_format_debate_for_voting]. cbv zeta.
  eapply commutes_bind; [apply (commutes_lookup forget_position)|]. intros pa.
  eapply commutes_bind; [apply (commutes_lookup forget_position)|]. intros pb.
  eapply commutes_bind; [apply commutes_index|]. intros r0.
  eapply commutes_bind; [apply commutes_lookup_same|]. intros r0a.
  eapply commutes_bind; [apply commutes_index|]. intros r0'.
  eapply commutes_bind; [apply commutes_lookup_same|]. intros r0b.
  eapply commutes_bind; [apply commutes_index|]. intros r1.
  eapply commutes_bind; [apply commutes_lookup_same|]. intros r1a.
  eapply commutes_bind; [apply commutes_index|]. intros r1'.
  eapply commutes_bind; [apply commutes_lookup_same|]. intros r1b.
  now apply commutes_ret.
Qed.

Lemma commutes_collect_votes (t : DebateTournament (T:=T)) d i :
  commutes (pair_map (fun l : list Vote => l) forget_tournament)
           (collect_votes chat clock d i t)
           (collect_votes chat no_clock (forget_debate d) i (forget_tournament t)).
Proof.
  unfold collect_votes. simpl agents. rewrite keys_dmap.
  change (([] : list Vote), forget_tournament t)
    with (pair_map (fun l : list Vote => l) forget_tournament ([], t)).
  apply (commutes_for_each
           (pair_map (fun l : list Vote => l) forget_tournament)).
  intros aid [dv s]. unfold pair_map at 2. cbn [fst snd].
  simpl participants.
  destruct (not_in_participants aid (participants d)).
  - eapply commutes_bind; [apply commutes_format|]. intros summary.
    eapply commutes_bind.
    { apply commutes_with_agent. intros x. apply commutes_generate_response. }
    intros [vote_response t1]. unfold pair_map at 1. cbn [fst snd].
    now apply commutes_ret.
  - now apply commutes_ret.
Qed.

Lemma enumerate_map {A B} (f : A -> B) (l : list A) :
  enumerate (map f l) = map (fun ix => (fst ix, f (snd ix))) (enumerate l).
Proof.
  unfold enumerate. rewrite length_map. generalize 0.
  induction l as [|x l IH]; intros n; simpl; [reflexivity|]. now rewrite IH.
Qed.

Lemma commutes_phase_3 (t : DebateTournament (T:=T)) :
  commutes forget_tournament
           (run_phase_3_voting chat clock t)
           (run_phase_3_voting chat no_clock (forget_tournament t)).
Proof.
  unfold run_phase_3_voting.
  eapply commutes_bind; [apply commutes_time|]. intros phase_start.
  eapply commutes_bind.
  - simpl debates. rewrite enumerate_map.
    apply (commutes_for_each_map forget_tournament). intros [i d] s.
    cbn [fst snd].
    eapply commutes_bind; [apply commutes_collect_votes|].
    intros [dv t1]. unfold pair_map. cbn [fst snd].
    now apply commutes_ret.
  - intros t1. eapply commutes_bind; [apply commutes_time|]. intros now_.
    rewrite <- (forget_set_phase_duration t1 "voting"
                  (num_sub now_ phase_start)).
    eapply commutes_bind.
    + apply (commutes_json_dump _ _ (VotesJson _)).
    + intros _. now apply commutes_ret.
Qed.

Lemma forget_get_metrics (a : DebateAgent (T:=T)) :
  forget_agent_metrics (get_metrics a) = get_metrics (forget_agent a).
Proof.
  unfold forget_agent_metrics, get_metrics. simpl.
  rewrite length_map.
  destruct (response_times (performance_metrics a)) as [|x r]; simpl.
  - reflexivity.
  - destruct (py_min (untime x) (map untime r)),
             (py_max (untime x) (map untime r)).
    reflexivity.
Qed.

Lemma forget_agent_performance (ags : dict (DebateAgent (T:=T))) :
  forall acc,
    dmap forget_agent_metrics
      (fold_left (fun d (kv : string * DebateAgent) =>
                    dict_set d (fst kv) (get_metrics (snd kv))) ags acc) =
    fold_left (fun d (kv : string * DebateAgent) =>
                 dict_set d (fst kv) (get_metrics (snd kv)))
              (dmap forget_agent ags) (dmap forget_agent_metrics acc).
Proof.
  induction ags as [|[k a] ags IH]; intros acc; simpl; [reflexivity|].
  rewrite IH, <- dict_set_dmap, forget_get_metrics. reflexivity.
Qed.

Lemma forget_results_of (t : DebateTournament (T:=T)) wc ts :
  forget_results (results_of t wc ts) = results_of (forget_tournament t) wc tt.
Proof.
  unfold forget_results, results_of. simpl.
  now rewrite forget_agent_performance.
Qed.

Lemma commutes_json_dump_eq dir name (a : Artifact (T:=T)) au :
  forget_artifact a = au ->
  commutes (fun u : unit => u) (json_dump dir name a) (json_dump dir name au).
Proof. intros <-. apply commutes_json_dump. Qed.

Lemma commutes_calculate_results (t : DebateTournament (T:=T)) :
  commutes (fun u : unit => u)
           (calculate_results clock t)
           (calculate_results no_clock (forget_tournament t)).
Proof.
  unfold calculate_results. simpl agents. simpl votes. rewrite keys_dmap.
  eapply commutes_bind; [apply commutes_lift|]. intros wc.
  eapply commutes_bind; [apply commutes_time|]. intros timestamp.
  eapply commutes_bind.
  - apply commutes_json_dump_eq.
    exact (f_equal ResultsJson (forget_results_of t wc timestamp)).
  - intros _. simpl total_duration.
    destruct (total_duration (tournament_metrics t)); simpl.
    + now apply commutes_ret.
    + apply commutes_raise.
Qed.

Lemma commutes_run_tournament (t : DebateTournament (T:=T)) :
  commutes forget_tournament
           (run_tournament chat clock t)
           (run_tournament chat no_clock (forget_tournament t)).
Proof.
  unfold run_tournament.
  eapply commutes_bind; [apply commutes_time|]. intros start. cbv zeta.
  eapply commutes_bind; [apply commutes_phase_1|]. intros t1.
  eapply commutes_bind; [apply commutes_phase_2|]. intros t2.
  eapply commutes_bind; [apply commutes_phase_3|]. intros t3.
  eapply commutes_bind; [apply commutes_time|]. intros end_.
  eapply commutes_bind.
  - simpl end_time. simpl start_time.
    destruct (start_time (tournament_metrics t3)); simpl.
    + apply (commutes_ret untime). reflexivity.
    + apply commutes_raise.
  - intros dur.
    eapply commutes_bind; [apply commutes_calculate_results|].
    intros _. now apply commutes_ret.
Qed.

End Determinism.

Section TwoRuns.

Context {T : Type} {NT : PyNum T}.
Variable chat : nat -> string -> list Message -> string.
Variables clock1 clock2 : nat -> T.

Lemma run_tournament_inv clock (t t' : DebateTournament (T:=T)) w w' :
  run_tournament chat clock t w = Ok (t', w') ->
  exists wa, calculate_results clock t' wa = Ok (tt, w').
Proof.
  unfold run_tournament. unfold bind.
  destruct (time_time clock w) as [[start w0]|]; [|discriminate].
  destruct (run_phase_1_positions _ _ _ w0) as [[t1 w1]|]; [|discriminate].
  destruct (run_phase_2_debates _ _ _ w1) as [[t2 w2]|]; [|discriminate].
  destruct (run_phase_3_voting _ _ _ w2) as [[t3 w3]|]; [|discriminate].
  destruct (time_time clock w3) as [[end_ w4]|]; [|discriminate].
  cbv zeta.
  destruct (start_time (tournament_metrics t3)) eqn:Es;
    cbn [end_time start_time tournament_metrics set_metrics]; rewrite ?Es;
    [|discriminate].
  unfold ret at 1.
  match goal with
  | |- context [calculate_results clock ?x ?y] =>
      destruct (calculate_results clock x y) as [[[] w6]|] eqn:Ec;
        [|discriminate]
  end.
  unfold ret. intros E. injection E as <- <-. eauto.
Qed.

Lemma tournament_results_forget (t : DebateTournament (T:=T)) w :
  tournament_results (forget_tournament t) (forget_world w) =
  option_map forget_results (tournament_results t w).
Proof.
  unfold tournament_results. simpl. rewrite dict_get_dmap.
  destruct (dict_get (files w) _) as [[]|]; reflexivity.
Qed.

Lemma two_runs_forget (t : DebateTournament (T:=T)) w :
  forget_result forget_tournament (run_tournament chat clock1 t w) =
  forget_result forget_tournament (run_tournament chat clock2 t w).
Proof.
  now rewrite (commutes_run_tournament chat clock1 t w),
              (commutes_run_tournament chat clock2 t w).
Qed.

(** C8 (amended): two runs of the tournament from the same state with the
    same backend, under any two clocks, either raise the same exception or
    both return, and then their [tournament_results] agree on the
    rankings, the win counts, the agent count, topic and label, the names
    of the measured phases, and for every agent on its id, model, number of
    responses, token count and history length; they issue the same backend
    requests and record the same votes.  Only measured times (timestamp,
    durations and the latency fields of [agent_performance]) may differ. *)
Theorem C8_two_runs_agree :
  forall (t : DebateTournament (T:=T)) (w : World),
    match run_tournament chat clock1 t w, run_tournament chat clock2 t w with
    | Ok (t1, w1), Ok (t2, w2) =>
        exists r1 r2,
          tournament_results t1 w1 = Some r1 /\
          tournament_results t2 w2 = Some r2 /\
          forget_results r1 = forget_results r2 /\
          rankings r1 = rankings r2 /\
          win_counts r1 = win_counts r2 /\
          ti_num_agents (tournament_info r1) =
            ti_num_agents (tournament_info r2) /\
          ti_topic_question (tournament_info r1) =
            ti_topic_question (tournament_info r2) /\
          ti_position_label (tournament_info r1) =
            ti_position_label (tournament_info r2) /\
          keys (phase_durations (ti_duration (tournament_info r1))) =
            keys (phase_durations (ti_duration (tournament_info r2))) /\
          map (fun kv => (fst kv, untimed_metrics (snd kv)))
              (agent_performance r1) =
            map (fun kv => (fst kv, untimed_metrics (snd kv)))
                (agent_performance r2) /\
          chat_log w1 = chat_log w2 /\
          votes t1 = votes t2
    | Raise e1, Raise e2 => e1 = e2
    | _, _ => False
    end.
Proof.
  intros t w. pose proof (two_runs_forget t w) as H.
  destruct (run_tournament chat clock1 t w) as [[t1 w1]|e1] eqn:E1,
           (run_tournament chat clock2 t w) as [[t2 w2]|e2] eqn:E2;
    unfold forget_result in H; try discriminate; [|congruence].
  assert (Ht : forget_tournament t1 = forget_tournament t2) by congruence.
  assert (Hw : forget_world w1 = forget_world w2) by congruence.
  clear H.
  destruct (run_tournament_inv _ _ _ _ _ E1) as (wa & Ea).
  destruct (run_tournament_inv _ _ _ _ _ E2) as (wb & Eb).
  apply calculate_results_inv in Ea as (wc1 & _ & R1).
  apply calculate_results_inv in Eb as (wc2 & _ & R2).
  pose proof (tournament_results_forget t1 w1) as F1.
  pose proof (tournament_results_forget t2 w2) as F2.
  rewrite Ht, Hw, F2, R2 in F1. rewrite R1 in F1.
  match type of R1 with _ = Some ?x => set (r1 := x) in * end.
  match type of R2 with _ = Some ?x => set (r2 := x) in * end.
  cbn [option_map] in F1.
  assert (F : forget_results r1 = forget_results r2) by congruence.
  clearbody r1 r2. clear F1.
  exists r1, r2. split; [exact R1|]. split; [exact R2|].
  split; [exact F|].
  assert (Hk : forall (d : dict T), keys (dmap untime d) = keys d)
    by (intros d; apply keys_dmap).
  assert (Hm : forall (d : dict (AgentMetrics (T:=T))),
             map (fun kv => (fst kv, untimed_metrics (snd kv)))
                 (dmap forget_agent_metrics d) =
             map (fun kv => (fst kv, untimed_metrics (snd kv))) d).
  { intros d. unfold dmap. rewrite map_map. reflexivity. }
  repeat split.
  - exact (f_equal rankings F).
  - exact (f_equal win_counts F).
  - exact (f_equal (fun r => ti_num_agents (tournament_info r)) F).
  - exact (f_equal (fun r => ti_topic_question (tournament_info r)) F).
  - exact (f_equal (fun r => ti_position_label (tournament_info r)) F).
  - pose proof (f_equal (fun r => keys (phase_durations
                                          (ti_duration (tournament_info r)))) F)
      as G.
    cbv beta in G. unfold forget_results in G. simpl in G.
    now rewrite !Hk in G.
  - pose proof (f_equal (fun r => map (fun kv => (fst kv, untimed_metrics (snd kv)))
                                      (agent_performance r)) F) as G.
    cbv beta in G. unfold forget_results in G. simpl agent_performance in G.
    now rewrite !Hm in G.
  - exact (f_equal (fun x => chat_log x) Hw).
  - exact (f_equal (fun x => votes x) Ht).
Qed.

End TwoRuns.

(** C8 as stated fails: with the same backend and two clocks, the results
    differ in [agent_performance] (the latency of every agent), which is
    neither the timestamp nor the duration field. *)
Lemma C8_latencies_differ :
  exists t t1 w1 r1 t2 w2 r2,
    example_tournament 3 = Ok t /\
    run_tournament example_chat clock_seconds t world0 = Ok (t1, w1) /\
    run_tournament example_chat clock_slow t world0 = Ok (t2, w2) /\
    tournament_results t1 w1 = Some r1 /\
    tournament_results t2 w2 = Some r2 /\
    map (fun kv => m_total_time (snd kv)) (agent_performance r1) =
      [6%Q; 6%Q; 6%Q] /\
    map (fun kv => m_total_time (snd kv)) (agent_performance r2) =
      [12%Q; 12%Q; 12%Q] /\
    blank_timestamp_duration 0%Q r1 <> blank_timestamp_duration 0%Q r2.
Proof.
  eexists _, _, _, _, _, _, _.
  split; [vm_compute; reflexivity|].
  split; [vm_compute; reflexivity|].
  split; [vm_compute; reflexivity|].
  split; [vm_compute; reflexivity|].
  split; [vm_compute; reflexivity|].
  split; [vm_compute; reflexivity|].
  split; [vm_compute; reflexivity|].
  intros H.
  apply (f_equal (fun r => map (fun kv => m_total_time (snd kv))
                               (agent_performance r))) in H.
  vm_compute in H. discriminate H.
Qed.

(** ** Instances on concrete tournaments *)

Lemma C3_win_counts_sum_witness :
  calculate_results clock_seconds (fst example_final) (snd example_final)
    = Ok (tt, example_final_again) /\
  length (votes (fst example_final)) = length (debates (fst example_final)) /\
  exists r,
    tournament_results (fst example_final) example_final_again = Some r /\
    sum_nat (values (win_counts r)) = 3.
Proof.
  assert (H1 : calculate_results clock_seconds (fst example_final)
                 (snd example_final) = Ok (tt, example_final_again))
    by (vm_compute; reflexivity).
  assert (H2 : length (votes (fst example_final)) =
               length (debates (fst example_final))) by reflexivity.
  split; [exact H1|]. split; [exact H2|].
  destruct (C3_win_counts_sum clock_seconds _ _ _ H1 H2) as (r & Hr & Hs & _).
  exists r. split; [exact Hr | exact Hs].
Defined.

Lemma C4_pairing_witness :
  exists t,
    example_tournament 4 = Ok t /\
    length (combinations (keys (agents t)) 2) = 6 /\
    combinations (keys (agents t)) 2 = pairs_by_index (keys (agents t)).
Proof.
  eexists. split; [reflexivity|].
  destruct (C4_pairing example_chat clock_seconds 4 None None "position"
              "debate_results" _ eq_refl) as (_ & Hl & Hp & _).
  split; [exact Hl | exact Hp].
Defined.

Lemma C6_voters_of_each_debate_witness :
  exists t t' w',
    example_tournament 3 = Ok t /\
    run_phases example_chat clock_seconds t world0 = Ok (t', w') /\
    length (votes t') = length (debates t').
Proof.
  eexists.
  destruct (C6_voters_of_each_debate example_chat clock_seconds 3 None None
              "position" "debate_results" _ world0 eq_refl)
    as (t' & w' & E & _ & _ & Hl & _).
  exists t', w'. split; [reflexivity|]. split; [exact E | exact Hl].
Defined.

Lemma C7_three_agents_witness :
  exists t t' w' r,
    example_tournament 3 = Ok t /\
    (forall k mdl msgs,
        vote_request "position" msgs ->
        parse_vote (example_chat k mdl msgs) = "A") /\
    run_tournament example_chat clock_seconds t world0 = Ok (t', w') /\
    tournament_results t' w' = Some r /\
    win_counts r = [("agent_0", 2); ("agent_1", 1); ("agent_2", 0)].
Proof.
  eexists.
  assert (Hv : forall k mdl msgs,
             vote_request "position" msgs ->
             parse_vote (example_chat k mdl msgs) = "A")
    by (intros; reflexivity).
  destruct (C7_three_agents example_chat clock_seconds None None "position"
              "debate_results" _ world0 eq_refl Hv)
    as (t' & w' & r & E & _ & Hr & Hw & _).
  exists t', w', r. split; [reflexivity|]. split; [exact Hv|].
  split; [exact E|]. split; [exact Hr | exact Hw].
Defined.

Lemma C9_aggregation_needs_votes_witness :
  exists t,
    example_tournament 2 = Ok t /\
    run_tournament example_chat clock_seconds t world0 =
      Raise (ValueError "max() arg is an empty sequence").
Proof.
  eexists. split; [reflexivity|].
  destruct (C9_aggregation_needs_votes example_chat clock_seconds 2 None None
              "position" "debate_results" _ world0 eq_refl)
    as (t' & w' & _ & _ & _ & H2 & _).
  destruct (H2 eq_refl) as (vd & _ & _ & _ & _ & E). exact E.
Defined.

(** * Further properties of the agent *)

Section AgentHistory.

Context {T : Type} {NT : PyNum T}.
Variable chat : nat -> string -> list Message -> string.
Variable clock : nat -> T.

Lemma run_op_history op (a : DebateAgent (T:=T)) (w : World) :
  exists a' w' q r,
    run_op chat clock op a w = Ok (a', w') /\
    conversation_history a' =
      conversation_history a ++ [mkMessage "user" q; mkMessage "assistant" r] /\
    agent_id a' = agent_id a /\ model a' = model a /\
    length (chat_log w') = S (length (chat_log w)) /\
    ticks w' = S (S (ticks w)) /\ files w' = files w.
Proof.
  destruct op as [p h | q l]; unfold run_op, bind.
  - rewrite generate_response_eq. cbv zeta. unfold ret.
    eexists _, _, _, _. split; [reflexivity|]. simpl.
    rewrite length_app. simpl. repeat split; auto. lia.
  - rewrite set_initial_position_eq. cbv zeta. unfold ret.
    eexists _, _, _, _. split; [reflexivity|]. simpl.
    rewrite length_app. simpl. repeat split; auto. lia.
Qed.

(** Every call on an agent, with or without history in the request,
    returns and appends one user turn and one assistant turn to the
    history, which is never shortened or rewritten: after any sequence of
    calls the old history is a prefix of the new one, the new turns
    alternate user, assistant, and there are two of them, one backend call
    and two clock readings per call; identifier and model do not change and
    no file is written. *)
Theorem history_is_append_only :
  forall (ops : list AgentOp) (a : DebateAgent (T:=T)) (w : World),
  exists a' w' new,
    run_ops chat clock ops a w = Ok (a', w') /\
    conversation_history a' = conversation_history a ++ new /\
    map role new = concat (repeat ["user"; "assistant"] (length ops)) /\
    length new = 2 * length ops /\
    m_conversation_length (get_metrics a') =
      m_conversation_length (get_metrics a) + 2 * length ops /\
    agent_id a' = agent_id a /\ model a' = model a /\
    length (chat_log w') = length (chat_log w) + length ops /\
    ticks w' = ticks w + 2 * length ops /\
    files w' = files w.
Proof.
  induction ops as [|op ops IH]; intros a w.
  - exists a, w, []. simpl. rewrite app_nil_r, !Nat.add_0_r. repeat split.
  - destruct (run_op_history op a w)
      as (a1 & w1 & q & r & E1 & H1 & I1 & M1 & L1 & K1 & F1).
    destruct (IH a1 w1) as (a2 & w2 & new & E2 & H2 & R2 & N2 & C2 & I2 & M2
                            & L2 & K2 & F2).
    exists a2, w2, ([mkMessage "user" q; mkMessage "assistant" r] ++ new).
    split.
    { unfold run_ops in *. simpl. unfold bind at 1. now rewrite E1. }
    split; [rewrite H2, H1, <- app_assoc; reflexivity|].
    split; [simpl; now rewrite R2|].
    split; [simpl length; lia|].
    split.
    { simpl in *. rewrite H2, H1, !length_app. simpl. lia. }
    split; [congruence|]. split; [congruence|].
    split; [simpl length; lia|]. split; [simpl length; lia | congruence].
Qed.

Lemma history_map_id (h : list Message) :
  map (fun entry => mkMessage (role entry) (content entry)) h = h.
Proof.
  induction h as [|[r c] h IH]; simpl; [reflexivity | now rewrite IH].
Qed.

(** The first request of an agent after its position has been set: the
    stance as a system message, provided neither the answer nor the label
    is empty, then the position question and answer as history, then the
    prompt.  With an empty answer (or label) no system message is sent. *)
Theorem position_then_prompt :
  forall (aid mdl q l p : string) (w : World (T:=T)),
  exists r a1 w1 r2 a2 w2,
    set_initial_position chat clock (DebateAgent_init aid mdl) q l w
      = Ok (r, a1, w1) /\
    generate_response chat clock a1 p true w1 = Ok (r2, a2, w2) /\
    chat_log w2 =
      chat_log w ++
      [(mdl, [mkMessage "user" q]);
       (mdl,
        (if (negb (String.eqb r "") && negb (String.eqb l ""))%bool
         then [mkMessage "system"
                 ("You are a member of a round table discussing " ++ l
                  ++ ". Your stance is: " ++ r ++ ".")%string]
         else [])
        ++ [mkMessage "user" q; mkMessage "assistant" r;
            mkMessage "user" p])] /\
    conversation_history a2 =
      [mkMessage "user" q; mkMessage "assistant" r;
       mkMessage "user" p; mkMessage "assistant" r2].
Proof.
  intros aid mdl q l p w.
  rewrite set_initial_position_eq. cbv zeta.
  eexists _, _, _. rewrite generate_response_eq. cbv zeta.
  eexists _, _, _. split; [reflexivity|]. split; [reflexivity|].
  simpl. rewrite <- app_assoc. simpl. split; [|reflexivity].
  do 3 f_equal. unfold _get_context. simpl.
  set (r := chat (length (chat_log w)) mdl [mkMessage "user" q]).
  destruct r, l; reflexivity.
Qed.

End AgentHistory.

(** ** Latency bounds *)

Lemma py_min_spec (l : list Q) :
  forall x,
    In (py_min x l) (x :: l) /\
    (forall y, In y (x :: l) -> (py_min x l <= y)%Q).
Proof.
  unfold py_min. induction l as [|z l IH]; intros x; simpl.
  - split; [now left|]. intros y [<- | []]. apply Qle_refl.
  - set (x' := if negb (Qle_bool x z) then z else x).
    destruct (IH x') as [Hin Hle]. fold x'.
    assert (Hx' : (x' <= x)%Q /\ (x' <= z)%Q /\ (x' = x \/ x' = z)).
    { unfold x'. destruct (Qle_bool x z) eqn:E; simpl.
      - apply Qle_bool_iff in E. repeat split; auto. apply Qle_refl.
      - assert (~ (x <= z)%Q) as Hn
          by (intros H; apply Qle_bool_iff in H; congruence).
        apply Qnot_le_lt in Hn. repeat split; auto.
        + now apply Qlt_le_weak.
        + apply Qle_refl. }
    destruct Hx' as (Hx & Hz & Hor). split.
    + simpl in Hin. destruct Hin as [Hin | Hin]; [|auto].
      rewrite <- Hin. destruct Hor as [-> | ->]; auto.
    + intros y [<- | [<- | Hy]].
      * eapply Qle_trans; [|exact Hx]. apply Hle. now left.
      * eapply Qle_trans; [|exact Hz]. apply Hle. now left.
      * apply Hle. now right.
Qed.

Lemma py_max_spec (l : list Q) :
  forall x,
    In (py_max x l) (x :: l) /\
    (forall y, In y (x :: l) -> (y <= py_max x l)%Q).
Proof.
  unfold py_max. induction l as [|z l IH]; intros x; simpl.
  - split; [now left|]. intros y [<- | []]. apply Qle_refl.
  - set (x' := if negb (Qle_bool z x) then z else x).
    destruct (IH x') as [Hin Hle]. fold x'.
    assert (Hx' : (x <= x')%Q /\ (z <= x')%Q /\ (x' = x \/ x' = z)).
    { unfold x'. destruct (Qle_bool z x) eqn:E; simpl.
      - apply Qle_bool_iff in E. repeat split; auto. apply Qle_refl.
      - assert (~ (z <= x)%Q) as Hn
          by (intros H; apply Qle_bool_iff in H; congruence).
        apply Qnot_le_lt in Hn. repeat split; auto.
        + now apply Qlt_le_weak.
        + apply Qle_refl. }
    destruct Hx' as (Hx & Hz & Hor). split.
    + simpl in Hin. destruct Hin as [Hin | Hin]; [|auto].
      rewrite <- Hin. destruct Hor as [-> | ->]; auto.
    + intros y [<- | [<- | Hy]].
      * eapply Qle_trans; [exact Hx|]. apply Hle. now left.
      * eapply Qle_trans; [exact Hz|]. apply Hle. now left.
      * apply Hle. now right.
Qed.

(** With rational latencies, the minimum and maximum that [get_metrics]
    reports are recorded response times that bound every recorded response
    time; an agent that never answered reports 0 for both. *)
Theorem metrics_min_max_bounds :
  forall (a : DebateAgent (T:=Q)),
    let rts := response_times (performance_metrics a) in
    let m := get_metrics a in
    (rts = [] -> m_min_response_time m = 0%Q /\ m_max_response_time m = 0%Q) /\
    (rts <> [] -> In (m_min_response_time m) rts /\
                  In (m_max_response_time m) rts) /\
    (forall x, In x rts ->
               (m_min_response_time m <= x)%Q /\
               (x <= m_max_response_time m)%Q).
Proof.
  intros a rts m. subst m. unfold get_metrics. simpl. fold rts.
  destruct rts as [|x l].
  - repeat split; try reflexivity; try congruence; contradiction.
  - destruct (py_min_spec l x) as [Hmi Hml].
    destruct (py_max_spec l x) as [Hma Hmu].
    split; [discriminate|]. split; [auto|]. intros y Hy. split; auto.
Qed.

(** * Further properties of the constructor *)

Section Constructor.

Context {T : Type} {NT : PyNum T}.

Lemma build_agents_frame ids models :
  forall (acc d : dict (DebateAgent (T:=T))) i,
    build_agents ids models acc = Ok d ->
    ~ In i ids ->
    dict_get d (agent_name i) = dict_get acc (agent_name i).
Proof.
  induction ids as [|j ids IH]; intros acc d i E Hi; simpl in E.
  - now injection E as <-.
  - destruct (nth_error models j); [|discriminate].
    rewrite (IH _ _ i E) by (simpl in Hi; tauto).
    apply dict_get_set_other. intros H. apply agent_name_inj in H.
    apply Hi. now left.
Qed.

Lemma build_agents_get ids models :
  forall (acc d : dict (DebateAgent (T:=T))) i,
    build_agents ids models acc = Ok d ->
    NoDup ids -> In i ids ->
    exists m, nth_error models i = Some m /\
              dict_get d (agent_name i) =
                Some (DebateAgent_init (agent_name i) m).
Proof.
  induction ids as [|j ids IH]; intros acc d i E Hnd Hi; [contradiction|].
  simpl in E. destruct (nth_error models j) as [m|] eqn:Em; [|discriminate].
  inversion Hnd as [|? ? Hj Hnd']; subst.
  destruct (Nat.eq_dec j i) as [->|Hne].
  - exists m. split; [exact Em|].
    rewrite (build_agents_frame _ _ _ _ i E Hj). apply dict_get_set_same.
  - destruct Hi as [Hi | Hi]; [contradiction|]. eapply IH; eauto.
Qed.

Lemma build_agents_total ids models :
  forall acc : dict (DebateAgent (T:=T)),
    (forall i, In i ids -> i < length models) ->
    exists d, build_agents ids models acc = Ok d.
Proof.
  induction ids as [|i ids IH]; intros acc H; simpl; [eauto|].
  destruct (nth_error models i) eqn:E.
  - apply IH. intros j Hj. apply H. now right.
  - apply nth_error_None in E. specialize (H i (or_introl eq_refl)). lia.
Qed.

Lemma nth_error_list_times (ms : list string) k i :
  i < k * length ms ->
  nth_error (list_times ms k) i = Some (nth (i mod length ms) ms "").
Proof.
  unfold list_times. revert i. induction k as [|k IH]; intros i Hi; [lia|].
  simpl repeat. simpl concat.
  destruct (Nat.lt_ge_cases i (length ms)) as [Hlt | Hge].
  - rewrite nth_error_app1 by assumption.
    rewrite Nat.mod_small by assumption. now apply nth_error_nth'.
  - rewrite nth_error_app2 by assumption.
    rewrite IH by (simpl in Hi; lia).
    replace i with ((i - length ms) + 1 * length ms) at 2 by lia.
    now rewrite Nat.Div0.mod_add.
Qed.

(** The list of models the constructor indexes: long enough for every
    agent, and holding [model_of_agent] at each index. *)
Lemma normalized_models (n : Z) (models : option (list string)) :
  match models with
  | None => Ok (repeat "llama3.2" (Z.to_nat n))
  | Some ms =>
      if (Z.of_nat (length ms) <? n)%Z then
        if Nat.eqb (length ms) 0 then Raise ZeroDivisionError
        else Ok (firstn (Z.to_nat n)
                   (list_times ms (Z.to_nat (n / Z.of_nat (length ms) + 1))))
      else Ok ms
  end = Raise ZeroDivisionError /\ models = Some [] /\ (0 < n)%Z
  \/
  exists ms',
    match models with
    | None => Ok (repeat "llama3.2" (Z.to_nat n))
    | Some ms =>
        if (Z.of_nat (length ms) <? n)%Z then
          if Nat.eqb (length ms) 0 then Raise ZeroDivisionError
          else Ok (firstn (Z.to_nat n)
                     (list_times ms (Z.to_nat (n / Z.of_nat (length ms) + 1))))
        else Ok ms
    end = Ok ms' /\
    ~ (models = Some [] /\ (0 < n)%Z) /\
    forall i, i < Z.to_nat n ->
              nth_error ms' i = Some (model_of_agent models n i).
Proof.
  destruct models as [ms|]; simpl.
  - destruct (Z.ltb_spec (Z.of_nat (length ms)) n) as [Hlt | Hge].
    + destruct (Nat.eqb_spec (length ms) 0) as [Hz | Hnz].
      * left. destruct ms; [|discriminate]. repeat split. simpl in Hlt. lia.
      * right. eexists. split; [reflexivity|]. split.
        { intros [E _]. injection E as ->. now apply Hnz. }
        intros i Hi. rewrite nth_error_firstn.
        apply Nat.ltb_lt in Hi as Hi'. rewrite Hi'.
        apply nth_error_list_times.
        set (len := length ms) in *.
        assert (Hq : (0 <= n / Z.of_nat len)%Z) by (apply Z.div_pos; lia).
        assert (Hm : (n < Z.of_nat len * Z.succ (n / Z.of_nat len))%Z)
          by (apply Z.mul_succ_div_gt; lia).
        apply Nat2Z.inj_lt. rewrite Nat2Z.inj_mul, Z2Nat.id by lia.
        assert (Z.of_nat i < n)%Z by lia. unfold Z.succ in Hm. lia.
    + right. exists ms. split; [reflexivity|]. split.
      { intros [E Hn]. injection E as ->. simpl in Hge. lia. }
      intros i Hi. apply nth_error_nth'. lia.
  - right. eexists. split; [reflexivity|]. split; [intros [E _]; discriminate|].
    intros i Hi. now apply nth_error_repeat.
Qed.

(** Once the output directory exists, the rest of the constructor fails in
    exactly one case: an empty model list with a positive agent count, where
    cycling the list divides by its length.  It never raises [IndexError]. *)
Lemma init_raises_iff n models topic label out e :
  DebateTournament_init (T:=T) n models topic label out = Raise e <->
  models = Some [] /\ (0 < n)%Z /\ e = ZeroDivisionError.
Proof.
  unfold DebateTournament_init.
  destruct (normalized_models n models) as [(-> & Hm & Hn) | (ms' & -> & Hno & Hnth)].
  - split; [intros E; injection E as <-; auto | intros (_ & _ & ->); reflexivity].
  - destruct (build_agents_total (seq 0 (Z.to_nat n)) ms' []) as [d ->].
    + intros i Hi. apply in_seq in Hi.
      assert (Hs : nth_error ms' i <> None) by (rewrite Hnth by lia; discriminate).
      now apply nth_error_Some in Hs.
    + split; [discriminate | intros (Hm & Hn & _); tauto].
Qed.

(** The exceptions of the constructor, for any behaviour of the file
    system: it raises exactly when creating the output directory raises,
    with that exception, or the directory is created and the model list is
    empty with a positive agent count, with [ZeroDivisionError] from
    cycling the list.  It returns exactly when the directory is created and
    that is not the case, whatever the other arguments (no model list, a
    shorter, equal or longer one, a zero or negative agent count). *)
Theorem constructor_fails_iff :
  forall (mkdir : string -> Result unit) n models topic label out,
    (forall e,
        DebateTournament_create (T:=T) mkdir n models topic label out
          = Raise e <->
        mkdir out = Raise e \/
        (mkdir out = Ok tt /\ models = Some [] /\ (0 < n)%Z /\
         e = ZeroDivisionError)) /\
    ((exists t,
         DebateTournament_create (T:=T) mkdir n models topic label out
           = Ok t) <->
     mkdir out = Ok tt /\ ~ (models = Some [] /\ (0 < n)%Z)).
Proof.
  intros mkdir n models topic label out. unfold DebateTournament_create.
  destruct (mkdir out) as [[]|e0].
  - split.
    + intros e. rewrite init_raises_iff. split.
      * intros H. right. split; [reflexivity | exact H].
      * intros [H | [_ H]]; [discriminate | exact H].
    + split.
      * intros [t Ht]. split; [reflexivity|]. intros [Hm Hn].
        assert (Hr : DebateTournament_init (T:=T) n models topic label out
                     = Raise ZeroDivisionError)
          by (apply init_raises_iff; auto).
        rewrite Hr in Ht. discriminate.
      * intros [_ Hno].
        destruct (DebateTournament_init (T:=T) n models topic label out)
          as [t|e] eqn:E; [eauto|].
        apply init_raises_iff in E as (Hm & Hn & _). tauto.
  - split.
    + intros e. split.
      * intros H. left. now injection H as ->.
      * intros [H | [H _]]; [now injection H as -> | discriminate].
    + split; [intros [t Ht]; discriminate | intros [H _]; discriminate].
Qed.

(** When the constructor returns, its agents are agent_0 .. agent_(n-1) in
    that order, each fresh (no history, no position, zeroed metrics) and
    with the model the list assigns it, cycling a list that is too short;
    the topic defaults to the ideal-society question when none (or an empty
    one) is given. *)
Theorem constructor_agents :
  forall n models topic label out (t : DebateTournament (T:=T)),
    DebateTournament_init n models topic label out = Ok t ->
    keys (agents t) = map agent_name (seq 0 (Z.to_nat n)) /\
    (forall i, i < Z.to_nat n ->
               dict_get (agents t) (agent_name i) =
                 Some (DebateAgent_init (agent_name i)
                                        (model_of_agent models n i))) /\
    topic_question t =
      match topic with
      | Some (String c s) => String c s
      | _ => "Describe your ideal society in 200 words."
      end.
Proof.
  intros n models topic label out t E.
  pose proof E as E0.
  apply (DebateTournament_init_ok (fun _ _ _ => ""%string) (fun _ => num_zero))
    in E0 as (Hk & _).
  split; [exact Hk|]. unfold DebateTournament_init in E.
  destruct (normalized_models n models) as [(Hr & _) | (ms' & Hm & _ & Hnth)].
  - rewrite Hr in E. discriminate.
  - rewrite Hm in E.
    destruct (build_agents (seq 0 (Z.to_nat n)) ms' []) as [d|] eqn:Eb;
      [|discriminate].
    injection E as <-. simpl. split.
    + intros i Hi.
      destruct (build_agents_get _ _ _ _ i Eb (seq_NoDup _ _)) as (m & Hmi & Hg).
      { apply in_seq. lia. }
      rewrite Hnth in Hmi by assumption. injection Hmi as <-. exact Hg.
    + destruct topic as [[|c s]|]; reflexivity.
Qed.

End Constructor.

Lemma constructor_agents_witness :
  exists t : DebateTournament (T:=Q),
    DebateTournament_init 5 (Some ["llama3.2"; "mistral"]) None "position" "out"
      = Ok t /\
    dict_get (agents t) "agent_4" =
      Some (DebateAgent_init "agent_4" "llama3.2") /\
    dict_get (agents t) "agent_3" =
      Some (DebateAgent_init "agent_3" "mistral").
Proof.
  eexists. split; [reflexivity|].
  destruct (constructor_agents (T:=Q) 5 (Some ["llama3.2"; "mistral"]) None
              "position" "out" _ eq_refl) as (_ & H & _).
  assert (H4 := H 4 ltac:(simpl; lia)). assert (H3 := H 3 ltac:(simpl; lia)).
  vm_compute in H3, H4. vm_compute. split; [exact H4 | exact H3].
Defined.

(** * Further properties of the ranking *)

Lemma insert_desc_perm x l : Permutation (insert_desc x l) (x :: l).
Proof.
  induction l as [|y l IH]; simpl; [reflexivity|].
  destruct (snd y <=? snd x); [reflexivity|].
  rewrite IH. apply perm_swap.
Qed.

Lemma sorted_desc_perm l : Permutation (sorted_desc l) l.
Proof.
  induction l as [|x l IH]; [reflexivity|].
  cbn [sorted_desc fold_right].
  change (fold_right insert_desc [] l) with (sorted_desc l).
  rewrite insert_desc_perm. now constructor.
Qed.

Lemma insert_desc_sorted x l :
  StronglySorted (fun a b : string * nat => snd b <= snd a) l ->
  StronglySorted (fun a b : string * nat => snd b <= snd a) (insert_desc x l).
Proof.
  induction 1 as [|y l Hs IH Hy]; simpl.
  - repeat constructor.
  - destruct (Nat.leb_spec (snd y) (snd x)) as [Hle | Hlt].
    + constructor; [constructor; assumption|].
      constructor; [exact Hle|].
      eapply Forall_impl; [|exact Hy]. simpl. intros z Hz. lia.
    + constructor; [exact IH|].
      eapply Permutation_Forall; [symmetry; apply insert_desc_perm|].
      constructor; [lia | exact Hy].
Qed.

Lemma sorted_desc_sorted l :
  StronglySorted (fun a b : string * nat => snd b <= snd a) (sorted_desc l).
Proof.
  induction l as [|x l IH]; [constructor|].
  cbn [sorted_desc fold_right]. now apply insert_desc_sorted.
Qed.

Lemma insert_desc_stable c x l :
  filter (fun kv : string * nat => snd kv =? c) (insert_desc x l) =
  filter (fun kv : string * nat => snd kv =? c) (x :: l).
Proof.
  induction l as [|y l IH]; [reflexivity|].
  cbn [insert_desc].
  destruct (Nat.leb_spec (snd y) (snd x)) as [Hle | Hlt]; [reflexivity|].
  cbn [filter] in *. rewrite IH.
  destruct (Nat.eqb_spec (snd y) c), (Nat.eqb_spec (snd x) c);
    try reflexivity. lia.
Qed.

Lemma sorted_desc_stable c l :
  filter (fun kv : string * nat => snd kv =? c) (sorted_desc l) =
  filter (fun kv : string * nat => snd kv =? c) l.
Proof.
  induction l as [|x l IH]; [reflexivity|].
  cbn [sorted_desc fold_right].
  change (fold_right insert_desc [] l) with (sorted_desc l).
  rewrite insert_desc_stable. cbn [filter]. now rewrite IH.
Qed.

(** * Further properties of the tournament *)

Section TournamentExtras.

Context {T : Type} {NT : PyNum T}.
Variable chat : nat -> string -> list Message -> string.
Variable clock : nat -> T.

Lemma get_context_prefix (a : DebateAgent (T:=T)) p :
  _get_context a p = context_prefix a ++ [mkMessage "user" p].
Proof.
  unfold _get_context, context_prefix.
  now rewrite history_map_id, app_assoc.
Qed.

Lemma with_agent_eq {A} (t : DebateTournament (T:=T)) aid a
      (f : DebateAgent -> M (A * DebateAgent)) w r a' w' :
  dict_get (agents t) aid = Some a ->
  f a w = Ok ((r, a'), w') ->
  with_agent t aid f w = Ok ((r, set_agents t (dict_set (agents t) aid a')), w').
Proof.
  intros Ha Hf. unfold with_agent. rewrite Ha. unfold bind. now rewrite Hf.
Qed.

Lemma NoDup_mid_not_in {A} (pre post : list A) x :
  NoDup (pre ++ x :: post) -> ~ In x pre.
Proof.
  intros H Hin. apply NoDup_remove_2 in H. apply H.
  apply in_or_app. now left.
Qed.

(** Phase 1 on a tournament without stored positions: it returns; it
    stores one position per registered agent, in registration order; each
    agent's stance is the text stored for it, its label the tournament's,
    and its history gains the topic question and that text; the position's
    model is the agent's; every request of the phase consists of the topic
    question alone. *)
Theorem phase_1_positions_match_agents :
  forall (t : DebateTournament (T:=T)) (w : World),
    NoDup (keys (agents t)) ->
    positions t = [] ->
    exists t' w' new,
      run_phase_1_positions chat clock t w = Ok (t', w') /\
      keys (agents t') = keys (agents t) /\
      keys (positions t') = keys (agents t) /\
      chat_log w' = chat_log w ++ new /\
      map snd new =
        repeat [mkMessage "user" (topic_question t)]
               (length (keys (agents t))) /\
      forall aid a0,
        dict_get (agents t) aid = Some a0 ->
        exists a' p,
          dict_get (agents t') aid = Some a' /\
          dict_get (positions t') aid = Some p /\
          pos_agent_id p = aid /\
          pos_model p = model a0 /\
          model a' = model a0 /\ agent_id a' = agent_id a0 /\
          initial_position a' = Some (pos_position p) /\
          position_label a' = Some (t_position_label t) /\
          conversation_history a' =
            conversation_history a0 ++
              [mkMessage "user" (topic_question t);
               mkMessage "assistant" (pos_position p)].
Proof.
  intros t w Hnd Hp0.
  unfold run_phase_1_positions. rewrite bind_time.
  set (w0 := mkWorld (S (ticks w)) (chat_log w) (files w)).
  set (body := fun (aid : string) (t0 : DebateTournament) => _).
  set (R := fun (a0 a' : DebateAgent (T:=T)) (p : Position (T:=T)) aid =>
              pos_agent_id p = aid /\
              pos_model p = model a0 /\
              model a' = model a0 /\ agent_id a' = agent_id a0 /\
              initial_position a' = Some (pos_position p) /\
              position_label a' = Some (t_position_label t) /\
              conversation_history a' =
                conversation_history a0 ++
                  [mkMessage "user" (topic_question t);
                   mkMessage "assistant" (pos_position p)]).
  assert (Hloop : exists t1 w1,
             for_each (keys (agents t)) body t w0 = Ok (t1, w1) /\
             (keys (agents t1) = keys (agents t) /\
              topic_question t1 = topic_question t /\
              t_position_label t1 = t_position_label t /\
              keys (positions t1) = keys (agents t) /\
              (forall aid, In aid (keys (agents t)) ->
                 exists a0 a' p,
                   dict_get (agents t) aid = Some a0 /\
                   dict_get (agents t1) aid = Some a' /\
                   dict_get (positions t1) aid = Some p /\ R a0 a' p aid) /\
              (forall aid, ~ In aid (keys (agents t)) ->
                 dict_get (agents t1) aid = dict_get (agents t) aid) /\
              exists new,
                chat_log w1 = chat_log w ++ new /\
                map snd new =
                  repeat [mkMessage "user" (topic_question t)]
                         (length (keys (agents t))))).
  { apply (for_each_inv
             (fun pre (s : DebateTournament) (ws : World) =>
                keys (agents s) = keys (agents t) /\
                topic_question s = topic_question t /\
                t_position_label s = t_position_label t /\
                keys (positions s) = pre /\
                (forall aid, In aid pre ->
                   exists a0 a' p,
                     dict_get (agents t) aid = Some a0 /\
                     dict_get (agents s) aid = Some a' /\
                     dict_get (positions s) aid = Some p /\ R a0 a' p aid) /\
                (forall aid, ~ In aid pre ->
                   dict_get (agents s) aid = dict_get (agents t) aid) /\
                exists new,
                  chat_log ws = chat_log w ++ new /\
                  map snd new =
                    repeat [mkMessage "user" (topic_question t)] (length pre))).
    - intros pre x post s ws El (Hk & Hq & Hl & Hp & Hdone & Hrest & new & Hc & Hn).
      assert (Hxpre : ~ In x pre).
      { rewrite El in Hnd. eapply NoDup_mid_not_in; eauto. }
      assert (Hx : In x (keys (agents t))).
      { rewrite El. apply in_or_app. right. now left. }
      destruct (dict_get_in _ _ Hx) as [a0 Ha0].
      assert (Hsx : dict_get (agents s) x = Some a0) by now rewrite Hrest.
      unfold body.
      rewrite (bind_ok _ _ _ _ _
                 (with_agent_eq s x a0 _ ws _ _ _ Hsx
                    (set_initial_position_eq chat clock a0 _ _ ws))).
      cbv zeta.
      erewrite bind_lookup by (simpl; apply dict_get_set_same).
      rewrite bind_time. unfold ret.
      eexists _, _. split; [reflexivity|]. simpl.
      split; [rewrite keys_set_present by (rewrite Hk; exact Hx); exact Hk|].
      split; [exact Hq|]. split; [exact Hl|].
      split.
      { rewrite keys_dict_set, Hp, (str_mem_false _ _ Hxpre). reflexivity. }
      split; [|split].
      + intros aid Hin. apply in_app_or in Hin as [Hin | [<- | []]].
        * destruct (Hdone aid Hin) as (b0 & b' & p & H1 & H2 & H3 & H4).
          assert (x <> aid) by (intros ->; contradiction).
          exists b0, b', p. rewrite !dict_get_set_other by assumption. auto.
        * eexists a0, _, _. split; [exact Ha0|].
          rewrite !dict_get_set_same. split; [reflexivity|].
          split; [reflexivity|]. unfold R. simpl.
          rewrite Hq, Hl. repeat split.
      + intros aid Hin.
        assert (x <> aid) by (intros ->; apply Hin; apply in_or_app; right; now left).
        rewrite dict_get_set_other by assumption.
        apply Hrest. intros H'. apply Hin. apply in_or_app. now left.
      + exists (new ++ [(model a0, [mkMessage "user" (topic_question t)])]).
        rewrite Hc, <- app_assoc, Hq. split; [reflexivity|].
        rewrite map_app, Hn, length_app. simpl.
        now rewrite repeat_app.
    - rewrite Hp0. repeat split; try tauto; try contradiction.
      exists []. now rewrite app_nil_r. }
  destruct Hloop as (t1 & w1 & E1 & Hk & Hq & Hl & Hp & Hdone & _ & new & Hc & Hn).
  rewrite (bind_ok _ _ _ _ _ E1), bind_time. unfold bind, json_dump, ret.
  eexists _, _, new. split; [reflexivity|]. simpl.
  split; [exact Hk|]. split; [exact Hp|]. split; [exact Hc|].
  split; [exact Hn|].
  intros aid a0 Ha0.
  destruct (Hdone aid (dict_get_some_in _ _ _ Ha0))
    as (b0 & a' & p & H1 & H2 & H3 & H4).
  rewrite Ha0 in H1. injection H1 as <-.
  exists a', p. split; [exact H2|]. split; [exact H3 | exact H4].
Qed.

(** [run_debate] returns exactly when both ids are registered; otherwise
    it raises [KeyError] for the first of the two that is not, before any
    backend call. *)
Theorem run_debate_registered :
  forall (t : DebateTournament (T:=T)) (a b : string) (w : World),
    ((exists d t' w', run_debate chat clock t a b w = Ok ((d, t'), w')) <->
     In a (keys (agents t)) /\ In b (keys (agents t))) /\
    (~ In a (keys (agents t)) ->
     run_debate chat clock t a b w = Raise (KeyError a)) /\
    (In a (keys (agents t)) -> ~ In b (keys (agents t)) ->
     run_debate chat clock t a b w = Raise (KeyError b)).
Proof.
  intros t a b w.
  assert (Ha : ~ In a (keys (agents t)) ->
               run_debate chat clock t a b w = Raise (KeyError a)).
  { intros H. apply dict_get_none in H.
    unfold run_debate, bind, lookup. now rewrite H. }
  assert (Hb : In a (keys (agents t)) -> ~ In b (keys (agents t)) ->
               run_debate chat clock t a b w = Raise (KeyError b)).
  { intros H1 H2. destruct (dict_get_in _ _ H1) as [x Hx].
    apply dict_get_none in H2.
    unfold run_debate. rewrite (bind_lookup _ _ _ _ _ Hx).
    unfold bind, lookup. now rewrite H2. }
  split; [|split; assumption].
  split.
  - intros (d & t' & w' & E).
    destruct (in_dec string_dec a (keys (agents t))) as [Ia | Na].
    + destruct (in_dec string_dec b (keys (agents t))) as [Ib | Nb]; auto.
      rewrite (Hb Ia Nb) in E. discriminate.
    + rewrite (Ha Na) in E. discriminate.
  - intros [Ia Ib].
    destruct (run_debate_ok chat clock t a b w Ia Ib) as (d & t' & w' & E & _).
    eauto.
Qed.

Lemma with_agent_generate_eq (t : DebateTournament (T:=T)) aid a prompt w :
  dict_get (agents t) aid = Some a ->
  with_agent t aid (fun x => generate_response chat clock x prompt true) w =
  let messages := context_prefix a ++ [mkMessage "user" prompt] in
  let response := chat (length (chat_log w)) (model a) messages in
  let elapsed := num_sub (clock (S (ticks w))) (clock (ticks w)) in
  Ok (response,
      set_agents t
        (dict_set (agents t) aid
           (mkAgent (agent_id a) (model a)
              (conversation_history a ++
                 [mkMessage "user" prompt; mkMessage "assistant" response])
              (initial_position a) (position_label a)
              (track_performance (performance_metrics a) elapsed))),
      mkWorld (S (S (ticks w))) (chat_log w ++ [(model a, messages)])
              (files w)).
Proof.
  intros Ha. cbv zeta. rewrite <- get_context_prefix.
  apply (with_agent_eq t aid a _ w _ _ _ Ha).
  now rewrite generate_response_eq.
Qed.

Lemma context_prefix_extend (a : DebateAgent (T:=T)) h
      (m : Metrics (T:=T)) :
  context_prefix
    (mkAgent (agent_id a) (model a) (conversation_history a ++ h)
             (initial_position a) (position_label a) m) =
  context_prefix a ++ h.
Proof. unfold context_prefix. simpl. now rewrite app_assoc. Qed.

(** The protocol of one debate between two different registered agents:
    four backend calls, A, B, A, B.  Each agent is first asked to rebut the
    opponent's initial position, then to answer the opponent's rebuttal;
    each request carries the agent's own stance and history, extended by its
    own first exchange in the second round, and nothing of the opponent's
    history.  The record keeps the four answers by participant; both
    histories gain four turns and no other agent changes. *)
Theorem run_debate_protocol :
  forall (t : DebateTournament (T:=T)) (a b : string) (A B : DebateAgent)
         (w : World),
    a <> b ->
    dict_get (agents t) a = Some A ->
    dict_get (agents t) b = Some B ->
    let label := t_position_label t in
    let pa := rebuttal_prompt label (initial_position B) in
    let pb := rebuttal_prompt label (initial_position A) in
    exists r1 r2 r3 r4 d t' w' A' B',
      run_debate chat clock t a b w = Ok ((d, t'), w') /\
      chat_log w' =
        chat_log w ++
        [(model A, context_prefix A ++ [mkMessage "user" pa]);
         (model B, context_prefix B ++ [mkMessage "user" pb]);
         (model A, context_prefix A ++
                   [mkMessage "user" pa; mkMessage "assistant" r1;
                    mkMessage "user" (counter_prompt label r2)]);
         (model B, context_prefix B ++
                   [mkMessage "user" pb; mkMessage "assistant" r2;
                    mkMessage "user" (counter_prompt label r1)])] /\
      participants d = (a, b) /\
      rounds d = [round_dict "first_rebuttal" a r1 b r2;
                  round_dict "counter_rebuttal" a r3 b r4] /\
      keys (timing d) = ["duration"] /\
      dict_get (agents t') a = Some A' /\
      dict_get (agents t') b = Some B' /\
      conversation_history A' =
        conversation_history A ++
        [mkMessage "user" pa; mkMessage "assistant" r1;
         mkMessage "user" (counter_prompt label r2); mkMessage "assistant" r3] /\
      conversation_history B' =
        conversation_history B ++
        [mkMessage "user" pb; mkMessage "assistant" r2;
         mkMessage "user" (counter_prompt label r1); mkMessage "assistant" r4] /\
      initial_position A' = initial_position A /\
      initial_position B' = initial_position B /\
      (forall x, x <> a -> x <> b ->
                 dict_get (agents t') x = dict_get (agents t) x) /\
      positions t' = positions t /\ debates t' = debates t /\
      votes t' = votes t.
Proof.
  intros t a b A B w Hab HA HB label pa pb.
  assert (Hba : b <> a) by congruence.
  unfold run_debate.
  rewrite (bind_lookup _ _ _ _ _ HA), (bind_lookup _ _ _ _ _ HB), bind_time.
  fold label. fold pa. fold pb.
  rewrite (bind_ok _ _ _ _ _ (with_agent_generate_eq t a A pa _ HA)).
  cbv zeta.
  match goal with
  | |- context [bind (with_agent ?t1 b _) _ ?w1] =>
      assert (HB1 : dict_get (agents t1) b = Some B)
        by (simpl; rewrite dict_get_set_other by assumption; exact HB);
      rewrite (bind_ok _ _ _ _ _ (with_agent_generate_eq t1 b B pb w1 HB1))
  end.
  cbv zeta.
  match goal with
  | |- context [bind (with_agent ?t2 a
                             (fun x => generate_response _ _ x ?p _)) _ ?w2] =>
      eassert (HA2 : dict_get (agents t2) a = Some _)
        by (simpl; rewrite dict_get_set_other by assumption;
            apply dict_get_set_same);
      rewrite (bind_ok _ _ _ _ _ (with_agent_generate_eq t2 a _ p w2 HA2))
  end.
  cbv zeta.
  match goal with
  | |- context [bind (with_agent ?t3 b
                             (fun x => generate_response _ _ x ?p _)) _ ?w3] =>
      eassert (HB3 : dict_get (agents t3) b = Some _)
        by (simpl; rewrite dict_get_set_other by assumption;
            apply dict_get_set_same);
      rewrite (bind_ok _ _ _ _ _ (with_agent_generate_eq t3 b _ p w3 HB3))
  end.
  cbv zeta. rewrite bind_time. unfold ret.
  eexists _, _, _, _, _, _, _, _, _.
  split; [reflexivity|]. simpl.
  rewrite !context_prefix_extend, <- !app_assoc. simpl.
  split; [reflexivity|]. split; [reflexivity|]. split; [reflexivity|].
  split; [reflexivity|].
  split.
  { rewrite dict_get_set_other by assumption. apply dict_get_set_same. }
  split; [apply dict_get_set_same|].
  simpl. rewrite <- ?app_assoc. simpl.
  split; [reflexivity|]. split; [reflexivity|].
  split; [reflexivity|]. split; [reflexivity|].
  split; [|repeat split].
  intros x Hxa Hxb.
  rewrite !dict_get_set_other by congruence. reflexivity.
Qed.

(** Every vote recorded by the voting phase names one of the two
    participants of its debate as winner, comes from a registered agent
    that is not a participant, and is the choice parsed from the backend's
    answer to a vote request. *)
Theorem votes_are_well_formed :
  forall (n : nat) models topic label out (t : DebateTournament (T:=T)) w,
    DebateTournament_init (Z.of_nat n) models topic label out = Ok t ->
    exists t' w',
      run_phases chat clock t w = Ok (t', w') /\
      forall key vd v,
        dict_get (votes t') key = Some vd ->
        In v (vd_votes vd) ->
        let ps := vd_participants vd in
        In ps (map participants (debates t')) /\
        (winner_id v = fst ps \/ winner_id v = snd ps) /\
        In (voter_id v) (keys (agents t')) /\
        voter_id v <> fst ps /\ voter_id v <> snd ps /\
        vote v = parse_vote (reasoning v) /\
        winner_id v = winner_of ps (vote v) /\
        exists k mdl msgs,
          vote_request label msgs /\ reasoning v = chat k mdl msgs.
Proof.
  intros n models topic label out t w Hinit.
  apply (DebateTournament_init_ok chat clock) in Hinit
    as (Hk & Hnd & _ & _ & Hd0 & Hv0 & _ & Hlab & _).
  destruct (run_phases_ok chat clock t w Hd0 Hv0)
    as (t' & w' & E & K & L & _ & _ & _ & _ & Hm & Hf).
  exists t', w'. split; [exact E|].
  intros key vd v Hg Hv ps.
  apply dict_get_In in Hg.
  destruct (Forall2_in_r _ _ _ _ Hf Hg) as ([i d] & Hid & _ & Hp & Hvo & Hr).
  simpl in Hp, Hvo, Hr.
  assert (Hd : In d (debates t')).
  { rewrite <- (enumerate_snd (debates t')). apply in_map_iff.
    exists (i, d). auto. }
  assert (Hin : In (pair_list (participants d))
                   (combinations (keys (agents t')) 2)).
  { rewrite K, <- Hm. apply in_map_iff. eauto. }
  rewrite <- K in Hnd.
  destruct (voters_of_spec t' d Hnd Hin) as (_ & _ & Hiff).
  assert (Hvoter : In (voter_id v) (voters_of t' d)).
  { rewrite <- Hvo. apply in_map_iff. eauto. }
  apply Hiff in Hvoter as (V1 & V2 & V3).
  eapply Forall_forall in Hr; eauto.
  destruct Hr as (k & mdl & msgs & Hq & Ev).
  subst ps. rewrite Hp.
  split; [apply in_map_iff; eauto|].
  split.
  { rewrite Ev. simpl. unfold winner_of.
    destruct (String.eqb _ "A"); auto. }
  split; [exact V1|]. split; [exact V2|]. split; [exact V3|].
  split; [rewrite Ev; reflexivity|].
  split; [rewrite Ev; reflexivity|].
  exists k, mdl, msgs. rewrite L, Hlab in Hq. split; [exact Hq|].
  rewrite Ev. reflexivity.
Qed.

(** *** Counting backend calls *)

Lemma bind_inv {A B} (m : M (T:=T) A) (f : A -> M B) w b w' :
  bind m f w = Ok (b, w') ->
  exists a w1, m w = Ok (a, w1) /\ f a w1 = Ok (b, w').
Proof.
  unfold bind. destruct (m w) as [[a w1]|]; [eauto | discriminate].
Qed.

Lemma for_each_count {A S} (P : S -> Prop) (c : A -> nat)
      (body : A -> S -> M (T:=T) S) (l : list A) :
  (forall x s w s' w',
      In x l -> P s -> body x s w = Ok (s', w') ->
      P s' /\ length (chat_log w') = length (chat_log w) + c x) ->
  forall s w s' w',
    P s -> for_each l body s w = Ok (s', w') ->
    P s' /\ length (chat_log w') = length (chat_log w) + list_sum (map c l).
Proof.
  induction l as [|x l IH]; intros Hb s w s' w' Hp E; simpl in E.
  - unfold ret in E. injection E as <- <-. simpl. split; [auto | lia].
  - apply bind_inv in E as (s1 & w1 & E1 & E2).
    destruct (Hb x s w s1 w1 (or_introl eq_refl) Hp E1) as [P1 L1].
    assert (Hb' : forall y s w s' w',
               In y l -> P s -> body y s w = Ok (s', w') ->
               P s' /\ length (chat_log w') = length (chat_log w) + c y).
    { intros y ? ? ? ? Hy. apply Hb. now right. }
    destruct (IH Hb' s1 w1 s' w' P1 E2) as [P2 L2].
    split; [exact P2|]. simpl. lia.
Qed.

Lemma with_agent_calls {A} (t t' : DebateTournament (T:=T)) aid
      (f : DebateAgent -> M (A * DebateAgent)) w r w' :
  (forall a r a' w', f a w = Ok ((r, a'), w') ->
                     length (chat_log w') = S (length (chat_log w))) ->
  with_agent t aid f w = Ok ((r, t'), w') ->
  keys (agents t') = keys (agents t) /\
  length (chat_log w') = S (length (chat_log w)).
Proof.
  intros Hf. unfold with_agent.
  destruct (dict_get (agents t) aid) as [a|] eqn:Ha; [|discriminate].
  intros E. apply bind_inv in E as ([r1 a1] & w1 & E1 & E2).
  unfold ret in E2. injection E2 as <- <- <-. simpl. split.
  - apply keys_set_present. eapply dict_get_some_in; eauto.
  - eapply Hf; eauto.
Qed.

Lemma generate_response_calls (a a' : DebateAgent (T:=T)) p h w r w' :
  generate_response chat clock a p h w = Ok ((r, a'), w') ->
  length (chat_log w') = S (length (chat_log w)).
Proof.
  rewrite generate_response_eq. cbv zeta. intros E. injection E as <- <- <-.
  simpl. rewrite length_app. simpl. lia.
Qed.

Lemma set_initial_position_calls (a a' : DebateAgent (T:=T)) q l w r w' :
  set_initial_position chat clock a q l w = Ok ((r, a'), w') ->
  length (chat_log w') = S (length (chat_log w)).
Proof.
  rewrite set_initial_position_eq. cbv zeta. intros E. injection E as <- <- <-.
  simpl. rewrite length_app. simpl. lia.
Qed.

Lemma lookup_inv {V} (d : dict V) k v (w w' : World (T:=T)) :
  lookup d k w = Ok (v, w') -> w' = w.
Proof.
  unfold lookup. destruct (dict_get d k); [|discriminate].
  unfold ret. now intros E; injection E as <- <-.
Qed.

Lemma index_inv {V} (l : list V) i v (w w' : World (T:=T)) :
  index l i w = Ok (v, w') -> w' = w.
Proof.
  unfold index. destruct (nth_error l i); [|discriminate].
  unfold ret. now intros E; injection E as <- <-.
Qed.

Lemma list_sum_const {A} (l : list A) k :
  list_sum (map (fun _ => k) l) = k * length l.
Proof. induction l; simpl; lia. Qed.

Lemma phase_1_calls (t t' : DebateTournament (T:=T)) w w' :
  run_phase_1_positions chat clock t w = Ok (t', w') ->
  length (chat_log w') = length (chat_log w) + length (keys (agents t)).
Proof.
  unfold run_phase_1_positions. intros E.
  rewrite bind_time in E. apply bind_inv in E as (t1 & w1 & E1 & E).
  rewrite bind_time in E. unfold bind, json_dump, ret in E.
  injection E as <- <-. simpl.
  apply (for_each_count (fun s => keys (agents s) = keys (agents t))
                        (fun _ => 1)) in E1 as [_ L1]; auto.
  - rewrite L1, list_sum_const. simpl. lia.
  - intros x s ws s' ws' _ Hk Eb.
    apply bind_inv in Eb as ([r s1] & w2 & Ea & Eb).
    apply with_agent_calls in Ea as [K1 L1];
      [|intros; eapply set_initial_position_calls; eauto].
    apply bind_inv in Eb as (a & w3 & El & Eb).
    apply lookup_inv in El. subst w3. rewrite bind_time in Eb.
    unfold ret in Eb. injection Eb as <- <-. simpl.
    split; [congruence | lia].
Qed.

Lemma run_debate_calls (t t' : DebateTournament (T:=T)) a b d w w' :
  run_debate chat clock t a b w = Ok ((d, t'), w') ->
  keys (agents t') = keys (agents t) /\
  length (chat_log w') = length (chat_log w) + 4.
Proof.
  unfold run_debate. intros E.
  apply bind_inv in E as (A & w1 & El & E). apply lookup_inv in El. subst w1.
  apply bind_inv in E as (B & w1 & El & E). apply lookup_inv in El. subst w1.
  rewrite bind_time in E.
  apply bind_inv in E as ([r1 t1] & w1 & E1 & E).
  apply with_agent_calls in E1 as [K1 L1];
    [|intros; eapply generate_response_calls; eauto].
  apply bind_inv in E as ([r2 t2] & w2 & E2 & E).
  apply with_agent_calls in E2 as [K2 L2];
    [|intros; eapply generate_response_calls; eauto].
  apply bind_inv in E as ([r3 t3] & w3 & E3 & E).
  apply with_agent_calls in E3 as [K3 L3];
    [|intros; eapply generate_response_calls; eauto].
  apply bind_inv in E as ([r4 t4] & w4 & E4 & E).
  apply with_agent_calls in E4 as [K4 L4];
    [|intros; eapply generate_response_calls; eauto].
  rewrite bind_time in E. unfold ret in E. injection E as <- <- <-.
  simpl in *. split; [congruence | lia].
Qed.

Lemma phase_2_calls (t t' : DebateTournament (T:=T)) w w' :
  run_phase_2_debates chat clock t w = Ok (t', w') ->
  keys (agents t') = keys (agents t) /\
  length (chat_log w') =
    length (chat_log w) + 4 * length (combinations (keys (agents t)) 2).
Proof.
  unfold run_phase_2_debates. intros E.
  rewrite bind_time in E. apply bind_inv in E as (t1 & w1 & E1 & E).
  rewrite bind_time in E. unfold bind, json_dump, ret in E.
  injection E as <- <-. simpl.
  apply (for_each_count (fun s => keys (agents s) = keys (agents t))
                        (fun _ => 4)) in E1 as [K1 L1]; auto.
  - rewrite L1, list_sum_const. simpl. auto.
  - intros x s ws s' ws' _ Hk Eb.
    destruct x as [|a [|b [|? ?]]]; try discriminate.
    apply bind_inv in Eb as ([d s1] & w2 & Ea & Eb).
    apply run_debate_calls in Ea as [Ka La].
    unfold ret in Eb. injection Eb as <- <-. simpl.
    split; [congruence | lia].
Qed.

Lemma format_inv (t : DebateTournament (T:=T)) d i w s w' :
  _format_debate_for_voting t d i w = Ok (s, w') -> w' = w.
Proof.
  cbv beta delta [_format_debate_for_voting]. cbv zeta. intros E.
  apply bind_inv in E as (? & w1 & El & E). apply lookup_inv in El. subst w1.
  apply bind_inv in E as (? & w1 & El & E). apply lookup_inv in El. subst w1.
  apply bind_inv in E as (? & w1 & El & E). apply index_inv in El. subst w1.
  apply bind_inv in E as (? & w1 & El & E). apply lookup_inv in El. subst w1.
  apply bind_inv in E as (? & w1 & El & E). apply index_inv in El. subst w1.
  apply bind_inv in E as (? & w1 & El & E). apply lookup_inv in El. subst w1.
  apply bind_inv in E as (? & w1 & El & E). apply index_inv in El. subst w1.
  apply bind_inv in E as (? & w1 & El & E). apply lookup_inv in El. subst w1.
  apply bind_inv in E as (? & w1 & El & E). apply index_inv in El. subst w1.
  apply bind_inv in E as (? & w1 & El & E). apply lookup_inv in El. subst w1.
  unfold ret in E. now injection E as <- <-.
Qed.

Lemma list_sum_filter_length {A} (f : A -> bool) (l : list A) :
  list_sum (map (fun x => if f x then 1 else 0) l) = length (filter f l).
Proof. induction l as [|x l IH]; simpl; [reflexivity|]. destruct (f x); simpl; lia. Qed.

Lemma collect_votes_calls (t t' : DebateTournament (T:=T)) d i dv w w' :
  collect_votes chat clock d i t w = Ok ((dv, t'), w') ->
  keys (agents t') = keys (agents t) /\
  length (chat_log w') = length (chat_log w) + length (voters_of t d).
Proof.
  unfold collect_votes. intros E.
  apply (for_each_count
           (fun st : list Vote * DebateTournament =>
              keys (agents (snd st)) = keys (agents t))
           (fun aid => if not_in_participants aid (participants d)
                       then 1 else 0)) in E as [K1 L1]; auto.
  - simpl in K1. split; [exact K1|].
    rewrite L1, list_sum_filter_length. reflexivity.
  - intros x [dv0 s] ws [dv1 s'] ws' _ Hk Eb. simpl in *.
    destruct (not_in_participants x (participants d)).
    + apply bind_inv in Eb as (summary & w1 & Ef & Eb).
      apply format_inv in Ef. subst w1.
      apply bind_inv in Eb as ([r s1] & w2 & Ea & Eb).
      apply with_agent_calls in Ea as [Ka La];
        [|intros; eapply generate_response_calls; eauto].
      unfold ret in Eb. injection Eb as <- <- <-.
      split; [congruence | lia].
    + unfold ret in Eb. injection Eb as <- <- <-. split; [auto | lia].
Qed.

Lemma phase_3_calls (t t' : DebateTournament (T:=T)) w w' :
  run_phase_3_voting chat clock t w = Ok (t', w') ->
  length (chat_log w') =
    length (chat_log w) +
    list_sum (map (fun d => length (voters_of t d)) (debates t)).
Proof.
  unfold run_phase_3_voting. intros E.
  rewrite bind_time in E. apply bind_inv in E as (t1 & w1 & E1 & E).
  rewrite bind_time in E. unfold bind, json_dump, ret in E.
  injection E as <- <-. simpl.
  apply (for_each_count (fun s => keys (agents s) = keys (agents t))
                        (fun ix => length (voters_of t (snd ix))))
    in E1 as [K1 L1]; auto.
  - rewrite L1. simpl. rewrite <- (enumerate_snd (debates t)) at 2.
    now rewrite map_map.
  - intros [i d] s ws s' ws' _ Hk Eb.
    apply bind_inv in Eb as ([dv s1] & w2 & Ea & Eb).
    apply collect_votes_calls in Ea as [Ka La].
    unfold ret in Eb. injection Eb as <- <-. simpl.
    split; [congruence|]. rewrite La. unfold voters_of. now rewrite Hk.
Qed.

Lemma calculate_results_calls (t : DebateTournament (T:=T)) w w' :
  calculate_results clock t w = Ok (tt, w') -> chat_log w' = chat_log w.
Proof.
  unfold calculate_results. intros E.
  apply bind_inv in E as (wc & w1 & El & E).
  assert (w1 = w).
  { unfold lift in El. destruct (count_wins _ _); [|discriminate].
    now injection El as _ <-. }
  subst w1. rewrite bind_time in E. unfold bind, json_dump in E.
  destruct (total_duration (tournament_metrics t)); [|discriminate].
  unfold ret in E. now injection E as <-.
Qed.

Lemma list_sum_all {A} (f : A -> nat) (l : list A) k :
  (forall x, In x l -> f x = k) -> list_sum (map f l) = length l * k.
Proof.
  induction l as [|x l IH]; intros H; [reflexivity|].
  simpl. rewrite H by now left. rewrite IH by (intros; apply H; now right).
  lia.
Qed.

Lemma run_phases_calls (t : DebateTournament (T:=T)) w :
  NoDup (keys (agents t)) -> debates t = [] -> votes t = [] ->
  exists t' w',
    run_phases chat clock t w = Ok (t', w') /\
    let n := length (keys (agents t)) in
    length (chat_log w') =
      length (chat_log w) + n + 4 * (n * (n - 1) / 2)
      + (n * (n - 1) / 2) * (n - 2).
Proof.
  intros Hnd Hd0 Hv0.
  destruct (run_phases_ok chat clock t w Hd0 Hv0) as (t' & w' & E & _).
  exists t', w'. split; [exact E|]. cbv zeta.
  unfold run_phases in E.
  apply bind_inv in E as (t1 & w1 & E1 & E).
  apply bind_inv in E as (t2 & w2 & E2 & E3).
  destruct (run_phase_1_positions_ok chat clock t w)
    as (t1' & w1' & E1' & K1 & D1 & _).
  rewrite E1 in E1'. injection E1' as <- <-.
  destruct (run_phase_2_debates_ok chat clock t1 w1)
    as (t2' & w2' & E2' & K2 & _ & _ & _ & _ & _ & _ & _ & ds & D2 & M2 & _).
  rewrite E2 in E2'. injection E2' as <- <-.
  rewrite D1, Hd0 in D2. simpl in D2.
  apply phase_1_calls in E1. apply phase_2_calls in E2 as [_ L2].
  apply phase_3_calls in E3.
  assert (Hall : forall d, In d (debates t2) ->
                           length (voters_of t2 d) =
                           length (keys (agents t)) - 2).
  { intros d Hd.
    assert (Hin : In (pair_list (participants d))
                     (combinations (keys (agents t2)) 2)).
    { rewrite K2, <- M2, <- D2. apply in_map_iff. eauto. }
    assert (Hnd2 : NoDup (keys (agents t2))) by (rewrite K2, K1; exact Hnd).
    destruct (voters_of_spec t2 d Hnd2 Hin) as (Hl & _).
    now rewrite Hl, K2, K1. }
  rewrite (list_sum_all _ _ _ Hall) in E3.
  assert (Hld : length (debates t2) =
                length (keys (agents t)) * (length (keys (agents t)) - 1) / 2).
  { rewrite <- combinations_2_length, <- K1, <- M2, length_map, D2.
    reflexivity. }
  rewrite E3, L2, E1, K1, combinations_2_length, Hld. lia.
Qed.

Lemma run_tournament_calls (t t' : DebateTournament (T:=T)) w w' :
  NoDup (keys (agents t)) -> debates t = [] -> votes t = [] ->
  run_tournament chat clock t w = Ok (t', w') ->
  let n := length (keys (agents t)) in
  length (chat_log w') =
    length (chat_log w) + n + 4 * (n * (n - 1) / 2)
    + (n * (n - 1) / 2) * (n - 2).
Proof.
  intros Hnd Hd0 Hv0 Erun.
  unfold run_tournament in Erun. rewrite bind_time in Erun.
  cbv zeta in Erun. rewrite run_phases_bind in Erun.
  apply bind_inv in Erun as (t3 & w3 & E3 & Erun).
  match type of E3 with
  | run_phases _ _ ?t0 ?w0 = _ =>
      destruct (run_phases_calls t0 w0 Hnd Hd0 Hv0) as (t3' & w3' & E3' & L)
  end.
  rewrite E3 in E3'. injection E3' as <- <-.
  cbv zeta in L. cbn [agents set_metrics chat_log] in L.
  rewrite bind_time in Erun.
  apply bind_inv in Erun as (dur & w4 & Ed & Erun).
  apply bind_inv in Erun as ([] & w5 & Ec & Er).
  unfold ret in Er. injection Er as _ <-.
  apply calculate_results_calls in Ec.
  assert (Hw4 : chat_log w4 = chat_log w3).
  { cbn [end_time start_time tournament_metrics set_metrics] in Ed.
    destruct (start_time (tournament_metrics t3)); [|discriminate].
    unfold ret in Ed. now injection Ed as _ <-. }
  cbv zeta. rewrite Ec, Hw4, L. reflexivity.
Qed.

(** The cost of a tournament of n agents in backend calls: one per
    position, four per debate and n - 2 votes per debate, that is
    n + 4 n(n-1)/2 + (n(n-1)/2)(n - 2) calls for the three phases;
    aggregation makes none, so a tournament that returns has made exactly
    that many. *)
Theorem backend_call_count :
  forall (n : nat) models topic label out (t : DebateTournament (T:=T)) w,
    DebateTournament_init (Z.of_nat n) models topic label out = Ok t ->
    let calls := n + 4 * (n * (n - 1) / 2) + (n * (n - 1) / 2) * (n - 2) in
    (exists t' w',
        run_phases chat clock t w = Ok (t', w') /\
        length (chat_log w') = length (chat_log w) + calls) /\
    (forall t' w',
        run_tournament chat clock t w = Ok (t', w') ->
        length (chat_log w') = length (chat_log w) + calls).
Proof.
  intros n models topic label out t w Hinit calls.
  apply (DebateTournament_init_ok chat clock) in Hinit
    as (Hk & Hnd & Hlen & _ & Hd0 & Hv0 & _).
  rewrite Nat2Z.id in Hlen. split.
  - destruct (run_phases_calls t w Hnd Hd0 Hv0) as (t' & w' & E & L).
    exists t', w'. split; [exact E|]. cbv zeta in L. rewrite Hlen in L.
    unfold calls. lia.
  - intros t' w' Erun.
    pose proof (run_tournament_calls t t' w w' Hnd Hd0 Hv0 Erun) as L.
    cbv zeta in L. rewrite Hlen in L. unfold calls. lia.
Qed.

(** *** What the results file holds *)

Lemma keys_zero_counts (ks : list string) :
  NoDup ks -> keys (zero_counts ks) = ks.
Proof.
  intros H. rewrite (zero_counts_spec ks H). unfold keys.
  rewrite map_map. simpl. apply map_id.
Qed.

Lemma agent_performance_spec (ags : dict (DebateAgent (T:=T))) :
  NoDup (keys ags) ->
  fold_left (fun d (kv : string * DebateAgent) =>
               dict_set d (fst kv) (get_metrics (snd kv))) ags [] =
  map (fun kv => (fst kv, get_metrics (snd kv))) ags.
Proof.
  assert (G : forall (l : dict (DebateAgent (T:=T))) acc,
             NoDup (keys acc ++ keys l) ->
             fold_left (fun d (kv : string * DebateAgent) =>
                          dict_set d (fst kv) (get_metrics (snd kv))) l acc =
             acc ++ map (fun kv => (fst kv, get_metrics (snd kv))) l).
  { induction l as [|[k a] l IH]; intros acc Hnd; simpl.
    - now rewrite app_nil_r.
    - simpl in Hnd.
      assert (Hk : ~ In k (keys acc)).
      { intros Hin. apply NoDup_remove_2 in Hnd. apply Hnd.
        apply in_or_app. now left. }
      rewrite IH.
      + rewrite dict_set_absent by assumption. now rewrite <- app_assoc.
      + rewrite dict_set_absent by assumption.
        unfold keys in *. rewrite map_app, <- app_assoc. exact Hnd. }
  intros H. now rewrite G.
Qed.

(** The results written by [calculate_results]: the win counts list the
    registered agents in registration order; the rankings are the same
    entries sorted by wins in descending order, agents with equal wins
    staying in registration order; the performance section holds the
    metrics snapshot of each agent, in registration order. *)
Theorem results_rankings :
  forall (t : DebateTournament (T:=T)) (w w' : World),
    calculate_results clock t w = Ok (tt, w') ->
    NoDup (keys (agents t)) ->
    exists r,
      tournament_results t w' = Some r /\
      keys (win_counts r) = keys (agents t) /\
      Permutation (rankings r) (win_counts r) /\
      StronglySorted (fun a b => snd b <= snd a) (rankings r) /\
      (forall c,
          filter (fun kv => snd kv =? c) (rankings r) =
          filter (fun kv => snd kv =? c) (win_counts r)) /\
      agent_performance r =
        map (fun kv => (fst kv, get_metrics (snd kv))) (agents t) /\
      ti_num_agents (tournament_info r) = num_agents t /\
      ti_duration (tournament_info r) = tournament_metrics t.
Proof.
  intros t w w' E Hnd.
  apply calculate_results_inv in E as (wc & Ec & Er).
  eexists. split; [exact Er|]. simpl.
  apply count_wins_sum in Ec as [_ Hk].
  split; [rewrite Hk; now apply keys_zero_counts|].
  split; [apply sorted_desc_perm|].
  split; [apply sorted_desc_sorted|].
  split; [intros c; apply sorted_desc_stable|].
  split; [now apply agent_performance_spec | split; reflexivity].
Qed.

(** *** Aggregation outside [run_tournament] *)

Lemma for_each_preserves {A S} (P : S -> Prop)
      (body : A -> S -> M (T:=T) S) (l : list A) :
  (forall x s w s' w', P s -> body x s w = Ok (s', w') -> P s') ->
  forall s w s' w', P s -> for_each l body s w = Ok (s', w') -> P s'.
Proof.
  intros Hb. induction l as [|x l IH]; intros s w s' w' Hp E; simpl in E.
  - unfold ret in E. now injection E as <- _.
  - apply bind_inv in E as (s1 & w1 & E1 & E2). eauto.
Qed.

Lemma with_agent_metrics {A} (t t' : DebateTournament (T:=T)) aid
      (f : DebateAgent -> M (A * DebateAgent)) w r w' :
  with_agent t aid f w = Ok ((r, t'), w') ->
  tournament_metrics t' = tournament_metrics t.
Proof.
  unfold with_agent. destruct (dict_get (agents t) aid); [|discriminate].
  intros E. apply bind_inv in E as ([r1 a1] & w1 & _ & E).
  unfold ret in E. now injection E as _ <- _.
Qed.

Lemma phase_1_total_duration (t t' : DebateTournament (T:=T)) w w' :
  run_phase_1_positions chat clock t w = Ok (t', w') ->
  total_duration (tournament_metrics t') = total_duration (tournament_metrics t).
Proof.
  unfold run_phase_1_positions. intros E.
  rewrite bind_time in E. apply bind_inv in E as (t1 & w1 & E1 & E).
  rewrite bind_time in E. unfold bind, json_dump, ret in E.
  injection E as <- _. simpl.
  apply (for_each_preserves
           (fun s => tournament_metrics s = tournament_metrics t)) in E1;
    [now rewrite E1 | | reflexivity].
  intros x s ws s' ws' Hp Eb.
  apply bind_inv in Eb as ([r s1] & w2 & Ea & Eb).
  apply with_agent_metrics in Ea.
  apply bind_inv in Eb as (a & w3 & _ & Eb).
  rewrite bind_time in Eb. unfold ret in Eb. injection Eb as <- _.
  simpl. congruence.
Qed.

Lemma run_debate_metrics (t t' : DebateTournament (T:=T)) a b d w w' :
  run_debate chat clock t a b w = Ok ((d, t'), w') ->
  tournament_metrics t' = tournament_metrics t.
Proof.
  unfold run_debate. intros E.
  apply bind_inv in E as (A & w1 & _ & E).
  apply bind_inv in E as (B & w2 & _ & E).
  rewrite bind_time in E.
  apply bind_inv in E as ([r1 t1] & w3 & E1 & E).
  apply with_agent_metrics in E1.
  apply bind_inv in E as ([r2 t2] & w4 & E2 & E).
  apply with_agent_metrics in E2.
  apply bind_inv in E as ([r3 t3] & w5 & E3 & E).
  apply with_agent_metrics in E3.
  apply bind_inv in E as ([r4 t4] & w6 & E4 & E).
  apply with_agent_metrics in E4.
  rewrite bind_time in E. unfold ret in E. injection E as _ <- _.
  congruence.
Qed.

Lemma phase_2_total_duration (t t' : DebateTournament (T:=T)) w w' :
  run_phase_2_debates chat clock t w = Ok (t', w') ->
  total_duration (tournament_metrics t') = total_duration (tournament_metrics t).
Proof.
  unfold run_phase_2_debates. intros E.
  rewrite bind_time in E. apply bind_inv in E as (t1 & w1 & E1 & E).
  rewrite bind_time in E. unfold bind, json_dump, ret in E.
  injection E as <- _. simpl.
  apply (for_each_preserves
           (fun s => tournament_metrics s = tournament_metrics t)) in E1;
    [now rewrite E1 | | reflexivity].
  intros x s ws s' ws' Hp Eb.
  destruct x as [|a [|b [|? ?]]]; try discriminate.
  apply bind_inv in Eb as ([d s1] & w2 & Ea & Eb).
  apply run_debate_metrics in Ea.
  unfold ret in Eb. injection Eb as <- _. simpl. congruence.
Qed.

Lemma collect_votes_metrics (t t' : DebateTournament (T:=T)) d i dv w w' :
  collect_votes chat clock d i t w = Ok ((dv, t'), w') ->
  tournament_metrics t' = tournament_metrics t.
Proof.
  unfold collect_votes. intros E.
  apply (for_each_preserves
           (fun st : list Vote * DebateTournament =>
              tournament_metrics (snd st) = tournament_metrics t)) in E;
    [exact E | | reflexivity].
  intros x [dv0 s] ws [dv1 s'] ws' Hp Eb. simpl in *.
  destruct (not_in_participants x (participants d)).
  - apply bind_inv in Eb as (summary & w1 & _ & Eb).
    apply bind_inv in Eb as ([r s1] & w2 & Ea & Eb).
    apply with_agent_metrics in Ea.
    unfold ret in Eb. injection Eb as _ <- _. congruence.
  - unfold ret in Eb. injection Eb as _ <- _. exact Hp.
Qed.

Lemma phase_3_total_duration (t t' : DebateTournament (T:=T)) w w' :
  run_phase_3_voting chat clock t w = Ok (t', w') ->
  total_duration (tournament_metrics t') = total_duration (tournament_metrics t).
Proof.
  unfold run_phase_3_voting. intros E.
  rewrite bind_time in E. apply bind_inv in E as (t1 & w1 & E1 & E).
  rewrite bind_time in E. unfold bind, json_dump, ret in E.
  injection E as <- _. simpl.
  apply (for_each_preserves
           (fun s => tournament_metrics s = tournament_metrics t)) in E1;
    [now rewrite E1 | | reflexivity].
  intros [i d] s ws s' ws' Hp Eb.
  apply bind_inv in Eb as ([dv s1] & w2 & Ea & Eb).
  apply collect_votes_metrics in Ea.
  unfold ret in Eb. injection Eb as <- _. simpl. congruence.
Qed.

(** Only [run_tournament] sets the total duration.  After the three
    phases have been run on their own, for any agent count other than 2,
    [calculate_results] aggregates and then fails with [TypeError] where it
    formats the missing duration; with 2 agents the [ValueError] of the
    empty tally comes first. *)
Theorem calculate_results_after_phases_alone :
  forall (n : nat) models topic label out (t : DebateTournament (T:=T)) w,
    DebateTournament_init (Z.of_nat n) models topic label out = Ok t ->
    exists t' w',
      run_phases chat clock t w = Ok (t', w') /\
      total_duration (tournament_metrics t') = None /\
      (n <> 2 -> forall wa, calculate_results clock t' wa = Raise TypeError) /\
      (n = 2 -> forall wa,
          calculate_results clock t' wa =
          Raise (ValueError "max() arg is an empty sequence")).
Proof.
  intros n models topic label out t w Hinit.
  apply (DebateTournament_init_ok chat clock) in Hinit
    as (Hk & Hnd & Hlen & _ & Hd0 & Hv0 & _ & _ & _ & Hm).
  rewrite Nat2Z.id in Hlen.
  destruct (run_phases_ok chat clock t w Hd0 Hv0)
    as (t' & w' & E & K & _ & _ & _ & _ & _ & Hmap & Hf).
  exists t', w'. split; [exact E|].
  assert (Hdur : total_duration (tournament_metrics t') = None).
  { unfold run_phases in E.
    apply bind_inv in E as (t1 & w1 & E1 & E).
    apply bind_inv in E as (t2 & w2 & E2 & E3).
    apply phase_1_total_duration in E1. apply phase_2_total_duration in E2.
    apply phase_3_total_duration in E3.
    rewrite E3, E2, E1, Hm. reflexivity. }
  split; [exact Hdur|].
  assert (Hnd' : NoDup (keys (agents t'))) by now rewrite K.
  assert (Hlen' : length (keys (agents t')) = n) by now rewrite K.
  rewrite <- K in Hmap.
  destruct (aggregation_by_size chat t' n Hnd' Hlen' Hmap Hf) as [Hok Hbad].
  split.
  - intros Hne wa. destruct (Hok Hne) as [wc Hwc].
    unfold calculate_results, bind, lift. fold (winner_lists t').
    rewrite Hwc. unfold time_time, json_dump. now rewrite Hdur.
  - intros -> wa. apply calculate_results_raise.
    now rewrite (Hbad eq_refl).
Qed.

(** *** The script *)

Lemma run_tournament_returns (n : nat) models topic label out
      (t : DebateTournament (T:=T)) w :
  DebateTournament_init (Z.of_nat n) models topic label out = Ok t ->
  n <> 2 ->
  exists t' w', run_tournament chat clock t w = Ok (t', w').
Proof.
  intros Hinit Hne.
  apply (DebateTournament_init_ok chat clock) in Hinit
    as (Hk & Hnd & Hlen & _ & Hd0 & Hv0 & _).
  rewrite Nat2Z.id in Hlen.
  destruct (run_tournament_eq chat clock t w Hd0 Hv0)
    as (t0 & t3 & w3 & t5 & K0 & E3 & K3 & _ & Hm3 & Hf3 & A5 & V5 & D5 & _
        & [dur Hdur] & Erun).
  assert (Hnd3 : NoDup (keys (agents t3))) by now rewrite K3.
  assert (Hlen3 : length (keys (agents t3)) = n) by now rewrite K3.
  rewrite <- K3 in Hm3.
  destruct (aggregation_by_size chat t3 n Hnd3 Hlen3 Hm3 Hf3) as [Hok3 _].
  destruct (Hok3 Hne) as [wc Hwc].
  rewrite Erun. unfold bind.
  destruct (calculate_results_ok clock t5
              (mkWorld (S (ticks w3)) (chat_log w3) (files w3)) wc dur)
    as (w5 & -> & _); auto.
  - now rewrite (winner_lists_same t3 t5 V5), A5.
  - unfold ret. eauto.
Qed.

(** The script of main.py, for any backend and clock: the tournament of
    five agents on the ideal society is built and run to the end; it makes
    75 backend calls, holds 10 debates and saves results whose win counts
    sum to 10. *)
Theorem main_runs :
  forall w : World (T:=T),
  exists t' w' r,
    main chat clock w = Ok (t', w') /\
    length (keys (agents t')) = 5 /\
    length (debates t') = 10 /\
    tournament_results t' w' = Some r /\
    sum_nat (values (win_counts r)) = 10 /\
    length (chat_log w') = length (chat_log w) + 75.
Proof.
  intros w. unfold main.
  destruct (DebateTournament_init_default (T:=T) 5
              (Some "Describe your ideal society in 200 words.")
              "ideal society" "debate_results") as [t Hinit].
  unfold bind at 1. rewrite Hinit. unfold lift.
  change 5%Z with (Z.of_nat 5) in Hinit.
  destruct (run_tournament_returns 5 _ _ _ _ t w Hinit ltac:(discriminate))
    as (t' & w' & Erun).
  destruct (run_tournament_win_counts_sum chat clock 5 _ _ _ _ t w t' w'
              Hinit Erun) as (r & Hr & Hd & Hs).
  pose proof Hinit as Hi.
  apply (DebateTournament_init_ok chat clock) in Hi
    as (Hk & Hnd & Hlen & _ & Hd0 & Hv0 & _).
  rewrite Nat2Z.id in Hlen.
  pose proof (run_tournament_calls t t' w w' Hnd Hd0 Hv0 Erun) as L.
  cbv zeta in L. rewrite Hlen in L.
  change (5 * (5 - 1) / 2) with 10 in L, Hd.
  destruct (run_tournament_eq chat clock t w Hd0 Hv0)
    as (t0 & t3 & w3 & t5 & _ & _ & K3 & _ & _ & _ & A5 & _ & _ & _ & _ & Er5).
  assert (Ht' : t' = t5).
  { rewrite Er5 in Erun. unfold bind in Erun.
    destruct (calculate_results clock t5 _) as [[[] w5]|]; [|discriminate].
    unfold ret in Erun. now injection Erun as <-. }
  exists t', w', r. split; [exact Erun|].
  split; [rewrite Ht', A5, K3; exact Hlen|].
  split; [exact Hd|]. split; [exact Hr|].
  split; [rewrite Hs; exact Hd | rewrite L; lia].
Qed.

(** *** Voting before the positions exist *)

Lemma participants_of_pair_list (d : Debate (T:=T)) a b :
  pair_list (participants d) = [a; b] -> participants d = (a, b).
Proof.
  unfold pair_list. destruct (participants d) as [x y]. simpl.
  intros E. now injection E as -> ->.
Qed.

Lemma collect_votes_no_positions (t : DebateTournament (T:=T)) d i w rest :
  keys (agents t) = "agent_0" :: "agent_1" :: "agent_2" :: rest ->
  participants d = ("agent_0", "agent_1") ->
  positions t = [] ->
  collect_votes chat clock d i t w = Raise (KeyError "agent_0").
Proof.
  intros Hk Hp Hpos. unfold collect_votes. rewrite Hk, Hp.
  cbn [for_each].
  change (not_in_participants "agent_0" ("agent_0", "agent_1")) with false.
  change (not_in_participants "agent_1" ("agent_0", "agent_1")) with false.
  change (not_in_participants "agent_2" ("agent_0", "agent_1")) with true.
  cbv iota. unfold bind at 1. unfold ret at 1.
  unfold bind at 1. unfold ret at 1.
  unfold bind at 1. unfold bind at 1.
  cbv beta delta [_format_debate_for_voting]. cbv zeta.
  rewrite Hp, Hpos. reflexivity.
Qed.

Lemma collect_votes_two_agents (t : DebateTournament (T:=T)) d i w :
  keys (agents t) = ["agent_0"; "agent_1"] ->
  participants d = ("agent_0", "agent_1") ->
  collect_votes chat clock d i t w = Ok (([], t), w).
Proof.
  intros Hk Hp. unfold collect_votes. rewrite Hk, Hp. reflexivity.
Qed.

(** The voting phase reads the positions stored by phase 1.  On a new
    tournament whose debates have been run without phase 1, with at least
    three agents the first vote fails with [KeyError] for the first agent
    while the debate is formatted; with fewer agents nobody votes, nothing
    is formatted, and the phase returns. *)
Theorem voting_needs_positions :
  forall (n : nat) models topic label out (t : DebateTournament (T:=T)) w,
    DebateTournament_init (Z.of_nat n) models topic label out = Ok t ->
    exists t2 w2,
      run_phase_2_debates chat clock t w = Ok (t2, w2) /\
      positions t2 = [] /\
      (3 <= n ->
       run_phase_3_voting chat clock t2 w2 = Raise (KeyError "agent_0")) /\
      (n < 3 ->
       exists t3 w3, run_phase_3_voting chat clock t2 w2 = Ok (t3, w3)).
Proof.
  intros n models topic label out t w Hinit.
  apply (DebateTournament_init_ok chat clock) in Hinit
    as (Hk & Hnd & Hlen & Hp0 & Hd0 & Hv0 & _).
  rewrite Nat2Z.id in Hk, Hlen.
  destruct (run_phase_2_debates_ok chat clock t w)
    as (t2 & w2 & E & K & P & V & _ & _ & _ & _ & _ & ds & D & Hm & _).
  rewrite Hd0 in D. simpl in D. rewrite <- D in Hm. rewrite <- K in Hm.
  rewrite Hp0 in P. rewrite Hk in K.
  exists t2, w2. split; [exact E|]. split; [exact P|]. split.
  - intros Hn. destruct n as [|[|[|n]]]; try lia.
    cbn [seq map] in K.
    change (agent_name 0) with "agent_0" in K.
    change (agent_name 1) with "agent_1" in K.
    change (agent_name 2) with "agent_2" in K.
    rewrite K, combinations_2_cons in Hm. cbn [map app] in Hm.
    destruct (debates t2) as [|d0 ds'] eqn:Ed; [discriminate|].
    cbn [map] in Hm. rewrite <- !app_comm_cons in Hm.
    assert (Hd : pair_list (participants d0) = ["agent_0"; "agent_1"])
      by congruence.
    apply participants_of_pair_list in Hd.
    unfold run_phase_3_voting. rewrite bind_time. rewrite Ed.
    unfold enumerate. cbn [length seq combine for_each].
    unfold bind.
    now rewrite (collect_votes_no_positions t2 d0 0 _ _ K Hd P).
  - intros Hn. unfold run_phase_3_voting. rewrite bind_time.
    destruct n as [|[|[|n]]]; try lia.
    + cbn [seq map] in K. rewrite K in Hm. cbn in Hm.
      apply map_eq_nil in Hm. rewrite Hm.
      unfold enumerate. cbn [length seq combine for_each].
      unfold bind, ret, json_dump, time_time. eauto.
    + cbn [seq map] in K. rewrite K in Hm. cbn in Hm.
      apply map_eq_nil in Hm. rewrite Hm.
      unfold enumerate. cbn [length seq combine for_each].
      unfold bind, ret, json_dump, time_time. eauto.
    + cbn [seq map] in K.
      change (agent_name 0) with "agent_0" in K.
      change (agent_name 1) with "agent_1" in K.
      rewrite K in Hm. cbn in Hm.
      destruct (debates t2) as [|d0 [|? ?]] eqn:Ed; try discriminate.
      cbn [map] in Hm.
      assert (Hd : pair_list (participants d0) = ["agent_0"; "agent_1"])
        by congruence.
      apply participants_of_pair_list in Hd.
      unfold enumerate. cbn [length seq combine for_each].
      unfold bind.
      rewrite (collect_votes_two_agents t2 d0 0 _ K Hd).
      unfold ret, json_dump, time_time. eauto.
Qed.

End TournamentExtras.


(** ** Instances of the further properties *)

Lemma example_start_keys : NoDup (keys (agents example_start)).
Proof.
  change (NoDup ["agent_0"; "agent_1"; "agent_2"]).
  repeat constructor; simpl; intuition discriminate.
Qed.

Lemma phase_1_positions_match_agents_witness :
  NoDup (keys (agents example_start)) /\
  positions example_start = [] /\
  exists t' w',
    run_phase_1_positions example_chat clock_seconds example_start world0
      = Ok (t', w') /\
    keys (positions t') = ["agent_0"; "agent_1"; "agent_2"].
Proof.
  split; [exact example_start_keys|]. split; [reflexivity|].
  destruct (phase_1_positions_match_agents example_chat clock_seconds
              example_start world0 example_start_keys eq_refl)
    as (t' & w' & new & E & _ & Hp & _).
  exists t', w'. split; [exact E | exact Hp].
Defined.

Lemma run_debate_protocol_witness :
  "agent_0" <> "agent_1" /\
  dict_get (agents example_start) "agent_0" =
    Some (DebateAgent_init "agent_0" "llama3.2") /\
  dict_get (agents example_start) "agent_1" =
    Some (DebateAgent_init "agent_1" "llama3.2") /\
  exists d t' w',
    run_debate example_chat clock_seconds example_start "agent_0" "agent_1"
               world0 = Ok ((d, t'), w') /\
    participants d = ("agent_0", "agent_1") /\
    length (chat_log w') = 4.
Proof.
  assert (Hne : "agent_0" <> "agent_1") by discriminate.
  split; [exact Hne|]. split; [reflexivity|]. split; [reflexivity|].
  destruct (run_debate_protocol example_chat clock_seconds example_start
              "agent_0" "agent_1" _ _ world0 Hne eq_refl eq_refl)
    as (r1 & r2 & r3 & r4 & d & t' & w' & A' & B' & E & L & P & _).
  exists d, t', w'. split; [exact E|]. split; [exact P|].
  rewrite L. reflexivity.
Defined.

Lemma votes_are_well_formed_witness :
  exists t t' w',
    example_tournament 3 = Ok t /\
    run_phases example_chat clock_seconds t world0 = Ok (t', w') /\
    forall key vd v,
      dict_get (votes t') key = Some vd ->
      In v (vd_votes vd) ->
      winner_id v = fst (vd_participants vd) \/
      winner_id v = snd (vd_participants vd).
Proof.
  eexists.
  destruct (votes_are_well_formed example_chat clock_seconds 3 None None
              "position" "debate_results" _ world0 eq_refl)
    as (t' & w' & E & H).
  exists t', w'. split; [reflexivity|]. split; [exact E|].
  intros key vd v Hk Hv. exact (proj1 (proj2 (H key vd v Hk Hv))).
Defined.

Lemma backend_call_count_witness :
  exists t t' w',
    example_tournament 3 = Ok t /\
    run_phases example_chat clock_seconds t world0 = Ok (t', w') /\
    length (chat_log w') = 18.
Proof.
  eexists.
  destruct (backend_call_count example_chat clock_seconds 3 None None
              "position" "debate_results" _ world0 eq_refl)
    as [(t' & w' & E & L) _].
  exists t', w'. split; [reflexivity|]. split; [exact E | exact L].
Defined.

Lemma results_rankings_witness :
  calculate_results clock_seconds (fst example_final) (snd example_final)
    = Ok (tt, example_final_again) /\
  NoDup (keys (agents (fst example_final))) /\
  exists r,
    tournament_results (fst example_final) example_final_again = Some r /\
    keys (win_counts r) = ["agent_0"; "agent_1"; "agent_2"] /\
    Permutation (rankings r) (win_counts r).
Proof.
  assert (H1 : calculate_results clock_seconds (fst example_final)
                 (snd example_final) = Ok (tt, example_final_again))
    by (vm_compute; reflexivity).
  assert (H2 : NoDup (keys (agents (fst example_final))))
    by exact example_start_keys.
  split; [exact H1|]. split; [exact H2|].
  destruct (results_rankings clock_seconds _ _ _ H1 H2)
    as (r & Hr & Hk & Hp & _).
  exists r. split; [exact Hr|]. split; [exact Hk | exact Hp].
Defined.

Lemma calculate_results_after_phases_alone_witness :
  exists t t' w',
    example_tournament 3 = Ok t /\
    run_phases example_chat clock_seconds t world0 = Ok (t', w') /\
    calculate_results clock_seconds t' w' = Raise TypeError.
Proof.
  eexists.
  destruct (calculate_results_after_phases_alone example_chat clock_seconds
              3 None None "position" "debate_results" _ world0 eq_refl)
    as (t' & w' & E & _ & H & _).
  exists t', w'. split; [reflexivity|]. split; [exact E|].
  apply H. discriminate.
Defined.

(** * SocietyDebateTournament *)

Lemma bot_name_inj i j : bot_name i = bot_name j -> i = j.
Proof.
  unfold bot_name. simpl. intros H. injection H as H.
  now apply str_of_nat_inj.
Qed.

Lemma combinations_map {A B} (f : A -> B) (l : list A) r :
  combinations (map f l) r = map (map f) (combinations l r).
Proof.
  revert r. induction l as [|x tl IH]; intros [|r]; try reflexivity.
  cbn [map combinations]. rewrite !IH, map_app, !map_map. reflexivity.
Qed.

Lemma enumerate_map_snd {A B} (f : A -> B) (l : list A) :
  map (fun ix => f (snd ix)) (enumerate l) = map f l.
Proof. now rewrite <- (map_map snd f), enumerate_snd. Qed.

Lemma round_dict_ready ty a ra b rb :
  Society.round_ready (a, b) (round_dict ty a ra b rb).
Proof.
  unfold Society.round_ready, round_dict. simpl fst. simpl snd.
  rewrite !in_keys_dict_set. auto.
Qed.

Lemma round_dict_get ty a ra b rb :
  dict_get (round_dict ty a ra b rb) b = Some rb /\
  (a <> b -> dict_get (round_dict ty a ra b rb) a = Some ra).
Proof.
  unfold round_dict. split; [apply dict_get_set_same|].
  intros Hab. rewrite dict_get_set_other by congruence.
  apply dict_get_set_same.
Qed.

(** The ranking of the first script returns when every entry of [votes]
    has a vote and every winner is one of the bots. *)
Lemma society_rankings_total (z : Z) (vs : dict Society.VoteData) :
  Forall (fun kv : string * Society.VoteData =>
            snd (snd kv) <> [] /\
            forall v, In v (snd (snd kv)) ->
                      In (sv_winner_id v)
                         (map bot_name (seq 0 (Z.to_nat z)))) vs ->
  exists wc,
    calculate_rankings z vs = Ok (sorted_desc wc, wc) /\
    sum_nat (values wc) = length vs /\
    keys wc = map bot_name (seq 0 (Z.to_nat z)).
Proof.
  intros H.
  assert (Hnd : NoDup (map bot_name (seq 0 (Z.to_nat z)))).
  { apply Finite.Injective_map_NoDup; [|apply seq_NoDup].
    intros a b. apply bot_name_inj. }
  destruct (count_wins_total
              (map (fun kv : string * (string * string * list SocietyVote) =>
                      map sv_winner_id (snd (snd kv))) vs)
              (zero_counts (map bot_name (seq 0 (Z.to_nat z)))))
    as [wc Hwc].
  { apply Forall_map. eapply Forall_impl; [|exact H]. cbv beta.
    intros kv [Hne Hin]. split.
    - intros Hm. apply Hne. apply map_eq_nil in Hm. exact Hm.
    - intros x Hx. apply in_map_iff in Hx as (v & <- & Hv).
      rewrite keys_zero_counts by exact Hnd. now apply Hin. }
  exists wc. unfold calculate_rankings. rewrite Hwc.
  split; [reflexivity|].
  apply count_wins_sum in Hwc as [Hs Hk].
  rewrite (sum_zero (values (zero_counts _))) in Hs
    by apply zero_counts_values_zero.
  rewrite length_map in Hs. split; [exact Hs|].
  rewrite Hk. now apply keys_zero_counts.
Qed.

Lemma society_rankings_empty_vote (z : Z) k ps (post : dict Society.VoteData) :
  calculate_rankings z ((k, (ps, [])) :: post) =
  Raise (ValueError "max() arg is an empty sequence").
Proof. reflexivity. Qed.

Lemma bot_names_NoDup t : NoDup (Society.bot_names t).
Proof.
  apply Finite.Injective_map_NoDup; [|apply seq_NoDup].
  intros a b. apply bot_name_inj.
Qed.

Section SocietyProperties.

Import Society.

Variable chat : nat -> string -> list Message -> string.
Variable now : nat -> string.

Lemma society_bind_ok {A B} (m : M A) (f : A -> M B) w a w' :
  m w = Ok (a, w') -> bind m f w = f a w'.
Proof. unfold bind. now intros ->. Qed.

Lemma society_bind_inv {A B} (m : M A) (f : A -> M B) w b w' :
  bind m f w = Ok (b, w') ->
  exists a w1, m w = Ok (a, w1) /\ f a w1 = Ok (b, w').
Proof.
  unfold bind. destruct (m w) as [[a w1]|]; [eauto | discriminate].
Qed.

Lemma society_for_each_inv {A S} (I : list A -> S -> World -> Prop)
      (body : A -> S -> M S) (l : list A) :
  (forall pre x post s w,
      l = pre ++ x :: post -> I pre s w ->
      exists s' w', body x s w = Ok (s', w') /\ I (pre ++ [x]) s' w') ->
  forall s w, I [] s w ->
  exists s' w', for_each l body s w = Ok (s', w') /\ I l s' w'.
Proof.
  intros Hbody.
  assert (G : forall rest done s w,
             l = done ++ rest -> I done s w ->
             exists s' w', for_each rest body s w = Ok (s', w') /\ I l s' w').
  { induction rest as [|x rest IH]; intros done s w El Hi.
    - rewrite app_nil_r in El. subst. exists s, w. split; auto.
    - destruct (Hbody done x rest s w El Hi) as (s1 & w1 & E1 & I1).
      destruct (IH (done ++ [x]) s1 w1) as (s2 & w2 & E2 & I2); auto.
      { now rewrite <- app_assoc. }
      exists s2, w2. split; auto. simpl.
      now rewrite (society_bind_ok _ _ _ _ _ E1). }
  intros s w Hi. now apply (G l [] s w).
Qed.

(** ** Counting requests *)

Lemma calls_refl mdl w w' : chat_log w' = chat_log w -> calls mdl w w' 0.
Proof.
  intros E. exists []. rewrite app_nil_r. split; [exact E|].
  split; [reflexivity | constructor].
Qed.

Lemma calls_trans mdl w1 w2 w3 j k :
  calls mdl w1 w2 j -> calls mdl w2 w3 k -> calls mdl w1 w3 (j + k).
Proof.
  intros (n1 & E1 & L1 & F1) (n2 & E2 & L2 & F2). exists (n1 ++ n2).
  rewrite E2, E1, <- app_assoc, length_app, L1, L2.
  split; [reflexivity|]. split; [reflexivity|]. apply Forall_app. auto.
Qed.

Lemma calls_log mdl w w' new :
  chat_log w' = chat_log w ++ new -> Forall (stateless mdl) new ->
  calls mdl w w' (length new).
Proof. intros E F. exists new. auto. Qed.

Lemma stateless_user mdl p : stateless mdl (mdl, [mkMessage "user" p]).
Proof. split; [reflexivity | now exists p]. Qed.

(** ** The methods *)

Lemma generate_ideal_society_eq t b w :
  generate_ideal_society chat now t b w =
  let s := mkSociety b
             (chat (length (chat_log w)) (model t)
                   [mkMessage "user" society_prompt])
             (now (ticks w)) in
  Ok ((s, set_societies t (dict_set (societies t) b s)),
      mkWorld (S (ticks w))
              (chat_log w ++ [(model t, [mkMessage "user" society_prompt])])
              (files w)).
Proof. reflexivity. Qed.

Lemma society_run_debate_eq t a b sa sb w :
  dict_get (societies t) a = Some sa ->
  dict_get (societies t) b = Some sb ->
  let k := length (chat_log w) in
  let m := model t in
  let q1 := [mkMessage "user" (rebuttal_prompt (description sb))] in
  let q2 := [mkMessage "user" (rebuttal_prompt (description sa))] in
  let r1 := chat k m q1 in
  let r2 := chat (S k) m q2 in
  let q3 := [mkMessage "user" (closing_prompt (description sa) r2)] in
  let q4 := [mkMessage "user" (closing_prompt (description sb) r1)] in
  let r3 := chat (S (S k)) m q3 in
  let r4 := chat (S (S (S k))) m q4 in
  let d := mkDebate (a, b)
             [round_dict "opening" a (description sa) b (description sb);
              round_dict "rebuttal" a r1 b r2;
              round_dict "closing" a r3 b r4] in
  run_debate chat t a b w =
  Ok ((d, set_debates t (debates t ++ [d])),
      mkWorld (ticks w)
              (chat_log w ++ [(m, q1); (m, q2); (m, q3); (m, q4)])
              (files w)).
Proof.
  intros Ha Hb. cbv zeta.
  unfold run_debate, bind, lookup. rewrite Ha, Hb.
  unfold ret, ollama_chat. cbn [ticks chat_log files].
  rewrite !length_app. cbn [length].
  rewrite !Nat.add_1_r, <- !app_assoc. reflexivity.
Qed.

Lemma vote_on_debate_eq t d voter w r0 r1 r2 rest a0 b0 a1 b1 a2 b2 :
  rounds d = r0 :: r1 :: r2 :: rest ->
  dict_get r0 (fst (participants d)) = Some a0 ->
  dict_get r0 (snd (participants d)) = Some b0 ->
  dict_get r1 (fst (participants d)) = Some a1 ->
  dict_get r1 (snd (participants d)) = Some b1 ->
  dict_get r2 (fst (participants d)) = Some a2 ->
  dict_get r2 (snd (participants d)) = Some b2 ->
  let q := [mkMessage "user" (debate_text a0 b0 a1 b1 a2 b2)] in
  vote_on_debate chat t d voter w =
  Ok (society_vote voter (participants d)
                   (chat (length (chat_log w)) (model t) q),
      mkWorld (ticks w) (chat_log w ++ [(model t, q)]) (files w)).
Proof.
  intros Hr H1 H2 H3 H4 H5 H6. cbv zeta.
  unfold vote_on_debate, bind, index, lookup. rewrite Hr. cbn [nth_error].
  unfold ret at 1. rewrite H1. unfold ret at 1. rewrite H2.
  unfold ret at 1. unfold ret at 1. rewrite H3. unfold ret at 1.
  rewrite H4. unfold ret at 1. unfold ret at 1. rewrite H5.
  unfold ret at 1. rewrite H6. reflexivity.
Qed.

Lemma vote_on_debate_ok t d voter w :
  debate_ready d ->
  exists p,
    vote_on_debate chat t d voter w =
    Ok (society_vote voter (participants d)
                     (chat (length (chat_log w)) (model t)
                           [mkMessage "user" p]),
        mkWorld (ticks w)
                (chat_log w ++ [(model t, [mkMessage "user" p])]) (files w)).
Proof.
  intros (r0 & r1 & r2 & rest & Hr & [A0 B0] & [A1 B1] & [A2 B2]).
  apply dict_get_in in A0 as [a0 A0]. apply dict_get_in in B0 as [b0 B0].
  apply dict_get_in in A1 as [a1 A1]. apply dict_get_in in B1 as [b1 B1].
  apply dict_get_in in A2 as [a2 A2]. apply dict_get_in in B2 as [b2 B2].
  exists (debate_text a0 b0 a1 b1 a2 b2).
  now apply (vote_on_debate_eq t d voter w r0 r1 r2 rest).
Qed.

Lemma society_vote_winner voter ps text :
  sv_voter_id (society_vote voter ps text) = voter /\
  sv_reasoning (society_vote voter ps text) = text /\
  (sv_winner_id (society_vote voter ps text) = fst ps \/
   sv_winner_id (society_vote voter ps text) = snd ps).
Proof.
  unfold society_vote. cbv zeta. cbn [sv_voter_id sv_reasoning sv_winner_id].
  split; [reflexivity|]. split; [reflexivity|].
  destruct (String.eqb _ "A"); auto.
Qed.

(** ** The phases *)

Lemma generate_societies_ok t w :
  societies t = [] ->
  exists t' w',
    generate_societies chat now t w = Ok (t', w') /\
    same_setup t t' /\ debates t' = debates t /\ votes t' = votes t /\
    keys (societies t') = bot_names t /\
    (forall b s, dict_get (societies t') b = Some s -> bot_id s = b) /\
    calls (model t) w w' (length (bot_names t)).
Proof.
  intros Hs0. unfold generate_societies, bot_names, bot_range.
  set (l := seq 0 (Z.to_nat (num_bots t))).
  set (body := fun (i : nat) (t0 : SocietyDebateTournament) => _).
  assert (Hloop : exists t1 w1,
             for_each l body t w = Ok (t1, w1) /\
             (same_setup t t1 /\ debates t1 = debates t /\
              votes t1 = votes t /\
              keys (societies t1) = map bot_name l /\
              (forall b s, dict_get (societies t1) b = Some s -> bot_id s = b) /\
              calls (model t) w w1 (length (map bot_name l)))).
  { apply (society_for_each_inv
             (fun pre s w1 =>
                same_setup t s /\ debates s = debates t /\
                votes s = votes t /\
                keys (societies s) = map bot_name pre /\
                (forall b e, dict_get (societies s) b = Some e -> bot_id e = b) /\
                calls (model t) w w1 (length (map bot_name pre)))).
    - intros pre x post s ws El (Hs & Hd & Hv & Hk & Hid & Hc).
      unfold body. unfold bind at 1. rewrite generate_ideal_society_eq.
      cbv zeta. unfold ret. eexists _, _. split; [reflexivity|].
      cbn [model num_bots results_dir societies debates votes set_societies].
      assert (Hx : ~ In (bot_name x) (keys (societies s))).
      { rewrite Hk. intros Hin. apply in_map_iff in Hin as (j & Hj & Hjin).
        apply bot_name_inj in Hj. subst j.
        pose proof (seq_NoDup (Z.to_nat (num_bots t)) 0) as Hnd.
        fold l in Hnd. rewrite El in Hnd.
        apply NoDup_remove_2 in Hnd. apply Hnd. apply in_or_app. now left. }
      split; [exact Hs|]. split; [exact Hd|]. split; [exact Hv|].
      split; [|split].
      + rewrite dict_set_absent by exact Hx.
        unfold keys in *. rewrite !map_app, Hk. reflexivity.
      + intros b e. destruct (String.eqb_spec (bot_name x) b) as [<- | Hne].
        * rewrite dict_get_set_same. intros E. now injection E as <-.
        * rewrite dict_get_set_other by exact Hne. apply Hid.
      + rewrite map_app, length_app. apply (calls_trans _ _ ws); [exact Hc|].
        destruct Hs as (Hm & _). rewrite <- Hm.
        apply (calls_log _ ws _ [(model s, [mkMessage "user" society_prompt])]);
          [reflexivity|].
        constructor; [apply stateless_user | constructor].
    - split; [repeat split|]. split; [reflexivity|]. split; [reflexivity|].
      split; [now rewrite Hs0|]. split.
      + intros b e. rewrite Hs0. discriminate.
      + now apply calls_refl. }
  destruct Hloop as (t1 & w1 & E1 & Hs & Hd & Hv & Hk & Hid & Hc).
  rewrite (society_bind_ok _ _ _ _ _ E1). unfold bind, json_dump, ret.
  eexists _, _. split; [reflexivity|].
  split; [exact Hs|]. split; [exact Hd|]. split; [exact Hv|].
  split; [exact Hk|]. split; [exact Hid|].
  destruct Hc as (new & E & L & F). exists new. auto.
Qed.

Lemma run_debates_ok t w :
  keys (societies t) = bot_names t ->
  debates t = [] ->
  exists t' w',
    run_debates chat t w = Ok (t', w') /\
    same_setup t t' /\ societies t' = societies t /\ votes t' = votes t /\
    map (fun d => pair_list (participants d)) (debates t') =
      combinations (bot_names t) 2 /\
    Forall debate_ready (debates t') /\
    calls (model t) w w' (4 * length (combinations (bot_names t) 2)).
Proof.
  intros Hk Hd0. unfold run_debates, bot_range. cbv zeta.
  set (l := combinations (seq 0 (Z.to_nat (num_bots t))) 2).
  set (body := fun (pair : list nat) (t0 : SocietyDebateTournament) => _).
  assert (Hloop : exists t1 w1,
             for_each l body t w = Ok (t1, w1) /\
             (same_setup t t1 /\ societies t1 = societies t /\
              votes t1 = votes t /\
              map (fun d => pair_list (participants d)) (debates t1) =
                map (map bot_name) l /\
              Forall debate_ready (debates t1) /\
              calls (model t) w w1 (4 * length l))).
  { apply (society_for_each_inv
             (fun pre s w1 =>
                same_setup t s /\ societies s = societies t /\
                votes s = votes t /\
                map (fun d => pair_list (participants d)) (debates s) =
                  map (map bot_name) pre /\
                Forall debate_ready (debates s) /\
                calls (model t) w w1 (4 * length pre))).
    - intros pre x post s ws El (Hs & Hsoc & Hv & Hp & Hr & Hc).
      assert (Hx : In x l) by (rewrite El; apply in_or_app; right; now left).
      apply in_combinations_2 in Hx as (a & b & -> & Ha & Hb).
      assert (Hka : In (bot_name a) (keys (societies s))).
      { rewrite Hsoc, Hk. unfold bot_names. now apply in_map. }
      assert (Hkb : In (bot_name b) (keys (societies s))).
      { rewrite Hsoc, Hk. unfold bot_names. now apply in_map. }
      apply dict_get_in in Hka as [sa Hsa]. apply dict_get_in in Hkb as [sb Hsb].
      unfold body. unfold bind at 1.
      rewrite (society_run_debate_eq s _ _ sa sb ws Hsa Hsb).
      cbv zeta. unfold ret. eexists _, _. split; [reflexivity|].
      cbn [model num_bots results_dir societies debates votes set_debates].
      split; [exact Hs|]. split; [exact Hsoc|]. split; [exact Hv|].
      split; [|split].
      + rewrite !map_app, Hp. reflexivity.
      + apply Forall_app. split; [exact Hr|]. constructor; [|constructor].
        eexists _, _, _, _. cbn [rounds participants].
        split; [reflexivity|].
        split; [apply round_dict_ready|].
        split; apply round_dict_ready.
      + rewrite length_app. cbn [length].
        replace (4 * (length pre + 1)) with (4 * length pre + 4) by lia.
        apply (calls_trans _ _ ws); [exact Hc|].
        destruct Hs as (Hm & _). rewrite <- Hm.
        match goal with
        | |- calls _ _ {| chat_log := _ ++ ?new |} _ =>
            apply (calls_log _ ws _ new); [reflexivity|]
        end.
        repeat (constructor; [apply stateless_user|]). constructor.
    - split; [repeat split|]. split; [reflexivity|]. split; [reflexivity|].
      split; [now rewrite Hd0|]. split; [rewrite Hd0; constructor|].
      now apply calls_refl. }
  destruct Hloop as (t1 & w1 & E1 & Hs & Hsoc & Hv & Hp & Hr & Hc).
  rewrite (society_bind_ok _ _ _ _ _ E1). unfold bind, json_dump, ret.
  eexists _, _. split; [reflexivity|].
  split; [exact Hs|]. split; [exact Hsoc|]. split; [exact Hv|].
  unfold bot_names. rewrite combinations_map, length_map.
  split; [exact Hp|]. split; [exact Hr|].
  destruct Hc as (new & E & L & F). exists new. auto.
Qed.

Lemma society_collect_votes_ok t d w :
  debate_ready d ->
  exists dv w',
    collect_votes chat t d w = Ok (dv, w') /\
    map sv_voter_id dv = voters_of (bot_names t) d /\
    Forall (fun v => sv_winner_id v = fst (participants d) \/
                     sv_winner_id v = snd (participants d)) dv /\
    calls (model t) w w' (length dv).
Proof.
  intros Hd. unfold collect_votes, voters_of, bot_names, bot_range.
  set (l := seq 0 (Z.to_nat (num_bots t))).
  set (body := fun (j : nat) (dv : list SocietyVote) => _).
  set (P := fun v : SocietyVote => _ \/ _).
  apply (society_for_each_inv
           (fun pre dv w1 =>
              map sv_voter_id dv =
                filter (fun x => not_in_participants x (participants d))
                       (map bot_name pre) /\
              Forall P dv /\
              calls (model t) w w1 (length dv))).
  - intros pre x post dv ws El (Hm & Hf & Hc).
    unfold body. rewrite map_app, filter_app. cbn [map filter].
    destruct (not_in_participants (bot_name x) (participants d)).
    + destruct (vote_on_debate_ok t d (bot_name x) ws Hd) as [p E].
      rewrite (society_bind_ok _ _ _ _ _ E). unfold ret.
      eexists _, _. split; [reflexivity|].
      destruct (society_vote_winner (bot_name x) (participants d)
                  (chat (length (chat_log ws)) (model t) [mkMessage "user" p]))
        as (V1 & _ & V3).
      split; [|split].
      * rewrite map_app, Hm. cbn [map]. now rewrite V1.
      * apply Forall_app. split; [exact Hf|]. constructor; [exact V3|constructor].
      * rewrite length_app. apply (calls_trans _ _ ws); [exact Hc|].
        apply (calls_log _ ws _ [(model t, [mkMessage "user" p])]);
          [reflexivity|].
        constructor; [apply stateless_user | constructor].
    + unfold ret. eexists _, _. split; [reflexivity|].
      rewrite app_nil_r. auto.
  - split; [reflexivity|]. split; [constructor | now apply calls_refl].
Qed.

Lemma society_votes_keys names pre vs :
  Forall2 (votes_entry_ok names) pre vs ->
  keys vs = map debate_key (map fst pre).
Proof.
  induction 1 as [|x y l l' Hxy _ IH]; [reflexivity|].
  simpl. destruct Hxy as (-> & _). now rewrite IH.
Qed.

Lemma run_voting_ok t w :
  votes t = [] ->
  Forall debate_ready (debates t) ->
  exists t' w',
    run_voting chat t w = Ok (t', w') /\
    same_setup t t' /\ societies t' = societies t /\
    debates t' = debates t /\
    Forall2 (votes_entry_ok (bot_names t)) (enumerate (debates t)) (votes t') /\
    calls (model t) w w'
          (list_sum (map (fun d => length (voters_of (bot_names t) d))
                         (debates t))).
Proof.
  intros Hv0 Hready. unfold run_voting.
  set (body := fun (ix : nat * Debate) (t0 : SocietyDebateTournament) => _).
  assert (Hloop : exists t1 w1,
             for_each (enumerate (debates t)) body t w = Ok (t1, w1) /\
             (same_setup t t1 /\ societies t1 = societies t /\
              debates t1 = debates t /\
              Forall2 (votes_entry_ok (bot_names t))
                      (enumerate (debates t)) (votes t1) /\
              calls (model t) w w1
                (list_sum (map (fun ix => length (voters_of (bot_names t)
                                                           (snd ix)))
                               (enumerate (debates t)))))).
  { apply (society_for_each_inv
             (fun pre s w1 =>
                same_setup t s /\ societies s = societies t /\
                debates s = debates t /\
                Forall2 (votes_entry_ok (bot_names t)) pre (votes s) /\
                calls (model t) w w1
                  (list_sum (map (fun ix => length (voters_of (bot_names t)
                                                             (snd ix)))
                                 pre)))).
    - intros pre [i d] post s ws El (Hs & Hsoc & Hd & Hf & Hc).
      assert (Hin : In d (debates t)).
      { rewrite <- (enumerate_snd (debates t)), El, map_app.
        apply in_or_app. right. now left. }
      assert (Hrd : debate_ready d) by (eapply Forall_forall; eauto).
      destruct (society_collect_votes_ok s d ws Hrd)
        as (dv & w1 & E & Hm & Hw & Hc1).
      unfold body. rewrite (society_bind_ok _ _ _ _ _ E). unfold ret.
      eexists _, _. split; [reflexivity|].
      cbn [model num_bots results_dir societies debates votes set_votes].
      assert (Hn : bot_names s = bot_names t).
      { unfold bot_names. destruct Hs as (_ & -> & _). reflexivity. }
      split; [exact Hs|]. split; [exact Hsoc|]. split; [exact Hd|].
      split.
      + rewrite dict_set_absent.
        * apply Forall2_app; [exact Hf|]. constructor; [|constructor].
          split; [reflexivity|]. split; [reflexivity|].
          cbn [fst snd]. rewrite <- Hn. split; [exact Hm | exact Hw].
        * rewrite (society_votes_keys _ _ _ Hf). intros Hk.
          apply in_map_iff in Hk as (j & Hj & Hjin).
          apply debate_key_inj in Hj. subst j.
          pose proof (seq_NoDup (length (debates t)) 0) as Hnd.
          rewrite <- enumerate_fst, El, map_app in Hnd. simpl in Hnd.
          apply NoDup_remove_2 in Hnd. apply Hnd.
          apply in_or_app. now left.
      + rewrite map_app, list_sum_app. cbn [map list_sum fold_right snd].
        rewrite Nat.add_0_r. apply (calls_trans _ _ ws); [exact Hc|].
        rewrite <- Hn, <- Hm, length_map.
        destruct Hs as (<- & _). exact Hc1.
    - split; [repeat split|]. split; [reflexivity|]. split; [reflexivity|].
      split; [rewrite Hv0; constructor | now apply calls_refl]. }
  destruct Hloop as (t1 & w1 & E1 & Hs & Hsoc & Hd & Hf & Hc).
  rewrite (society_bind_ok _ _ _ _ _ E1). unfold bind, json_dump, ret.
  eexists _, _. split; [reflexivity|].
  split; [exact Hs|]. split; [exact Hsoc|]. split; [exact Hd|].
  split; [exact Hf|].
  pose proof (enumerate_map_snd
                (fun d => length (voters_of (bot_names t) d)) (debates t))
    as Hmap.
  cbv beta in Hmap. rewrite Hmap in Hc.
  destruct Hc as (new & E & L & F). exists new. auto.
Qed.

Lemma society_voters_count t d :
  In (pair_list (participants d)) (combinations (bot_names t) 2) ->
  length (voters_of (bot_names t) d) = length (bot_names t) - 2 /\
  (forall x, In x (voters_of (bot_names t) d) ->
             In x (bot_names t) /\
             x <> fst (participants d) /\ x <> snd (participants d)) /\
  fst (participants d) <> snd (participants d) /\
  In (fst (participants d)) (bot_names t) /\
  In (snd (participants d)) (bot_names t).
Proof.
  intros Hin. unfold voters_of.
  destruct (participants d) as [a b]. unfold pair_list in Hin.
  cbn [fst snd] in *.
  pose proof (bot_names_NoDup t) as Hnd.
  destruct (combinations_2_distinct _ Hnd) as (Hne & _).
  pose proof (Hne a b Hin) as Hab.
  apply in_combinations_2 in Hin as (a' & b' & E & Ha & Hb).
  injection E as <- <-.
  split; [|split; [|auto]].
  - pose proof (voters_length _ a b Hnd Hab) as H.
    apply str_mem_In in Ha, Hb. rewrite Ha, Hb in H. lia.
  - intros x. rewrite filter_In. unfold not_in_participants. simpl.
    rewrite negb_true_iff, !orb_false_iff.
    destruct (String.eqb_spec a x), (String.eqb_spec b x);
      intuition congruence.
Qed.

Lemma society_run_phases_ok mdl z w :
  let t := SocietyDebateTournament_init mdl z in
  let n := Z.to_nat z in
  exists t' w',
    run_phases chat now t w = Ok (t', w') /\
    same_setup t t' /\
    keys (societies t') = bot_names t /\
    (forall b s, dict_get (societies t') b = Some s -> bot_id s = b) /\
    map (fun d => pair_list (participants d)) (debates t') =
      combinations (bot_names t) 2 /\
    Forall debate_ready (debates t') /\
    Forall2 (votes_entry_ok (bot_names t)) (enumerate (debates t')) (votes t') /\
    calls mdl w w' (n + 4 * (n * (n - 1) / 2) + (n * (n - 1) / 2) * (n - 2)).
Proof.
  intros t n.
  assert (Hlen : length (bot_names t) = n).
  { unfold bot_names. now rewrite length_map, length_seq. }
  destruct (generate_societies_ok t w eq_refl)
    as (t1 & w1 & E1 & S1 & D1 & V1 & K1 & I1 & C1).
  assert (N1 : bot_names t1 = bot_names t).
  { unfold bot_names. destruct S1 as (_ & -> & _). reflexivity. }
  assert (M1 : model t1 = mdl) by apply S1.
  rewrite <- N1 in K1.
  destruct (run_debates_ok t1 w1 K1 D1)
    as (t2 & w2 & E2 & S2 & Soc2 & V2 & P2 & R2 & C2).
  assert (N2 : bot_names t2 = bot_names t).
  { unfold bot_names. destruct S2 as (_ & -> & _). exact N1. }
  assert (M2 : model t2 = mdl) by (destruct S2 as (-> & _); exact M1).
  rewrite V1 in V2.
  destruct (run_voting_ok t2 w2 V2 R2)
    as (t3 & w3 & E3 & S3 & Soc3 & D3 & F3 & C3).
  exists t3, w3. split.
  { unfold run_phases. rewrite (society_bind_ok _ _ _ _ _ E1).
    now rewrite (society_bind_ok _ _ _ _ _ E2). }
  split.
  { unfold same_setup in *. intuition congruence. }
  split; [rewrite Soc3, Soc2, K1; exact N1|].
  split; [rewrite Soc3, Soc2; exact I1|].
  rewrite D3. rewrite N1 in P2. rewrite N2 in F3.
  split; [exact P2|]. split; [exact R2|]. split; [exact F3|].
  rewrite M1 in C2. rewrite M2 in C3. change (model t) with mdl in C1.
  rewrite Hlen in C1. rewrite N1, combinations_2_length, Hlen in C2.
  assert (Hall : forall d, In d (debates t2) ->
                           length (voters_of (bot_names t2) d) = n - 2).
  { intros d Hd. rewrite N2, <- Hlen. apply society_voters_count.
    rewrite <- P2. now apply (in_map (fun d => pair_list (participants d))). }
  rewrite (list_sum_all _ _ _ Hall) in C3.
  assert (Hld : length (debates t2) = n * (n - 1) / 2).
  { rewrite <- (length_map (fun d => pair_list (participants d))), P2.
    now rewrite combinations_2_length, Hlen. }
  rewrite Hld in C3.
  exact (calls_trans _ _ _ _ _ _ (calls_trans _ _ _ _ _ _ C1 C2) C3).
Qed.

Lemma society_run_tournament_eq t w :
  run_tournament chat now t w =
  bind (run_phases chat now t)
       (fun t3 => bind (calculate_rankings now t3) (fun _ => ret t3)) w.
Proof.
  unfold run_tournament, run_phases, bind.
  destruct (generate_societies chat now t w) as [[t1 w1]|]; [|reflexivity].
  destruct (run_debates chat t1 w1) as [[t2 w2]|]; reflexivity.
Qed.

Lemma society_votes_lookup names ds vs i d :
  Forall2 (votes_entry_ok names) (enumerate ds) vs ->
  nth_error ds i = Some d ->
  exists dv,
    dict_get vs (debate_key i) = Some (participants d, dv) /\
    votes_entry_ok names (i, d) (debate_key i, (participants d, dv)).
Proof.
  intros Hf Hn. apply in_enumerate in Hn.
  destruct (Forall2_in_l _ _ _ _ Hf Hn) as ([k [ps dv]] & Hin & Hp).
  assert (k = debate_key i) by apply Hp. subst k.
  assert (ps = participants d) by apply Hp. subst ps.
  exists dv. split; auto.
  apply NoDup_keys_in_get; auto.
  rewrite (society_votes_keys _ _ _ Hf), enumerate_fst.
  apply Finite.Injective_map_NoDup; [|apply seq_NoDup].
  intros a b. apply debate_key_inj.
Qed.

(** The three phases on a new tournament of n bots, for any backend and
    clock: they return; the societies are those of [bot_0] ... in order,
    each stored under its own id; the debates are the pairs (i, j), i < j,
    in lexicographic order, n(n-1)/2 of them; the votes are stored under
    [debate_0] ... in order, and the entry of each debate holds its
    participants and one vote of each of the n - 2 other bots, in bot
    order, each for one of the two participants. *)
Theorem society_tournament_structure :
  forall (mdl : string) (z : Z) (w : World),
    let t := SocietyDebateTournament_init mdl z in
    let n := Z.to_nat z in
    let names := map bot_name (seq 0 n) in
    exists t' w',
      run_phases chat now t w = Ok (t', w') /\
      model t' = mdl /\ num_bots t' = z /\
      keys (societies t') = names /\
      (forall b s, dict_get (societies t') b = Some s -> bot_id s = b) /\
      map (fun d => pair_list (participants d)) (debates t') =
        pairs_by_index names /\
      length (debates t') = n * (n - 1) / 2 /\
      keys (votes t') = map debate_key (seq 0 (n * (n - 1) / 2)) /\
      forall i d,
        nth_error (debates t') i = Some d ->
        exists dv,
          dict_get (votes t') (debate_key i) = Some (participants d, dv) /\
          map sv_voter_id dv = voters_of names d /\
          length dv = n - 2 /\
          forall v, In v dv ->
                    (sv_winner_id v = fst (participants d) \/
                     sv_winner_id v = snd (participants d)) /\
                    In (sv_voter_id v) names /\
                    sv_voter_id v <> fst (participants d) /\
                    sv_voter_id v <> snd (participants d).
Proof.
  intros mdl z w t n names.
  destruct (society_run_phases_ok mdl z w)
    as (t' & w' & E & S & K & I & P & R & F & C).
  fold t in E, S, K, I, P, R, F.
  change (bot_names t) with names in *.
  assert (Hlen : length names = n).
  { unfold names. now rewrite length_map, length_seq. }
  assert (Hld : length (debates t') = n * (n - 1) / 2).
  { rewrite <- (length_map (fun d => pair_list (participants d))), P.
    now rewrite combinations_2_length, Hlen. }
  exists t', w'. split; [exact E|].
  split; [apply S|]. split; [apply S|]. split; [exact K|].
  split; [exact I|].
  split; [rewrite P; apply combinations_2_by_index|].
  split; [exact Hld|].
  split.
  { rewrite (society_votes_keys _ _ _ F), enumerate_fst. now rewrite Hld. }
  intros i d Hn.
  destruct (society_votes_lookup _ _ _ _ _ F Hn) as (dv & Hg & _ & _ & Hm & Hw).
  cbn [fst snd] in Hm, Hw.
  assert (Hin : In (pair_list (participants d)) (combinations (bot_names t) 2)).
  { change (bot_names t) with names. rewrite <- P.
    apply (in_map (fun d => pair_list (participants d))).
    eapply nth_error_In; eauto. }
  destruct (society_voters_count t d Hin) as (Hc & Hx & _).
  change (bot_names t) with names in Hc, Hx.
  exists dv. split; [exact Hg|]. split; [exact Hm|].
  split; [rewrite <- (length_map sv_voter_id), Hm, Hc, Hlen; reflexivity|].
  intros v Hv. rewrite Forall_forall in Hw. split; [exact (Hw v Hv)|].
  apply (Hx (sv_voter_id v)). rewrite <- Hm. now apply in_map.
Qed.

(** Every request of the first script is stateless: a single user message
    sent to the tournament's model.  The three phases of a tournament of n
    bots make n + 4 n(n-1)/2 + (n(n-1)/2)(n - 2) of them, and a tournament
    that returns has made exactly those. *)
Theorem society_requests_are_stateless :
  forall (mdl : string) (z : Z) (w : World),
    let t := SocietyDebateTournament_init mdl z in
    let n := Z.to_nat z in
    let k := n + 4 * (n * (n - 1) / 2) + (n * (n - 1) / 2) * (n - 2) in
    (exists t' w' new,
        run_phases chat now t w = Ok (t', w') /\
        chat_log w' = chat_log w ++ new /\ length new = k /\
        Forall (fun e => fst e = mdl /\
                         exists p, snd e = [mkMessage "user" p]) new) /\
    (forall t' w',
        run_tournament chat now t w = Ok (t', w') ->
        exists new,
          chat_log w' = chat_log w ++ new /\ length new = k /\
          Forall (fun e => fst e = mdl /\
                           exists p, snd e = [mkMessage "user" p]) new).
Proof.
  intros mdl z w t n k.
  destruct (society_run_phases_ok mdl z w)
    as (t3 & w3 & E & _ & _ & _ & _ & _ & _ & (new & L & N & F)).
  fold t in E. split.
  - exists t3, w3, new. auto.
  - intros t' w' Er. rewrite society_run_tournament_eq in Er.
    rewrite (society_bind_ok _ _ _ _ _ E) in Er.
    apply society_bind_inv in Er as ([] & w4 & Ec & Er).
    unfold ret in Er. injection Er as _ <-.
    exists new. split; [|auto]. rewrite <- L.
    unfold calculate_rankings in Ec.
    match type of Ec with
    | match ?r with _ => _ end _ = _ => destruct r as [[rk wc]|]
    end; [|discriminate].
    unfold bind, datetime_now, json_dump in Ec. now injection Ec as <-.
Qed.

Lemma society_outcome_by_size :
  forall (mdl : string) (z : Z) (w : World),
    let t := SocietyDebateTournament_init mdl z in
    let n := Z.to_nat z in
    (n <> 2 ->
     exists t' w3 w' s,
       run_phases chat now t w = Ok (t', w3) /\
       chat_log w' = chat_log w3 /\
       run_tournament chat now t w = Ok (t', w') /\
       tournament_summary t' w' = Some s /\
       keys (win_counts s) = map bot_name (seq 0 n) /\
       sum_nat (values (win_counts s)) = n * (n - 1) / 2 /\
       total_debates s = n * (n - 1) / 2 /\
       rankings s = sorted_desc (win_counts s) /\
       Permutation (rankings s) (win_counts s)) /\
    (n = 2 ->
     run_tournament chat now t w =
       Raise (ValueError "max() arg is an empty sequence")).
Proof.
  intros mdl z w t n.
  destruct (society_run_phases_ok mdl z w)
    as (t3 & w3 & E & S & K & I & P & R & F & C).
  fold t in E, S, K, I, P, R, F. fold n in C.
  assert (Hlen : length (bot_names t) = n).
  { unfold bot_names. now rewrite length_map, length_seq. }
  assert (Hld : length (debates t3) = n * (n - 1) / 2).
  { rewrite <- (length_map (fun d => pair_list (participants d))), P.
    now rewrite combinations_2_length, Hlen. }
  assert (Hz : num_bots t3 = z) by apply S.
  assert (Hlv : length (votes t3) = length (debates t3)).
  { rewrite <- (Forall2_length F). apply enumerate_length. }
  split.
  - intros Hn2.
    destruct (society_rankings_total z (votes t3)) as (wc & Ew & Hs & Hk).
    { apply Forall_forall. intros [key [ps dv]] Hin.
      destruct (Forall2_in_r _ _ _ _ F Hin) as ([i d] & Hid & _ & _ & Hm & Hw).
      cbn [fst snd] in *.
      assert (Hd : In d (debates t3)).
      { rewrite <- (enumerate_snd (debates t3)).
        now apply (in_map snd) in Hid. }
      assert (Hc : In (pair_list (participants d))
                      (combinations (bot_names t) 2)).
      { rewrite <- P.
        now apply (in_map (fun d => pair_list (participants d))). }
      destruct (society_voters_count t d Hc) as (Hc1 & _ & _ & Ha & Hb).
      split.
      + intros ->. simpl in Hm. rewrite <- Hm in Hc1. simpl in Hc1.
        rewrite Hlen in Hc1.
        assert (1 <= length (debates t3))
          by (destruct (debates t3); [contradiction | simpl; lia]).
        rewrite Hld in *.
        destruct n as [|[|[|n']]]; simpl in *; try lia.
      + intros v Hv. change (In (sv_winner_id v) (bot_names t)).
        rewrite Forall_forall in Hw. destruct (Hw v Hv) as [-> | ->]; auto. }
    exists t3, w3. eexists. eexists.
    split; [exact E|].
    rewrite society_run_tournament_eq, (society_bind_ok _ _ _ _ _ E).
    unfold bind at 1. unfold calculate_rankings. rewrite Hz, Ew.
    unfold bind, datetime_now, json_dump, ret.
    split; [|split; [reflexivity|]]; [reflexivity|].
    unfold tournament_summary. cbn [files]. rewrite dict_get_set_same.
    split; [reflexivity|]. cbn [win_counts total_debates rankings].
    split; [exact Hk|]. split; [now rewrite Hs, Hlv|].
    split; [exact Hld|]. split; [reflexivity | apply sorted_desc_perm].
  - intros Hn2.
    + rewrite society_run_tournament_eq, (society_bind_ok _ _ _ _ _ E).
      unfold bind at 1. unfold calculate_rankings. rewrite Hz.
      rewrite Hn2 in Hld. simpl in Hld.
      destruct (debates t3) as [|d [|? ?]] eqn:Ed; try discriminate.
      inversion F as [|x y l l' Hxy Hnil]; subst. inversion Hnil; subst.
      destruct y as [key [ps dv]].
      destruct Hxy as (_ & _ & Hm & _). cbn [fst snd] in Hm.
      assert (Hc : In (pair_list (participants d))
                      (combinations (bot_names t) 2)).
      { rewrite <- P. now left. }
      destruct (society_voters_count t d Hc) as (Hc1 & _).
      rewrite <- Hm, length_map, Hlen, Hn2 in Hc1. simpl in Hc1.
      destruct dv; [|discriminate].
      now rewrite society_rankings_empty_vote.
Qed.

(** The outcome of [run_tournament] on a new tournament of n bots.  With
    n other than 2 it returns, and the summary it saves credits one bot per
    debate: the win counts list the bots in order and sum to the number of
    debates, n(n-1)/2, which is also the saved total; the rankings are the
    win counts sorted.  With 2 bots the only debate has no voter and the
    run fails with [ValueError] in [calculate_rankings], after the three
    phases. *)
Theorem society_tournament_outcome :
  forall (mdl : string) (z : Z) (w : World),
    let t := SocietyDebateTournament_init mdl z in
    let n := Z.to_nat z in
    (n <> 2 ->
     exists t' w' s,
       run_tournament chat now t w = Ok (t', w') /\
       tournament_summary t' w' = Some s /\
       keys (win_counts s) = map bot_name (seq 0 n) /\
       sum_nat (values (win_counts s)) = n * (n - 1) / 2 /\
       total_debates s = n * (n - 1) / 2 /\
       rankings s = sorted_desc (win_counts s) /\
       Permutation (rankings s) (win_counts s)) /\
    (n = 2 ->
     run_tournament chat now t w =
       Raise (ValueError "max() arg is an empty sequence")).
Proof.
  intros mdl z w t n.
  destruct (society_outcome_by_size mdl z w) as [Hok Hbad].
  split; [|exact Hbad].
  intros Hne. destruct (Hok Hne) as (t' & w3 & w' & s & _ & _ & E & H).
  exists t', w', s. split; [exact E | exact H].
Qed.

(** The script of society_debate_tournament.py, for any backend and clock:
    the tournament of ten bots runs to the end; it holds 45 debates, makes
    550 requests and saves a summary whose win counts sum to 45. *)
Theorem society_script_runs :
  forall w : World,
  exists t' w' s new,
    main chat now w = Ok (t', w') /\
    length (debates t') = 45 /\
    tournament_summary t' w' = Some s /\
    total_debates s = 45 /\
    sum_nat (values (win_counts s)) = 45 /\
    chat_log w' = chat_log w ++ new /\ length new = 550.
Proof.
  intros w. unfold main.
  destruct (society_outcome_by_size "llama3.2" 10 w) as [Hok _].
  destruct (Hok ltac:(discriminate))
    as (t' & w3 & w' & s & E3 & L & E & Hs & _ & Hsum & Htot & _).
  destruct (society_run_phases_ok "llama3.2" 10 w)
    as (t3 & w3' & E3' & _ & _ & _ & P & _ & _ & (new & Hl & Hn & _)).
  rewrite E3 in E3'. injection E3' as <- <-.
  exists t', w', s, new. split; [exact E|].
  split.
  { rewrite <- (length_map (fun d => pair_list (participants d))), P.
    reflexivity. }
  split; [exact Hs|]. split; [exact Htot|]. split; [exact Hsum|].
  split; [now rewrite L | exact Hn].
Qed.

Lemma society_index_inv {A} (l : list A) i x (w w' : World) :
  index l i w = Ok (x, w') -> nth_error l i = Some x /\ w' = w.
Proof.
  unfold index. destruct (nth_error l i); [|discriminate].
  unfold ret. intros E. now injection E as -> ->.
Qed.

Lemma society_lookup_inv {V} (d : dict V) k v (w w' : World) :
  lookup d k w = Ok (v, w') -> dict_get d k = Some v /\ w' = w.
Proof.
  unfold lookup. destruct (dict_get d k); [|discriminate].
  unfold ret. intros E. now injection E as -> ->.
Qed.

(** [run_debate] of the first script, for any two ids.  When both have a
    society it returns after four stateless requests: each bot is asked to
    criticise the other's society, then to defend its own against the
    other's criticism; the debate holds the two descriptions, the two
    criticisms and the two defences by participant, and is appended to the
    debates; nothing else changes.  Otherwise it raises [KeyError] for the
    first id without a society, before any request. *)
Theorem society_run_debate_protocol :
  forall (t : SocietyDebateTournament) (a b : string) (w : World),
    (forall sa sb,
        dict_get (societies t) a = Some sa ->
        dict_get (societies t) b = Some sb ->
        exists r1 r2 r3 r4 d t' w',
          run_debate chat t a b w = Ok ((d, t'), w') /\
          chat_log w' =
            chat_log w ++
            [(model t, [mkMessage "user" (rebuttal_prompt (description sb))]);
             (model t, [mkMessage "user" (rebuttal_prompt (description sa))]);
             (model t, [mkMessage "user"
                          (closing_prompt (description sa) r2)]);
             (model t, [mkMessage "user"
                          (closing_prompt (description sb) r1)])] /\
          participants d = (a, b) /\
          rounds d =
            [round_dict "opening" a (description sa) b (description sb);
             round_dict "rebuttal" a r1 b r2;
             round_dict "closing" a r3 b r4] /\
          debate_ready d /\
          debates t' = debates t ++ [d] /\
          societies t' = societies t /\ votes t' = votes t /\
          same_setup t t' /\
          ticks w' = ticks w /\ files w' = files w) /\
    (~ In a (keys (societies t)) ->
     run_debate chat t a b w = Raise (KeyError a)) /\
    (In a (keys (societies t)) -> ~ In b (keys (societies t)) ->
     run_debate chat t a b w = Raise (KeyError b)).
Proof.
  intros t a b w. split; [|split].
  - intros sa sb Ha Hb.
    pose proof (society_run_debate_eq t a b sa sb w Ha Hb) as E.
    cbv zeta in E. eexists _, _, _, _, _, _, _.
    split; [exact E|]. cbn [chat_log participants rounds ticks files].
    split; [reflexivity|]. split; [reflexivity|]. split; [reflexivity|].
    split.
    { eexists _, _, _, _. cbn [rounds participants].
      split; [reflexivity|]. split; [apply round_dict_ready|].
      split; apply round_dict_ready. }
    repeat split.
  - intros H. apply dict_get_none in H.
    unfold run_debate, bind, lookup. now rewrite H.
  - intros Ha H. apply dict_get_in in Ha as [sa Ha].
    apply dict_get_none in H.
    unfold run_debate, bind, lookup. now rewrite Ha, H.
Qed.

(** What the judge is shown: a debate between two different bots, as
    [run_debate] returns it, is read back by [vote_on_debate] without
    error, for any voter and at any later time; the request is the single
    message made of the two descriptions, the two criticisms and the two
    defences, each in its participant's place, and the vote is extracted
    from the answer. *)
Theorem society_judge_reads_debate :
  forall (t : SocietyDebateTournament) (a b : string) (sa sb : SocietyEntry)
         (w : World),
    a <> b ->
    dict_get (societies t) a = Some sa ->
    dict_get (societies t) b = Some sb ->
    exists r1 r2 r3 r4 d t' w',
      run_debate chat t a b w = Ok ((d, t'), w') /\
      rounds d =
        [round_dict "opening" a (description sa) b (description sb);
         round_dict "rebuttal" a r1 b r2;
         round_dict "closing" a r3 b r4] /\
      forall voter w2,
        let q := [mkMessage "user"
                    (debate_text (description sa) (description sb)
                                 r1 r2 r3 r4)] in
        vote_on_debate chat t' d voter w2 =
          Ok (society_vote voter (a, b)
                           (chat (length (chat_log w2)) (model t) q),
              mkWorld (ticks w2) (chat_log w2 ++ [(model t, q)]) (files w2)).
Proof.
  intros t a b sa sb w Hab Ha Hb.
  pose proof (society_run_debate_eq t a b sa sb w Ha Hb) as E.
  cbv zeta in E. eexists _, _, _, _, _, _, _.
  split; [exact E|]. cbn [rounds]. split; [reflexivity|].
  intros voter w2. cbv zeta.
  erewrite (vote_on_debate_eq _ _ voter w2);
    [reflexivity | reflexivity | cbn [participants fst snd] ..];
    try (apply round_dict_get; exact Hab); apply round_dict_get.
Qed.

(** [vote_on_debate] returns exactly on the debates that have three rounds
    with a text for both participants.  It then makes one stateless
    request and changes nothing else; the vote carries the voter's id and
    the answer, and its winner is the first participant when "A" occurs in
    the first 10 characters of the answer, the second otherwise. *)
Theorem society_vote_on_debate_returns :
  forall (t : SocietyDebateTournament) (d : Debate) (voter : string)
         (w : World),
    ((exists v w', vote_on_debate chat t d voter w = Ok (v, w')) <->
     debate_ready d) /\
    (forall v w',
        vote_on_debate chat t d voter w = Ok (v, w') ->
        exists p,
          chat_log w' = chat_log w ++ [(model t, [mkMessage "user" p])] /\
          ticks w' = ticks w /\ files w' = files w /\
          sv_voter_id v = voter /\
          sv_reasoning v =
            chat (length (chat_log w)) (model t) [mkMessage "user" p] /\
          sv_winner_id v =
            (if str_in "A" (str_take 10 (sv_reasoning v))
             then fst (participants d) else snd (participants d))).
Proof.
  intros t d voter w.
  assert (Hok : debate_ready d ->
                exists p,
                  vote_on_debate chat t d voter w =
                  Ok (society_vote voter (participants d)
                        (chat (length (chat_log w)) (model t)
                              [mkMessage "user" p]),
                      mkWorld (ticks w)
                        (chat_log w ++ [(model t, [mkMessage "user" p])])
                        (files w)))
    by apply vote_on_debate_ok.
  assert (Hinv : forall v w',
             vote_on_debate chat t d voter w = Ok (v, w') -> debate_ready d).
  { intros v w' E. unfold vote_on_debate in E. cbv zeta in E.
    apply society_bind_inv in E as (r0 & w0 & E0 & E).
    apply society_index_inv in E0 as [N0 ->].
    apply society_bind_inv in E as (a0 & w0 & A0 & E).
    apply society_lookup_inv in A0 as [A0 ->].
    apply society_bind_inv in E as (b0 & w0 & B0 & E).
    apply society_lookup_inv in B0 as [B0 ->].
    apply society_bind_inv in E as (r1 & w0 & E1 & E).
    apply society_index_inv in E1 as [N1 ->].
    apply society_bind_inv in E as (a1 & w0 & A1 & E).
    apply society_lookup_inv in A1 as [A1 ->].
    apply society_bind_inv in E as (b1 & w0 & B1 & E).
    apply society_lookup_inv in B1 as [B1 ->].
    apply society_bind_inv in E as (r2 & w0 & E2 & E).
    apply society_index_inv in E2 as [N2 ->].
    apply society_bind_inv in E as (a2 & w0 & A2 & E).
    apply society_lookup_inv in A2 as [A2 ->].
    apply society_bind_inv in E as (b2 & w0 & B2 & E).
    apply society_lookup_inv in B2 as [B2 ->].
    destruct (rounds d) as [|x0 [|x1 [|x2 rest]]] eqn:Er;
      cbn [nth_error] in N0, N1, N2; try discriminate.
    injection N0 as ->. injection N1 as ->. injection N2 as ->.
    exists r0, r1, r2, rest. split; [exact Er|].
    unfold round_ready.
    repeat split; eapply dict_get_some_in; eassumption. }
  split.
  - split; [intros (v & w' & E); eauto|].
    intros H. destruct (Hok H) as [p E]. eauto.
  - intros v w' E. destruct (Hok (Hinv v w' E)) as [p E'].
    rewrite E' in E. injection E as <- <-. exists p.
    cbn [chat_log ticks files].
    split; [reflexivity|]. split; [reflexivity|]. split; [reflexivity|].
    unfold society_vote. cbv zeta.
    cbn [sv_voter_id sv_reasoning sv_winner_id].
    split; [reflexivity|]. split; [reflexivity|].
    destruct (str_in "A" _); reflexivity.
Qed.

End SocietyProperties.


Lemma society_judge_reads_debate_witness :
  "bot_0" <> "bot_1" /\
  dict_get (Society.societies example_societies) "bot_0" =
    Some (Society.mkSociety "bot_0" "A is more convincing." "0") /\
  dict_get (Society.societies example_societies) "bot_1" =
    Some (Society.mkSociety "bot_1" "A is more convincing." "1") /\
  exists d t' w',
    Society.run_debate example_chat example_societies "bot_0" "bot_1"
                       Society.world0 = Ok ((d, t'), w') /\
    forall voter,
    exists v w2,
      Society.vote_on_debate example_chat t' d voter w' = Ok (v, w2) /\
      sv_winner_id v = "bot_0".
Proof.
  assert (Hne : "bot_0" <> "bot_1") by discriminate.
  split; [exact Hne|]. split; [reflexivity|]. split; [reflexivity|].
  destruct (society_judge_reads_debate example_chat example_societies
              "bot_0" "bot_1" _ _ Society.world0 Hne eq_refl eq_refl)
    as (r1 & r2 & r3 & r4 & d & t' & w' & E & _ & Hv).
  exists d, t', w'. split; [exact E|].
  intros voter. eexists _, _. split; [apply Hv | reflexivity].
Defined.


Lemma voting_needs_positions_witness :
  exists t t2 w2,
    example_tournament 3 = Ok t /\
    run_phase_2_debates example_chat clock_seconds t world0 = Ok (t2, w2) /\
    run_phase_3_voting example_chat clock_seconds t2 w2 =
      Raise (KeyError "agent_0").
Proof.
  eexists.
  destruct (voting_needs_positions example_chat clock_seconds 3 None None
              "position" "debate_results" _ world0 eq_refl)
    as (t2 & w2 & E & _ & H & _).
  exists t2, w2. split; [reflexivity|]. split; [exact E|].
  apply H. lia.
Defined.


Section Binary64Run.

#[local] Existing Instance Binary64.float_PyNum.


End Binary64Run.
